(** * The gzip codec of arrow/util/compression_zlib_isal.cc

    A shallow embedding of the gzip [Codec] (one-shot compress and
    decompress over one zlib deflate stream and one ISA-L inflate state),
    of the streaming [GZipDecompressor] and of the backend selector
    [MakeGZipCodec], followed by the properties of the specification that
    concern them.

    The bit-level engines (zlib's deflate, ISA-L's inflate) are external
    to the repository.  They appear here as a record of operations,
    [Engine], over which every definition of the codec is parametric; the
    documented protocol of the two libraries is stated separately as
    [EngineContract], and [Ref.engine] is a small executable engine that
    follows this protocol on a byte-stuffed stored format. *)

From Stdlib Require Import ZArith List String Ascii Bool Lia DecimalString.
From Stdlib.Strings Require Import Byte.
Import ListNotations.
Local Open Scope Z_scope.

Set Implicit Arguments.

(** ** Machine integers *)

(** [static_cast<uInt>(x)]: zlib's [uInt] is [unsigned int], 32 bits. *)
Definition uInt_max : Z := 2 ^ 32 - 1.
Definition cast_uInt (x : Z) : Z := x mod 2 ^ 32.

(** [static_cast<uLong>(x)]: [unsigned long], 64 bits. *)
Definition cast_uLong (x : Z) : Z := x mod 2 ^ 64.

(** Conversion of a 64-bit unsigned value to [int64_t]. *)
Definition cast_int64 (x : Z) : Z := (x + 2 ^ 63) mod 2 ^ 64 - 2 ^ 63.

(** ** Status, Result and process termination *)

Inductive Status : Type :=
| OK
| IOError (detail : string)
| NotImplemented (detail : string).

Definition ok (s : Status) : bool :=
  match s with OK => true | _ => false end.

Inductive Result (A : Type) : Type :=
| Value (a : A)
| Failure (s : Status).
Arguments Failure {A} s.

(** A failed [ARROW_CHECK] ends the process: nothing is returned. *)
Inductive Outcome (A : Type) : Type :=
| Returns (a : A)
| Aborts (check : string).
Arguments Aborts {A} check.

(** [Status::IOError(a, b, ...)] concatenates the printed arguments;
    integers are printed in decimal. *)
Definition print_int (n : Z) : string := NilZero.string_of_int (Z.to_int n).

(** ** zlib.h: the deflate stream as the codec sees it *)

Module Zlib.

Definition Z_OK : Z := 0.
Definition Z_STREAM_END : Z := 1.
Definition Z_STREAM_ERROR : Z := -2.
Definition Z_BUF_ERROR : Z := -5.

Definition Z_NO_FLUSH : Z := 0.
Definition Z_SYNC_FLUSH : Z := 2.
Definition Z_FINISH : Z := 4.

Definition Z_DEFLATED : Z := 8.
Definition Z_DEFAULT_COMPRESSION : Z := -1.
Definition Z_DEFAULT_STRATEGY : Z := 0.

(** [next_in] is the memory the input pointer designates, of which the
    first [avail_in] bytes may be read; [next_out] collects the bytes
    stored through the output pointer since it was last set, and
    [avail_out] is the room left behind it. *)
Record z_stream (I : Type) : Type := mk_z_stream {
  next_in : list byte;
  avail_in : Z;
  next_out : list byte;
  avail_out : Z;
  msg : option string;
  state : option I
}.

(** [memset(&stream_, 0, sizeof(stream_))] *)
Definition zero (I : Type) : z_stream I := mk_z_stream [] 0 [] 0 None None.

(** The four assignments made before each call of [deflate]. *)
Definition set_io (I : Type) (s : z_stream I)
    (input : list byte) (in_len out_len : Z) : z_stream I :=
  mk_z_stream input in_len [] out_len (msg s) (state s).

End Zlib.

(** ** igzip_lib.h: the inflate state as the codec sees it *)

Module Isal.

Definition ISAL_DECOMP_OK : Z := 0.
Definition ISAL_END_INPUT : Z := 1.
Definition ISAL_OUT_OVERFLOW : Z := 2.
Definition ISAL_INVALID_BLOCK : Z := -1.
Definition ISAL_INVALID_WRAPPER : Z := -4.

(** [crc_flag] values *)
Definition ISAL_DEFLATE : Z := 0.
Definition ISAL_GZIP : Z := 1.
Definition ISAL_ZLIB : Z := 3.

(** [enum isal_block_state] *)
Definition ISAL_BLOCK_NEW_HDR : Z := 0.
Definition ISAL_BLOCK_HDR : Z := 1.
Definition ISAL_BLOCK_TYPE0 : Z := 2.
Definition ISAL_BLOCK_CODED : Z := 3.
Definition ISAL_BLOCK_INPUT_DONE : Z := 4.
Definition ISAL_BLOCK_FINISH : Z := 5.

(** [private_] stands for the fields the codec never reads. *)
Record inflate_state (P : Type) : Type := mk_inflate_state {
  next_in : list byte;
  avail_in : Z;
  next_out : list byte;
  avail_out : Z;
  total_out : Z;
  crc_flag : Z;
  block_state : Z;
  private_ : P
}.

Definition set_io (P : Type) (s : inflate_state P)
    (input : list byte) (in_len out_len : Z) : inflate_state P :=
  mk_inflate_state input in_len [] out_len
    (total_out s) (crc_flag s) (block_state s) (private_ s).

Definition set_crc_flag (P : Type) (s : inflate_state P) (f : Z)
    : inflate_state P :=
  mk_inflate_state (next_in s) (avail_in s) (next_out s) (avail_out s)
    (total_out s) f (block_state s) (private_ s).

End Isal.

(** ** The engines *)

(** The operations of zlib and ISA-L the file calls.  Each one takes the
    stream it is given by address and returns its return code (when it
    has one) with the stream as it leaves it. *)
Record Engine : Type := mk_Engine {
  internal_state : Type;
  inflate_private : Type;
  inflate_private_zero : inflate_private;
  (* deflateInit2(strm, level, method, windowBits, memLevel, strategy) *)
  deflateInit2 : Zlib.z_stream internal_state -> Z -> Z -> Z -> Z -> Z ->
                 Z * Zlib.z_stream internal_state;
  (* deflate(strm, flush) *)
  deflate : Zlib.z_stream internal_state -> Z ->
            Z * Zlib.z_stream internal_state;
  deflateReset : Zlib.z_stream internal_state ->
                 Z * Zlib.z_stream internal_state;
  deflateEnd : Zlib.z_stream internal_state ->
               Z * Zlib.z_stream internal_state;
  (* deflateBound(strm, sourceLen) *)
  deflateBound : Zlib.z_stream internal_state -> Z -> Z;
  isal_inflate_init : Isal.inflate_state inflate_private ->
                      Isal.inflate_state inflate_private;
  isal_inflate_reset : Isal.inflate_state inflate_private ->
                       Isal.inflate_state inflate_private;
  isal_inflate : Isal.inflate_state inflate_private ->
                 Z * Isal.inflate_state inflate_private
}.

(** [memset(&state_, 0, sizeof(state_))] *)
Definition inflate_zero (E : Engine) : Isal.inflate_state (inflate_private E) :=
  Isal.mk_inflate_state [] 0 [] 0 0 0 0 (inflate_private_zero E).

(** The engine entry points, as they are recorded in a codec's history. *)
Inductive EngineCall : Type :=
| call_deflateInit2 (windowBits memLevel : Z)
| call_deflate (flush : Z)
| call_deflateReset
| call_deflateEnd
| call_deflateBound
| call_isal_inflate_init
| call_isal_inflate_reset
| call_isal_inflate.

(** ** Formats and levels *)

(** [GZipFormat::type] *)
Inductive GZipFormat : Type := ZLIB | DEFLATE | GZIP.

(** Maximum window size *)
Definition WINDOW_BITS : Z := 15.
(** Output Gzip. *)
Definition GZIP_CODEC : Z := 16.
(** Determine if this is libz or gzip from header. *)
Definition DETECT_CODEC : Z := 32.

Definition CompressionWindowBitsForFormat (format : GZipFormat) : Z :=
  let window_bits := WINDOW_BITS in
  match format with
  | DEFLATE => - window_bits
  | GZIP => window_bits + GZIP_CODEC
  | ZLIB => window_bits
  end.

(** [kUseDefaultCompressionLevel] is [std::numeric_limits<int>::min()] and
    [kGZipDefaultCompressionLevel] is 9 (compression.h and
    compression_internal.h). *)
Definition kUseDefaultCompressionLevel : Z := - 2 ^ 31.
Definition kGZipDefaultCompressionLevel : Z := 9.

Definition ZlibErrorPrefix (prefix_msg : string) (msg : option string) : Status :=
  IOError (prefix_msg ++ match msg with
                         | Some m => m
                         | None => "(unknown error)"
                         end)%string.

(** ** Result structs of the streaming interface *)

(** Modelled from the spec: the declaration of [DecompressResult]
    (compression.h) is not part of the sources; the three fields are the
    ones of the data model, in the order the code initialises them. *)
Record DecompressResult : Type := mk_DecompressResult {
  bytes_consumed : Z;
  bytes_produced : Z;
  output_too_small : bool
}.

(** Modelled from the spec: [CompressResult], [FlushResult] and
    [EndResult] (compression.h), with the fields of the data model. *)
Record CompressResult : Type := mk_CompressResult {
  compress_bytes_consumed : Z;
  compress_bytes_produced : Z
}.

Record FlushResult : Type := mk_FlushResult {
  flush_bytes_produced : Z;
  flush_needs_retry : bool
}.

Record EndResult : Type := mk_EndResult {
  end_bytes_produced : Z;
  end_needs_retry : bool
}.

(** [DCHECK(cond)] is compiled out when [NDEBUG] is defined and is an
    [ARROW_CHECK] otherwise. *)
Definition DCHECK (A : Type) (NDEBUG cond : bool) (what : string)
    (k : Outcome A) : Outcome A :=
  if NDEBUG || cond then k else Aborts what.

(** [static_cast<int64_t>(std::numeric_limits<uInt>::max())] *)
Definition input_limit : Z := uInt_max.

(** ** gzip decompressor implementation *)

Module GZipDecompressor.
Section WithEngine.

Variable E : Engine.
Variable NDEBUG : bool.

Record t : Type := mk {
  stream_ : Isal.inflate_state (inflate_private E);
  format_ : GZipFormat;
  initialized_ : bool;
  finished_ : bool
}.

(** The constructor leaves [stream_] indeterminate; nothing reads it
    before [Init] has cleared it. *)
Definition new (format : GZipFormat) : t :=
  mk (inflate_zero E) format false false.

Definition Init (d : t) : Outcome (Status * t) :=
  DCHECK NDEBUG (negb (initialized_ d)) "Check failed: !initialized_"
    (let s0 := inflate_zero E in
     let s1 := isal_inflate_init E s0 in
     let s2 := Isal.set_crc_flag s1 Isal.ISAL_GZIP in
     Returns (OK, mk s2 (format_ d) true false)).

Definition Reset (d : t) : Outcome (Status * t) :=
  DCHECK NDEBUG (initialized_ d) "Check failed: initialized_"
    (let s1 := isal_inflate_reset E (stream_ d) in
     Returns (OK, mk s1 (format_ d) (initialized_ d) false)).

(** The second component of the result is what the call stored in the
    caller's output buffer. *)
Definition Decompress (d : t) (input_len : Z) (input : list byte)
    (output_len : Z) : Outcome (Result DecompressResult * list byte * t) :=
  let s0 := Isal.set_io (stream_ d) input
              (cast_uInt (Z.min input_len input_limit))
              (cast_uInt (Z.min output_len input_limit)) in
  let r := isal_inflate E s0 in
  let ret := fst r in
  let s1 := snd r in
  let d1 := mk s1 (format_ d) (initialized_ d)
               (Isal.block_state s1 =? Isal.ISAL_BLOCK_FINISH) in
  if ret =? Isal.ISAL_DECOMP_OK then
    (* Some progress has been made *)
    Returns (Value (mk_DecompressResult (input_len - Isal.avail_in s1)
                                        (output_len - Isal.avail_out s1)
                                        false),
             Isal.next_out s1, d1)
  else Aborts "Check failed: ret == ISAL_DECOMP_OK".

Definition IsFinished (d : t) : bool := finished_ d.

(** No member function calls it. *)
Definition ZlibError (d : t) (prefix_msg : string) : Status :=
  ZlibErrorPrefix prefix_msg (Some "stream_.msg"%string).

End WithEngine.
End GZipDecompressor.

(** ** gzip compressor implementation *)

Module GZipCompressor.
Section WithEngine.

Variable E : Engine.
Variable NDEBUG : bool.

Record t : Type := mk {
  stream_ : Zlib.z_stream (internal_state E);
  initialized_ : bool;
  compression_level_ : Z
}.

Definition new (compression_level : Z) : t :=
  mk (Zlib.zero (internal_state E)) false compression_level.

Definition ZlibError (c : t) (prefix_msg : string) : Status :=
  ZlibErrorPrefix prefix_msg (Zlib.msg (stream_ c)).

Definition Init (c : t) (format : GZipFormat) : Outcome (Status * t) :=
  DCHECK NDEBUG (negb (initialized_ c)) "Check failed: !initialized_"
    (let s0 := Zlib.zero (internal_state E) in
     (* Initialize to run specified format *)
     let window_bits := CompressionWindowBitsForFormat format in
     let r := deflateInit2 E s0 Zlib.Z_DEFAULT_COMPRESSION Zlib.Z_DEFLATED
                window_bits (compression_level_ c)
                Zlib.Z_DEFAULT_STRATEGY in
     let c1 := mk (snd r) (initialized_ c) (compression_level_ c) in
     if negb (fst r =? Zlib.Z_OK) then
       Returns (ZlibError c1 "zlib deflateInit failed: ", c1)
     else
       Returns (OK, mk (snd r) true (compression_level_ c))).

Definition Compress (c : t) (input_len : Z) (input : list byte)
    (output_len : Z) : Outcome (Result CompressResult * list byte * t) :=
  DCHECK NDEBUG (initialized_ c) "Called on non-initialized stream"
    (let s0 := Zlib.set_io (stream_ c) input
                 (cast_uInt (Z.min input_len input_limit))
                 (cast_uInt (Z.min output_len input_limit)) in
     let r := deflate E s0 Zlib.Z_NO_FLUSH in
     let ret := fst r in
     let s1 := snd r in
     let c1 := mk s1 (initialized_ c) (compression_level_ c) in
     if ret =? Zlib.Z_STREAM_ERROR then
       Returns (Failure (ZlibError c1 "zlib compress failed: "),
                Zlib.next_out s1, c1)
     else if ret =? Zlib.Z_OK then
       (* Some progress has been made *)
       Returns (Value (mk_CompressResult (input_len - Zlib.avail_in s1)
                                         (output_len - Zlib.avail_out s1)),
                Zlib.next_out s1, c1)
     else if ret =? Zlib.Z_BUF_ERROR then
       (* No progress was possible *)
       Returns (Value (mk_CompressResult 0 0), Zlib.next_out s1, c1)
     else Aborts "Check failed: (ret) == (Z_BUF_ERROR)").

(** [Flush] and [End] leave [next_in] where it was and set
    [avail_in] to 0. *)
Definition set_out (s : Zlib.z_stream (internal_state E)) (output_len : Z)
    : Zlib.z_stream (internal_state E) :=
  Zlib.set_io s (Zlib.next_in s) 0
    (cast_uInt (Z.min output_len input_limit)).

Definition Flush (c : t) (output_len : Z)
    : Outcome (Result FlushResult * list byte * t) :=
  DCHECK NDEBUG (initialized_ c) "Called on non-initialized stream"
    (let r := deflate E (set_out (stream_ c) output_len)
                Zlib.Z_SYNC_FLUSH in
     let ret := fst r in
     let s1 := snd r in
     let c1 := mk s1 (initialized_ c) (compression_level_ c) in
     if ret =? Zlib.Z_STREAM_ERROR then
       Returns (Failure (ZlibError c1 "zlib flush failed: "),
                Zlib.next_out s1, c1)
     else if ret =? Zlib.Z_OK then
       Returns (Value (mk_FlushResult (output_len - Zlib.avail_out s1)
                                      (Zlib.avail_out s1 =? 0)),
                Zlib.next_out s1, c1)
     else if ret =? Zlib.Z_BUF_ERROR then
       Returns (Value (mk_FlushResult 0 (Zlib.avail_out s1 =? 0)),
                Zlib.next_out s1, c1)
     else Aborts "Check failed: (ret) == (Z_BUF_ERROR)").

Definition End (c : t) (output_len : Z)
    : Outcome (Result EndResult * list byte * t) :=
  DCHECK NDEBUG (initialized_ c) "Called on non-initialized stream"
    (let r := deflate E (set_out (stream_ c) output_len) Zlib.Z_FINISH in
     let ret := fst r in
     let s1 := snd r in
     let c1 := mk s1 (initialized_ c) (compression_level_ c) in
     if ret =? Zlib.Z_STREAM_ERROR then
       Returns (Failure (ZlibError c1 "zlib flush failed: "),
                Zlib.next_out s1, c1)
     else
       let bytes_written := output_len - Zlib.avail_out s1 in
       if ret =? Zlib.Z_STREAM_END then
         (* Flush complete, we can now end the stream *)
         let r2 := deflateEnd E s1 in
         let c2 := mk (snd r2) false (compression_level_ c) in
         if fst r2 =? Zlib.Z_OK then
           Returns (Value (mk_EndResult bytes_written false),
                    Zlib.next_out s1, c2)
         else
           Returns (Failure (ZlibError c2 "zlib end failed: "),
                    Zlib.next_out s1, c2)
       else
         (* Not everything could be flushed *)
         Returns (Value (mk_EndResult bytes_written true),
                  Zlib.next_out s1, c1)).

End WithEngine.
End GZipCompressor.

(** ** gzip codec implementation *)

Module GZipCodec.
Section WithEngine.

Variable E : Engine.
Variable NDEBUG : bool.

(** zlib is stateful and the [z_stream] state variable must be
    initialized before use.  [compressor_initialized_] and
    [decompressor_initialized_] are meant to be mutually exclusive.
    [engine_calls] is not a member of the class: it is the history of
    the engine entry points entered on behalf of this codec, oldest
    first, kept to state what a call does to the engine. *)
Record t : Type := mk {
  stream_ : Zlib.z_stream (internal_state E);
  state_ : Isal.inflate_state (inflate_private E);
  format_ : GZipFormat;
  compressor_initialized_ : bool;
  decompressor_initialized_ : bool;
  compression_level_ : Z;
  engine_calls : list EngineCall
}.

Definition set_stream_ (c : t) (s : Zlib.z_stream (internal_state E)) : t :=
  mk s (state_ c) (format_ c) (compressor_initialized_ c)
     (decompressor_initialized_ c) (compression_level_ c) (engine_calls c).

Definition set_state_ (c : t) (s : Isal.inflate_state (inflate_private E))
    : t :=
  mk (stream_ c) s (format_ c) (compressor_initialized_ c)
     (decompressor_initialized_ c) (compression_level_ c) (engine_calls c).

Definition set_compressor_initialized_ (c : t) (b : bool) : t :=
  mk (stream_ c) (state_ c) (format_ c) b
     (decompressor_initialized_ c) (compression_level_ c) (engine_calls c).

Definition set_decompressor_initialized_ (c : t) (b : bool) : t :=
  mk (stream_ c) (state_ c) (format_ c) (compressor_initialized_ c)
     b (compression_level_ c) (engine_calls c).

Definition called (c : t) (e : EngineCall) : t :=
  mk (stream_ c) (state_ c) (format_ c) (compressor_initialized_ c)
     (decompressor_initialized_ c) (compression_level_ c)
     (engine_calls c ++ [e]).

(** The constructor leaves [stream_] and [state_] indeterminate; no
    member function reads either before the matching [memset]. *)
Definition new (compression_level : Z) (format : GZipFormat) : t :=
  mk (Zlib.zero (internal_state E)) (inflate_zero E) format false false
     (if compression_level =? kUseDefaultCompressionLevel
      then kGZipDefaultCompressionLevel
      else compression_level)
     [].

Definition MakeCompressor (c : t)
    : Outcome (Result (GZipCompressor.t E)) :=
  match GZipCompressor.Init NDEBUG
          (GZipCompressor.new E (compression_level_ c)) (format_ c) with
  | Returns (OK, p) => Returns (Value p)
  | Returns (s, _) => Returns (Failure s)
  | Aborts w => Aborts w
  end.

Definition MakeDecompressor (c : t)
    : Outcome (Result (GZipDecompressor.t E)) :=
  match GZipDecompressor.Init NDEBUG
          (GZipDecompressor.new E (format_ c)) with
  | Returns (OK, p) => Returns (Value p)
  | Returns (s, _) => Returns (Failure s)
  | Aborts w => Aborts w
  end.

Definition EndDecompressor (c : t) : t :=
  let c1 :=
    if decompressor_initialized_ c
    then called (set_state_ c (isal_inflate_reset E (state_ c)))
                call_isal_inflate_reset
    else c in
  set_decompressor_initialized_ c1 false.

Definition EndCompressor (c : t) : t :=
  let c1 :=
    if compressor_initialized_ c
    then called (set_stream_ c (snd (deflateEnd E (stream_ c))))
                call_deflateEnd
    else c in
  set_compressor_initialized_ c1 false.

Definition InitCompressor (c : t) : Status * t :=
  let c1 := EndDecompressor c in
  let c2 := set_stream_ c1 (Zlib.zero (internal_state E)) in
  (* Initialize to run specified format *)
  let window_bits := CompressionWindowBitsForFormat (format_ c2) in
  let r := deflateInit2 E (stream_ c2) Zlib.Z_DEFAULT_COMPRESSION
             Zlib.Z_DEFLATED window_bits (compression_level_ c2)
             Zlib.Z_DEFAULT_STRATEGY in
  let c3 := called (set_stream_ c2 (snd r))
              (call_deflateInit2 window_bits (compression_level_ c2)) in
  if negb (fst r =? Zlib.Z_OK) then
    (ZlibErrorPrefix "zlib deflateInit failed: " (Zlib.msg (stream_ c3)),
     c3)
  else (OK, set_compressor_initialized_ c3 true).

Definition InitDecompressor (c : t) : Status * t :=
  let c1 := EndCompressor c in
  let c2 := set_state_ c1 (inflate_zero E) in
  let c3 := called (set_state_ c2 (isal_inflate_init E (state_ c2)))
              call_isal_inflate_init in
  let c4 := set_state_ c3 (Isal.set_crc_flag (state_ c3) Isal.ISAL_GZIP) in
  (OK, set_decompressor_initialized_ c4 true).

Definition too_small_a_buffer (input_length output_buffer_length : Z)
    : Status :=
  IOError ("Too small a buffer passed to GZipCodec. InputLength="
           ++ print_int input_length
           ++ " OutputLength=" ++ print_int output_buffer_length)%string.

(** The second component of the result is what the call stored in the
    caller's output buffer. *)
Definition Decompress (c : t) (input_length : Z) (input : list byte)
    (output_buffer_length : Z) : Result Z * list byte * t :=
  let i := if negb (decompressor_initialized_ c)
           then InitDecompressor c else (OK, c) in
  if negb (ok (fst i)) then (Failure (fst i), [], snd i)
  else
    let c1 := snd i in
    if output_buffer_length =? 0 then
      (* bail early if no output is expected *)
      (Value 0, [], c1)
    else
      (* Reset the stream for this block *)
      let c2 := called (set_state_ c1 (isal_inflate_reset E (state_ c1)))
                  call_isal_inflate_reset in
      let ret := 0 in
      (* while (ret != ISAL_BLOCK_FINISH): every path through the body
         leaves the loop, so it runs once when the test holds *)
      if negb (ret =? Isal.ISAL_BLOCK_FINISH) then
        let s0 := Isal.set_io (state_ c2) input
                    (cast_uInt input_length)
                    (cast_uInt output_buffer_length) in
        let r := isal_inflate E s0 in
        let ret := fst r in
        let c3 := called (set_state_ c2 (snd r)) call_isal_inflate in
        if (ret =? Isal.ISAL_BLOCK_FINISH) || (ret =? Isal.ISAL_DECOMP_OK)
        then (Value (Isal.total_out (state_ c3)),
              Isal.next_out (state_ c3), c3)
        else
          (* Failure, buffer was too small *)
          (Failure (too_small_a_buffer input_length output_buffer_length),
           Isal.next_out (state_ c3), c3)
      else (Value (Isal.total_out (state_ c2)), [], c2).

Definition MaxCompressedLen (c : t) (input_length : Z)
    : Outcome (Z * t) :=
  (* Must be in compression mode *)
  let i := if negb (compressor_initialized_ c)
           then InitCompressor c else (OK, c) in
  if negb (ok (fst i)) then Aborts "Check failed: s.ok()"
  else
    let c1 := snd i in
    let max_len := cast_int64 (deflateBound E (stream_ c1)
                                 (cast_uLong input_length)) in
    (* return a more pessimistic estimate to account for bugs in old
       zlib versions *)
    Returns (max_len + 12, called c1 call_deflateBound).

Definition output_buffer_too_small : Status :=
  IOError "zlib deflate failed, output buffer too small".

Definition Compress (c : t) (input_length : Z) (input : list byte)
    (output_buffer_len : Z) : Result Z * list byte * t :=
  let i := if negb (compressor_initialized_ c)
           then InitCompressor c else (OK, c) in
  if negb (ok (fst i)) then (Failure (fst i), [], snd i)
  else
    let c1 := snd i in
    let s0 := Zlib.set_io (stream_ c1) input
                (cast_uInt input_length) (cast_uInt output_buffer_len) in
    let r := deflate E s0 Zlib.Z_FINISH in
    let ret := fst r in
    let c2 := called (set_stream_ c1 (snd r))
                (call_deflate Zlib.Z_FINISH) in
    if negb (ret =? Zlib.Z_STREAM_END) then
      if ret =? Zlib.Z_OK then
        (* Will return Z_OK (and stream.msg NOT set) if stream.avail_out
           is too small *)
        (Failure output_buffer_too_small, Zlib.next_out (stream_ c2), c2)
      else
        (Failure (ZlibErrorPrefix "zlib deflate failed: "
                    (Zlib.msg (stream_ c2))),
         Zlib.next_out (stream_ c2), c2)
    else
      let r2 := deflateReset E (stream_ c2) in
      let c3 := called (set_stream_ c2 (snd r2)) call_deflateReset in
      if negb (fst r2 =? Zlib.Z_OK) then
        (Failure (ZlibErrorPrefix "zlib deflateReset failed: "
                    (Zlib.msg (stream_ c3))),
         Zlib.next_out (stream_ c2), c3)
      else
        (* Actual output length *)
        (Value (output_buffer_len - Zlib.avail_out (stream_ c3)),
         Zlib.next_out (stream_ c2), c3).

Definition Init (c : t) : Status * t :=
  let i := InitCompressor c in
  if negb (ok (fst i)) then i
  else InitDecompressor (snd i).

Definition compression_level (c : t) : Z := compression_level_ c.

(** The destructor. *)
Definition destroy (c : t) : t := EndDecompressor (EndCompressor c).

End WithEngine.
End GZipCodec.

(** ** QAT implementation *)

(** Only the part of [QatCodec] that does not go through the accelerator
    session: the streaming factories. *)
Module QatCodec.

Definition MakeCompressor : Result unit :=
  Failure (NotImplemented "Streaming compression unsupported with QAT").

Definition MakeDecompressor : Result unit :=
  Failure (NotImplemented "Streaming decompression unsupported with QAT").

End QatCodec.

(** ** Backend selection *)

(** [std::toupper] in the "C" locale. *)
Definition toupper (c : ascii) : ascii :=
  let n := nat_of_ascii c in
  if (andb (Nat.leb 97 n) (Nat.leb n 122)) then ascii_of_nat (n - 32) else c.

Fixpoint transform_toupper (s : string) : string :=
  match s with
  | EmptyString => EmptyString
  | String c r => String (toupper c) (transform_toupper r)
  end.

(** What [std::unique_ptr<Codec>] points to. *)
Inductive Codec (E : Engine) : Type :=
| IsGZipCodec (c : GZipCodec.t E)
| IsQatCodec.
Arguments IsQatCodec {E}.

Section Selection.

Variable E : Engine.

(** [ARROW_WITH_QAT]: whether the QAT codec is compiled in. *)
Variable ARROW_WITH_QAT : bool.

(** [maybe_env_var] is the result of
    [GetEnvVar("ARROW_GZIP_BACKEND")], which fails exactly when the
    variable is not set.  The second component of the result lists the
    [ARROW_LOG(WARNING)] lines written, oldest first. *)
Definition MakeGZipCodec (maybe_env_var : option string)
    (compression_level : Z) (format : GZipFormat)
    : Codec E * list string :=
  match maybe_env_var with
  | None =>
      (* No user gzip backend settings *)
      (IsGZipCodec (GZipCodec.new E compression_level format), [])
  | Some v =>
      let s := transform_toupper v in
      if String.eqb s "QAT" then
        if ARROW_WITH_QAT then (IsQatCodec, [])
        else (IsGZipCodec (GZipCodec.new E compression_level format),
              ["Support for codec QAT not built"%string])
      else if negb (String.eqb s "") then
        (IsGZipCodec (GZipCodec.new E compression_level format),
         [("Invalid backend for ARROW_GZIP_BACKEND: " ++ s
           ++ ", only support QAT now")%string])
      else (IsGZipCodec (GZipCodec.new E compression_level format), [])
  end.

End Selection.

(** ** A reference engine *)

(** An executable engine that follows the calling protocol documented in
    zlib.h and igzip_lib.h on a simple stored format: the wrapper's magic
    bytes, then each data byte behind a [01] marker, then a [00] end
    marker.  It stands in for the real libraries wherever a property is
    evaluated on concrete buffers. *)
Module Ref.

Record deflate_private : Type := mk_deflate_private {
  wrap : Z;              (* windowBits given to deflateInit2 *)
  started : bool;        (* the wrapper's header has been emitted *)
  pending : list byte;   (* produced, not yet stored in the output *)
  finished : bool        (* the end marker has been emitted *)
}.

Definition zs : Type := Zlib.z_stream deflate_private.
Definition ist : Type := Isal.inflate_state unit.

(** Wrapper selected by [windowBits]: negative for raw deflate, above 15
    for gzip, zlib otherwise. *)
Definition header (windowBits : Z) : list byte :=
  if windowBits <? 0 then []
  else if 15 <? windowBits then [x1f; x8b]
  else [x78; x9c].

Definition header_len (windowBits : Z) : Z :=
  if windowBits <? 0 then 0 else 2.

Fixpoint body (data : list byte) : list byte :=
  match data with
  | [] => []
  | b :: rest => x01 :: b :: body rest
  end.

Definition enc (windowBits : Z) (data : list byte) : list byte :=
  header windowBits ++ body data ++ [x00].

Definition in_range (lo x hi : Z) : bool := (lo <=? x) && (x <=? hi).

(** Parameter validation of [deflateInit2]. *)
Definition deflateInit2 (s : zs)
    (level method windowBits memLevel strategy : Z) : Z * zs :=
  if (method =? Zlib.Z_DEFLATED)
     && in_range (-1) level 9
     && in_range 1 memLevel 9
     && in_range 0 strategy 4
     && (in_range 8 windowBits 15 || in_range (-15) windowBits (-8)
         || in_range 24 windowBits 31)
  then (Zlib.Z_OK,
        Zlib.mk_z_stream (Zlib.next_in s) (Zlib.avail_in s)
          (Zlib.next_out s) (Zlib.avail_out s) None
          (Some (mk_deflate_private windowBits false [] false)))
  else (Zlib.Z_STREAM_ERROR,
        Zlib.mk_z_stream (Zlib.next_in s) (Zlib.avail_in s)
          (Zlib.next_out s) (Zlib.avail_out s) None None).

(** [deflate] takes all of the input and stores as much of what it has
    produced as the output has room for: [Z_STREAM_END] once a
    [Z_FINISH] has stored everything, [Z_BUF_ERROR] when no progress is
    possible, [Z_OK] otherwise.  The room needed is counted from
    [avail_in], as the library trusts the caller's length. *)
Definition deflate (s : zs) (flush : Z) : Z * zs :=
  match Zlib.state s with
  | None => (Zlib.Z_STREAM_ERROR, s)
  | Some p =>
      if finished p && negb (flush =? Zlib.Z_FINISH) then
        (Zlib.Z_STREAM_ERROR, s)
      else if (Zlib.avail_out s =? 0)
              || (finished p && negb (Zlib.avail_in s =? 0)) then
        (Zlib.Z_BUF_ERROR,
         Zlib.mk_z_stream (Zlib.next_in s) (Zlib.avail_in s)
           (Zlib.next_out s) (Zlib.avail_out s) (Some "buffer error"%string)
           (Zlib.state s))
      else
        let n := Z.to_nat (Zlib.avail_in s) in
        let data := firstn n (Zlib.next_in s) in
        let ending := (flush =? Zlib.Z_FINISH) && negb (finished p) in
        let fresh := (if started p then [] else header (wrap p))
                     ++ body data ++ (if ending then [x00] else []) in
        let fresh_len := (if started p then 0 else header_len (wrap p))
                         + 2 * Zlib.avail_in s
                         + (if ending then 1 else 0) in
        let produced := pending p ++ fresh in
        let total := Z.of_nat (List.length (pending p)) + fresh_len in
        let fin := finished p || (flush =? Zlib.Z_FINISH) in
        if total <=? Zlib.avail_out s then
          (if fin then Zlib.Z_STREAM_END else Zlib.Z_OK,
           Zlib.mk_z_stream (skipn n (Zlib.next_in s)) 0
             (Zlib.next_out s ++ produced) (Zlib.avail_out s - total)
             (Zlib.msg s)
             (Some (mk_deflate_private (wrap p) true [] fin)))
        else
          let room := Z.to_nat (Zlib.avail_out s) in
          (Zlib.Z_OK,
           Zlib.mk_z_stream (skipn n (Zlib.next_in s)) 0
             (Zlib.next_out s ++ firstn room produced) 0
             (Zlib.msg s)
             (Some (mk_deflate_private (wrap p) true
                      (skipn room produced) fin)))
  end.

(** [deflateReset] keeps the parameters and the caller's pointers. *)
Definition deflateReset (s : zs) : Z * zs :=
  match Zlib.state s with
  | None => (Zlib.Z_STREAM_ERROR, s)
  | Some p =>
      (Zlib.Z_OK,
       Zlib.mk_z_stream (Zlib.next_in s) (Zlib.avail_in s)
         (Zlib.next_out s) (Zlib.avail_out s) None
         (Some (mk_deflate_private (wrap p) false [] false)))
  end.

Definition deflateEnd (s : zs) : Z * zs :=
  match Zlib.state s with
  | None => (Zlib.Z_STREAM_ERROR, s)
  | Some _ =>
      (Zlib.Z_OK,
       Zlib.mk_z_stream (Zlib.next_in s) (Zlib.avail_in s)
         (Zlib.next_out s) (Zlib.avail_out s) (Zlib.msg s) None)
  end.

(** Two magic bytes, two bytes per data byte, one end marker. *)
Definition deflateBound (s : zs) (sourceLen : Z) : Z :=
  (2 * sourceLen + 3) mod 2 ^ 64.

Definition isal_inflate_init (s : ist) : ist :=
  Isal.mk_inflate_state [] 0 [] 0 0 0 Isal.ISAL_BLOCK_NEW_HDR tt.

(** [isal_inflate_reset] keeps [crc_flag] and the caller's pointers. *)
Definition isal_inflate_reset (s : ist) : ist :=
  Isal.mk_inflate_state (Isal.next_in s) (Isal.avail_in s)
    (Isal.next_out s) (Isal.avail_out s) 0 (Isal.crc_flag s)
    Isal.ISAL_BLOCK_NEW_HDR tt.

(** Outcome of looking for the wrapper's header at the head of the
    input. *)
Inductive header_check : Type :=
| need_more_input
| invalid_wrapper
| header_ok (skipped : Z) (rest : list byte).

Definition check_header (crc_flag : Z) (input : list byte) : header_check :=
  if (crc_flag =? Isal.ISAL_GZIP) || (crc_flag =? Isal.ISAL_ZLIB) then
    match input with
    | a :: b :: rest =>
        if crc_flag =? Isal.ISAL_GZIP
        then if Byte.eqb a x1f && Byte.eqb b x8b
             then header_ok 2 rest else invalid_wrapper
        else if Byte.eqb a x78 && Byte.eqb b x9c
             then header_ok 2 rest else invalid_wrapper
    | _ => need_more_input
    end
  else header_ok 0 input.

Record body_result : Type := mk_body_result {
  b_ret : Z;
  b_consumed : Z;
  b_produced : list byte;
  b_finished : bool
}.

(** Decoding stops without an error when the input runs out or the
    output is full, on the end marker, and with
    [ISAL_INVALID_BLOCK] on a byte that is no marker. *)
Fixpoint inflate_body (input : list byte) (room : Z) : body_result :=
  match input with
  | [] => mk_body_result Isal.ISAL_DECOMP_OK 0 [] false
  | m :: tl =>
      if Byte.eqb m x00 then mk_body_result Isal.ISAL_DECOMP_OK 1 [] true
      else if Byte.eqb m x01 then
        match tl with
        | [] => mk_body_result Isal.ISAL_DECOMP_OK 0 [] false
        | b :: rest =>
            if 0 <? room then
              let r := inflate_body rest (room - 1) in
              mk_body_result (b_ret r) (b_consumed r + 2)
                (b :: b_produced r) (b_finished r)
            else mk_body_result Isal.ISAL_DECOMP_OK 0 [] false
        end
      else mk_body_result Isal.ISAL_INVALID_BLOCK 0 [] false
  end.

(** [isal_inflate] returns [ISAL_DECOMP_OK] whenever it met no error,
    also when it stopped for want of input or of output room; whether
    the stream ended shows in [block_state]. *)
Definition isal_inflate (s : ist) : Z * ist :=
  if Isal.block_state s =? Isal.ISAL_BLOCK_FINISH then
    (Isal.ISAL_DECOMP_OK, s)
  else
    let input := firstn (Z.to_nat (Isal.avail_in s)) (Isal.next_in s) in
    let h := if Isal.block_state s =? Isal.ISAL_BLOCK_NEW_HDR
             then check_header (Isal.crc_flag s) input
             else header_ok 0 input in
    match h with
    | need_more_input => (Isal.ISAL_DECOMP_OK, s)
    | invalid_wrapper => (Isal.ISAL_INVALID_WRAPPER, s)
    | header_ok k rest =>
        let r := inflate_body rest (Isal.avail_out s) in
        let used := k + b_consumed r in
        let made := Z.of_nat (List.length (b_produced r)) in
        (b_ret r,
         Isal.mk_inflate_state
           (skipn (Z.to_nat used) (Isal.next_in s))
           (Isal.avail_in s - used)
           (Isal.next_out s ++ b_produced r)
           (Isal.avail_out s - made)
           (Isal.total_out s + made)
           (Isal.crc_flag s)
           (if b_finished r then Isal.ISAL_BLOCK_FINISH
            else Isal.ISAL_BLOCK_CODED)
           tt)
    end.

Definition engine : Engine :=
  mk_Engine tt deflateInit2 deflate deflateReset deflateEnd deflateBound
    isal_inflate_init isal_inflate_reset isal_inflate.

End Ref.

(** ** Operations of a codec and the states they reach *)

Inductive Op : Type :=
| op_Compress (input_length : Z) (input : list byte) (output_buffer_len : Z)
| op_Decompress (input_length : Z) (input : list byte)
                (output_buffer_length : Z)
| op_MaxCompressedLen (input_length : Z)
| op_Init
| op_MakeCompressor
| op_MakeDecompressor.

Section Reachability.

Variable E : Engine.
Variable NDEBUG : bool.

(** The codec after one operation; [None] when the operation ended the
    process. *)
Definition step (c : GZipCodec.t E) (o : Op) : option (GZipCodec.t E) :=
  match o with
  | op_Compress n i m => Some (snd (GZipCodec.Compress c n i m))
  | op_Decompress n i m => Some (snd (GZipCodec.Decompress c n i m))
  | op_MaxCompressedLen n =>
      match GZipCodec.MaxCompressedLen c n with
      | Returns r => Some (snd r)
      | Aborts _ => None
      end
  | op_Init => Some (snd (GZipCodec.Init c))
  | op_MakeCompressor =>
      match GZipCodec.MakeCompressor NDEBUG c with
      | Returns _ => Some c
      | Aborts _ => None
      end
  | op_MakeDecompressor =>
      match GZipCodec.MakeDecompressor NDEBUG c with
      | Returns _ => Some c
      | Aborts _ => None
      end
  end.

Inductive reachable : GZipCodec.t E -> Prop :=
| reachable_new : forall compression_level format,
    reachable (GZipCodec.new E compression_level format)
| reachable_step : forall c o c',
    reachable c -> step c o = Some c' -> reachable c'.

(** Not both directions at once. *)
Definition at_most_one_active (c : GZipCodec.t E) : Prop :=
  GZipCodec.compressor_initialized_ c
  && GZipCodec.decompressor_initialized_ c = false.

(** The return code of the [deflateInit2] call [InitCompressor] makes
    for this codec. *)
Definition deflateInit2_ret (c : GZipCodec.t E) : Z :=
  fst (deflateInit2 E (Zlib.zero (internal_state E))
         Zlib.Z_DEFAULT_COMPRESSION Zlib.Z_DEFLATED
         (CompressionWindowBitsForFormat (GZipCodec.format_ c))
         (GZipCodec.compression_level_ c) Zlib.Z_DEFAULT_STRATEGY).

(** The entry in the history for that call. *)
Definition init_call (c : GZipCodec.t E) : EngineCall :=
  call_deflateInit2 (CompressionWindowBitsForFormat (GZipCodec.format_ c))
    (GZipCodec.compression_level_ c).

End Reachability.

(** ** The engine call behind a one-shot decompress *)

Section OneShotInflate.

Variable E : Engine.

(** The codec on which a one-shot decompress runs the engine: the one
    it was given when the decompression session is active, the freshly
    initialized one otherwise. *)
Definition decompressing (c : GZipCodec.t E) : GZipCodec.t E :=
  if GZipCodec.decompressor_initialized_ c then c
  else snd (GZipCodec.InitDecompressor c).

(** The engine call a one-shot decompress with a non-zero capacity
    makes. *)
Definition one_shot_inflate (c : GZipCodec.t E) (input_length : Z)
    (input : list byte) (output_buffer_length : Z)
    : Z * Isal.inflate_state (inflate_private E) :=
  isal_inflate E
    (Isal.set_io
       (isal_inflate_reset E (GZipCodec.state_ (decompressing c)))
       input (cast_uInt input_length) (cast_uInt output_buffer_length)).

End OneShotInflate.

(** ** The protocol of the engines *)

Section Contract.

Variable E : Engine.

(** The deflate streams on which a one-shot compress may start: just
    initialized for [windowBits], or reset after a [deflate] that ended
    its stream; pointing the stream at other buffers changes nothing. *)
Inductive deflate_ready (windowBits : Z)
    : Zlib.z_stream (internal_state E) -> Prop :=
| ready_init : forall s0 level method memLevel strategy s,
    deflateInit2 E s0 level method windowBits memLevel strategy
    = (Zlib.Z_OK, s) ->
    deflate_ready windowBits s
| ready_reset : forall s s1 s2,
    deflate_ready windowBits s ->
    deflate E s Zlib.Z_FINISH = (Zlib.Z_STREAM_END, s1) ->
    deflateReset E s1 = (Zlib.Z_OK, s2) ->
    deflate_ready windowBits s2
| ready_io : forall s input n m,
    deflate_ready windowBits s ->
    deflate_ready windowBits (Zlib.set_io s input n m).

(** The inflate states of a session initialized for the gzip wrapper, in
    whatever condition later calls have left them. *)
Inductive gzip_inflater : Isal.inflate_state (inflate_private E) -> Prop :=
| inflater_init : forall s0,
    gzip_inflater (Isal.set_crc_flag (isal_inflate_init E s0) Isal.ISAL_GZIP)
| inflater_reset : forall s,
    gzip_inflater s -> gzip_inflater (isal_inflate_reset E s)
| inflater_io : forall s input n m,
    gzip_inflater s -> gzip_inflater (Isal.set_io s input n m)
| inflater_run : forall s,
    gzip_inflater s -> gzip_inflater (snd (isal_inflate E s)).

(** What the codec relies on, for a framing function [enc] that gives the
    stream a [deflate] session of given [windowBits] produces for given
    data:
    - [deflate] with [Z_FINISH] on a ready stream whose output has room
      for the whole stream stores it and returns [Z_STREAM_END];
    - [deflateReset] then succeeds and leaves [avail_out] alone;
    - [deflateBound], with the 12 bytes the codec adds, covers the stream
      of any data shorter than 2^32 bytes;
    - a gzip inflate session, once reset and given a whole gzip stream
      and room for its data, stores the data and returns
      [ISAL_DECOMP_OK] with [total_out] the length of the data. *)
Record EngineContract (enc : Z -> list byte -> list byte) : Prop := {
  deflate_finish : forall w s data,
    deflate_ready w s ->
    Zlib.next_out s = [] ->
    data = firstn (Z.to_nat (Zlib.avail_in s)) (Zlib.next_in s) ->
    Zlib.avail_in s = Z.of_nat (List.length data) ->
    Z.of_nat (List.length (enc w data)) <= Zlib.avail_out s ->
    exists s1,
      deflate E s Zlib.Z_FINISH = (Zlib.Z_STREAM_END, s1)
      /\ Zlib.next_out s1 = enc w data
      /\ Zlib.avail_out s1
         = Zlib.avail_out s - Z.of_nat (List.length (enc w data));
  deflate_reset : forall w s s1,
    deflate_ready w s ->
    deflate E s Zlib.Z_FINISH = (Zlib.Z_STREAM_END, s1) ->
    exists s2,
      deflateReset E s1 = (Zlib.Z_OK, s2)
      /\ Zlib.avail_out s2 = Zlib.avail_out s1;
  deflate_bound : forall w s data,
    deflate_ready w s ->
    Z.of_nat (List.length data) < 2 ^ 32 ->
    0 <= deflateBound E s (Z.of_nat (List.length data)) < 2 ^ 63
    /\ Z.of_nat (List.length (enc w data))
       <= deflateBound E s (Z.of_nat (List.length data)) + 12;
  inflate_gzip : forall s data room,
    gzip_inflater s ->
    Z.of_nat (List.length data) <= room ->
    let z := enc (WINDOW_BITS + GZIP_CODEC) data in
    exists s1,
      isal_inflate E
        (Isal.set_io (isal_inflate_reset E s) z
           (Z.of_nat (List.length z)) room)
      = (Isal.ISAL_DECOMP_OK, s1)
      /\ Isal.next_out s1 = data
      /\ Isal.total_out s1 = Z.of_nat (List.length data)
}.

(** A codec whose active sessions are in the condition the protocol
    speaks of: so is a new codec, and a codec after calls that
    succeeded. *)
Definition codec_ready (c : GZipCodec.t E) : Prop :=
  (GZipCodec.compressor_initialized_ c = true ->
   deflate_ready (CompressionWindowBitsForFormat (GZipCodec.format_ c))
     (GZipCodec.stream_ c))
  /\ (GZipCodec.decompressor_initialized_ c = true ->
      gzip_inflater (GZipCodec.state_ c)).

(** The engine accepts the parameters of the codec: the compression
    session is there or [deflateInit2] will grant it. *)
Definition parameters_supported (c : GZipCodec.t E) : Prop :=
  GZipCodec.compressor_initialized_ c = true
  \/ deflateInit2_ret c = Zlib.Z_OK.

End Contract.

(** ** Further notions used to state what the code does *)

Section Sequences.

Variable E : Engine.
Variable NDEBUG : bool.

(** [reaches c c']: some sequence of operations leads from [c] to
    [c']. *)
Inductive reaches (c : GZipCodec.t E) : GZipCodec.t E -> Prop :=
| reaches_refl : reaches c c
| reaches_step : forall c1 o c2,
    reaches c c1 -> step NDEBUG c1 o = Some c2 -> reaches c c2.

(** Format and level of a codec, as one value. *)
Definition config (c : GZipCodec.t E) : GZipFormat * Z :=
  (GZipCodec.format_ c, GZipCodec.compression_level_ c).

(** The lazy initialisation at the head of a one-shot compress: the
    status it yields and the codec on which the engine then runs. *)
Definition compressing (c : GZipCodec.t E) : Status * GZipCodec.t E :=
  if negb (GZipCodec.compressor_initialized_ c)
  then GZipCodec.InitCompressor c else (OK, c).

(** The engine call a one-shot compress makes once that initialisation
    has succeeded. *)
Definition one_shot_deflate (c : GZipCodec.t E) (input_length : Z)
    (input : list byte) (output_buffer_len : Z)
    : Z * Zlib.z_stream (internal_state E) :=
  deflate E
    (Zlib.set_io (GZipCodec.stream_ (snd (compressing c))) input
       (cast_uInt input_length) (cast_uInt output_buffer_len))
    Zlib.Z_FINISH.

(** One-shot calls made one after the other on the same codec. *)
Inductive Job : Type :=
| job_compress (data : list byte)
| job_decompress (stream : list byte).

(** The results of the jobs, in order, every call being given the whole
    buffer and an output buffer of [cap] bytes. *)
Fixpoint run_jobs (c : GZipCodec.t E) (jobs : list Job) (cap : Z)
    : list (Result Z * list byte) :=
  match jobs with
  | [] => []
  | job_compress data :: rest =>
      let r := GZipCodec.Compress c (Z.of_nat (List.length data)) data cap in
      fst r :: run_jobs (snd r) rest cap
  | job_decompress stream :: rest =>
      let r := GZipCodec.Decompress c (Z.of_nat (List.length stream))
                 stream cap in
      fst r :: run_jobs (snd r) rest cap
  end.

End Sequences.

(** ** Progress of the engines *)

Section Progress.

Variable E : Engine.

(** An engine call takes bytes from the input and adds bytes to the
    output: on a stream whose input really holds [avail_in] bytes, both
    counters stay non-negative and do not grow, and the bytes stored are
    as many as [avail_out] went down by. *)
Record EngineProgress : Prop := {
  deflate_progress : forall s flush,
    0 <= Zlib.avail_in s <= Z.of_nat (List.length (Zlib.next_in s)) ->
    0 <= Zlib.avail_out s ->
    let s' := snd (deflate E s flush) in
    0 <= Zlib.avail_in s' <= Zlib.avail_in s
    /\ 0 <= Zlib.avail_out s' <= Zlib.avail_out s
    /\ Z.of_nat (List.length (Zlib.next_out s'))
       = Z.of_nat (List.length (Zlib.next_out s))
         + (Zlib.avail_out s - Zlib.avail_out s');
  inflate_progress : forall s,
    0 <= Isal.avail_in s <= Z.of_nat (List.length (Isal.next_in s)) ->
    0 <= Isal.avail_out s ->
    let s' := snd (isal_inflate E s) in
    0 <= Isal.avail_in s' <= Isal.avail_in s
    /\ 0 <= Isal.avail_out s' <= Isal.avail_out s
    /\ Z.of_nat (List.length (Isal.next_out s'))
       = Z.of_nat (List.length (Isal.next_out s))
         + (Isal.avail_out s - Isal.avail_out s')
}.

End Progress.

(** ** Sequences of round trips *)

Section Interleaving.

Variable enc : Z -> list byte -> list byte.

(** A request on some data: compress it ([true]) or decompress its gzip
    stream ([false]). *)
Definition job_of (d : bool * list byte) : Job :=
  if fst d then job_compress (snd d)
  else job_decompress (enc (CompressionWindowBitsForFormat GZIP) (snd d)).

(** What the request is expected to return and store. *)
Definition answer_of (d : bool * list byte) : Result Z * list byte :=
  if fst d
  then (Value (Z.of_nat (List.length
                           (enc (CompressionWindowBitsForFormat GZIP)
                              (snd d)))),
        enc (CompressionWindowBitsForFormat GZIP) (snd d))
  else (Value (Z.of_nat (List.length (snd d))), snd d).

End Interleaving.

(** ** What a caller observes of a streaming call *)

(** The outcome of a call without the object it leaves behind. *)
Definition observed (A B : Type) (o : Outcome (A * B)) : Outcome A :=
  match o with
  | Returns r => Returns (fst r)
  | Aborts w => Aborts w
  end.

(** ** A streaming session *)

Section Streaming.

Variable E : Engine.
Variable NDEBUG : bool.

(** A caller that writes chunks through a streaming compressor, each
    into an output buffer of [room] bytes: the bytes stored, in order,
    and the compressor left; nothing if a call fails, ends the process
    or does not take its whole chunk. *)
Fixpoint compress_chunks (c : GZipCompressor.t E)
    (chunks : list (list byte)) (room : Z)
    : option (list byte * GZipCompressor.t E) :=
  match chunks with
  | [] => Some ([], c)
  | chunk :: rest =>
      match GZipCompressor.Compress NDEBUG c
              (Z.of_nat (List.length chunk)) chunk room with
      | Returns (Value r, out, c1) =>
          if compress_bytes_consumed r =? Z.of_nat (List.length chunk) then
            match compress_chunks c1 rest room with
            | Some (outs, c2) => Some (out ++ outs, c2)
            | None => None
            end
          else None
      | _ => None
      end
  end.

(** The same caller closing the stream with one [End]; nothing if [End]
    asks for a retry. *)
Definition compress_stream (c : GZipCompressor.t E)
    (chunks : list (list byte)) (room : Z)
    : option (list byte * GZipCompressor.t E) :=
  match compress_chunks c chunks room with
  | Some (outs, c1) =>
      match GZipCompressor.End NDEBUG c1 room with
      | Returns (Value r, out, c2) =>
          if end_needs_retry r then None else Some (outs ++ out, c2)
      | _ => None
      end
  | None => None
  end.

End Streaming.

(** ** The QAT codec *)

(** [static_cast<uint32_t>(x)] *)
Definition cast_uint32 (x : Z) : Z := x mod 2 ^ 32.

(** qatzip.h: return codes, and the three functions the codec calls.
    [qzCompress] and [qzDecompress] are given the session, the source,
    the source length and the room at the destination (and [qzCompress]
    its [last] flag); they yield the return code, the two lengths as they
    leave them, the bytes stored and the session. *)
Module Qz.

Definition QZ_OK : Z := 0.
Definition QZ_PARAMS : Z := -1.
Definition QZ_FAIL : Z := -2.

Record call_result (S : Type) : Type := mk_call_result {
  ret : Z;
  src_len : Z;
  dest_len : Z;
  dest : list byte;
  sess : S
}.

Record Library : Type := mk_Library {
  QzSession_T : Type;
  qzCompress :
    QzSession_T -> list byte -> Z -> Z -> Z -> call_result QzSession_T;
  qzDecompress :
    QzSession_T -> list byte -> Z -> Z -> call_result QzSession_T;
  (* the value returned, as an [int64_t] *)
  qzMaxCompressedLength : Z -> QzSession_T -> Z
}.

End Qz.

(** The one-shot calls of [QatCodec] on the thread's [g_qzSession]: the
    result, the bytes stored and the session. *)
Section QatOneShot.

Variable Q : Qz.Library.
Variable NDEBUG : bool.

Definition QatCodec_Decompress (g_qzSession : Qz.QzSession_T Q)
    (input_len : Z) (input : list byte) (output_buffer_len : Z)
    : Result Z * list byte * Qz.QzSession_T Q :=
  let compressed_size := cast_uint32 input_len in
  let uncompressed_size := cast_uint32 output_buffer_len in
  let r := Qz.qzDecompress Q g_qzSession input compressed_size
             uncompressed_size in
  let uncompressed_size := cast_uint32 (Qz.dest_len r) in
  (if Qz.ret r =? Qz.QZ_OK then Value uncompressed_size
   else if Qz.ret r =? Qz.QZ_PARAMS then
     Failure (IOError "QAT decompression failure: params is invalid")
   else if Qz.ret r =? Qz.QZ_FAIL then
     Failure (IOError "QAT decompression failure: Function did not succeed")
   else
     Failure (IOError ("QAT decompression failure with error:"
                       ++ print_int (Qz.ret r))),
   Qz.dest r, Qz.sess r).

Definition QatCodec_MaxCompressedLen (g_qzSession : Qz.QzSession_T Q)
    (input_len : Z) : Outcome Z :=
  DCHECK NDEBUG (0 <=? input_len) "Check failed: (input_len) >= (0)"
    (Returns (Qz.qzMaxCompressedLength Q (cast_uLong input_len)
                g_qzSession)).

Definition QatCodec_Compress (g_qzSession : Qz.QzSession_T Q)
    (input_len : Z) (input : list byte) (output_buffer_len : Z)
    : Result Z * list byte * Qz.QzSession_T Q :=
  let uncompressed_size := cast_uint32 input_len in
  let compressed_size := cast_uint32 output_buffer_len in
  let r := Qz.qzCompress Q g_qzSession input uncompressed_size
             compressed_size 1 in
  let compressed_size := cast_uint32 (Qz.dest_len r) in
  (if Qz.ret r =? Qz.QZ_OK then Value compressed_size
   else if Qz.ret r =? Qz.QZ_PARAMS then
     Failure (IOError "QAT compression failure: params is invalid")
   else if Qz.ret r =? Qz.QZ_FAIL then
     Failure (IOError "QAT compression failure: function did not succeed")
   else
     Failure (IOError ("QAT compression failure with error:"
                       ++ print_int (Qz.ret r))),
   Qz.dest r, Qz.sess r).

End QatOneShot.

(** * Substrait relations: arrow/engine/substrait/relation_internal.cc

    [FromProto] turns a Substrait relation into the declaration of an
    execution plan.  The protobuf messages appear as records of what
    their accessors return.  The conversions of schemas and expressions,
    the file formats and the dataset factory are functions of other
    files: they are the fields of [Library], over which the embedding is
    parametric. *)

Module Substrait.

(** [arrow::StatusCode], as far as this file names it. *)
Inductive StatusCode : Type :=
| Invalid
| NotImplemented
| OtherCode (code : Z).

Inductive Status : Type :=
| OK
| Error (code : StatusCode) (msg : string).

(** [arrow::Result<T>]: a value or a status that is not OK. *)
Inductive Result (A : Type) : Type :=
| Value (a : A)
| Failure (code : StatusCode) (msg : string).
Arguments Failure {A} code msg.

(** What [std::stoi] does: the number, or one of its two exceptions. *)
Inductive stoi_result : Type :=
| stoi_value (n : Z)
| invalid_argument
| out_of_range.

(** How a call ends: it returns, or the bounds [CHECK] of protobuf's
    [RepeatedPtrField::at] fails, or an exception of [std::stoi] leaves
    the function. *)
Inductive Completion (A : Type) : Type :=
| Done (a : A)
| Fatal (check : string)
| Throws (exception : stoi_result).
Arguments Fatal {A} check.
Arguments Throws {A} exception.

(** [substrait::RelCommon] *)
Module RelCommon.
Record t : Type := mk {
  has_emit : bool;
  has_hint : bool;
  has_advanced_extension : bool
}.
End RelCommon.

(** The messages [CheckRelCommon] is instantiated at. *)
Class RelMessage (M : Type) : Type := {
  common : M -> option RelCommon.t;        (* [Some] when [has_common()] *)
  has_advanced_extension : M -> bool
}.

Definition CheckRelCommon (M : Type) (R : RelMessage M) (rel : M) : Status :=
  let tail :=
    if has_advanced_extension rel
    then Error NotImplemented "substrait AdvancedExtensions"
    else OK in
  match common rel with
  | Some c =>
      if RelCommon.has_emit c
      then Error NotImplemented "substrait::RelCommon::Emit"
      else if RelCommon.has_hint c
      then Error NotImplemented "substrait::RelCommon::Hint"
      else if RelCommon.has_advanced_extension c
      then Error NotImplemented "substrait::RelCommon::advanced_extension"
      else tail
  | None => tail
  end.
Arguments CheckRelCommon {M R} rel.

(** [substrait::ReadRel::LocalFiles::FileOrFiles] *)
Module FileOrFiles.

(** The [path_type] oneof. *)
Inductive PathType : Type :=
| PATH_TYPE_NOT_SET
| kUriPath (uri : string)
| kUriPathGlob (uri : string)
| kUriFile (uri : string)
| kUriFolder (uri : string).

(** The [file_format] oneof; [kOtherFormat] stands for every case but
    the two the file names, [FILE_FORMAT_NOT_SET] among them. *)
Inductive FileFormatCase : Type :=
| kParquet
| kArrow
| kOtherFormat.

Record t : Type := mk {
  path_type : PathType;
  file_format_case : FileFormatCase;
  partition_index : Z;      (* uint64 *)
  start : Z;                (* uint64 *)
  length : Z                (* uint64 *)
}.

Definition is_uri_file (item : t) : bool :=
  match path_type item with kUriFile _ => true | _ => false end.

(** [uri_file()]: the empty string unless the oneof holds a [uri_file]. *)
Definition uri_file (item : t) : string :=
  match path_type item with kUriFile uri => uri | _ => EmptyString end.

End FileOrFiles.

(** [substrait::ReadRel::LocalFiles] *)
Module LocalFiles.
Record t : Type := mk {
  has_advanced_extension : bool;
  items : list FileOrFiles.t
}.
End LocalFiles.

(** [dataset::FileFormat]: the two formats the file creates. *)
Inductive FileFormat : Type :=
| ParquetFileFormat
| IpcFileFormat.

(** [dataset::FileSource{path, filesystem, start_offset, length}]; the
    file system is always a new [fs::LocalFileSystem]. *)
Record FileSource : Type := mk_FileSource {
  path : string;
  start_offset : Z;
  source_length : Z
}.

(** The functions of other files that [FromProto] calls, and the types
    they work on. *)
Record Library : Type := mk_Library {
  ExtensionSet : Type;
  NamedStruct : Type;                 (* substrait::NamedStruct *)
  Expression : Type;                  (* substrait::Expression *)
  Schema : Type;                      (* std::shared_ptr<Schema> *)
  compute_Expression : Type;          (* compute::Expression *)
  FileFragment : Type;
  Dataset : Type;
  (* [FromProto] of type_internal.h *)
  FromProto_NamedStruct : NamedStruct -> ExtensionSet -> Result Schema;
  (* [FromProto] of expression_internal.h *)
  FromProto_Expression :
    Expression -> ExtensionSet -> Result compute_Expression;
  MakeFragment : FileFormat -> FileSource -> Result FileFragment;
  (* [dataset::FileSystemDataset::Make], with root partition
     [compute::literal(true)] and the local file system *)
  FileSystemDataset_Make :
    Schema -> option FileFormat -> list FileFragment -> Result Dataset;
  stoi : string -> stoi_result
}.

(** [substrait::ReadRel] *)
Module ReadRel.
Record t (L : Library) : Type := mk {
  common : option RelCommon.t;
  has_advanced_extension : bool;
  base_schema : NamedStruct L;
  filter : option (Expression L);
  has_projection : bool;
  local_files : option LocalFiles.t   (* [Some] when [has_local_files()] *)
}.
End ReadRel.

(** [substrait::FilterRel], over the type [R] of relations *)
Module FilterRel.
Record t (L : Library) (R : Type) : Type := mk {
  common : option RelCommon.t;
  has_advanced_extension : bool;
  input : option R;                      (* [Some] when [has_input()] *)
  condition : option (Expression L)      (* [Some] when [has_condition()] *)
}.
End FilterRel.

(** [substrait::ProjectRel], over the type [R] of relations *)
Module ProjectRel.
Record t (L : Library) (R : Type) : Type := mk {
  common : option RelCommon.t;
  has_advanced_extension : bool;
  input : option R;
  expressions : list (Expression L)
}.
End ProjectRel.

(** [substrait::Rel] with its [rel_type] oneof; [kOtherRel] stands for
    every case the file does not name, [REL_TYPE_NOT_SET] among them. *)
Unset Elimination Schemes.
Inductive Rel (L : Library) : Type :=
| kRead (read : ReadRel.t L)
| kFilter (filter : FilterRel.t L (Rel L))
| kProject (project : ProjectRel.t L (Rel L))
| kOtherRel (DebugString : string).
Set Elimination Schemes.
Arguments kOtherRel {L} DebugString.

#[global] Instance ReadRel_message (L : Library)
  : RelMessage (ReadRel.t L) :=
  {| common := @ReadRel.common L;
     has_advanced_extension := @ReadRel.has_advanced_extension L |}.

#[global] Instance FilterRel_message (L : Library) (R : Type)
  : RelMessage (FilterRel.t L R) :=
  {| common := @FilterRel.common L R;
     has_advanced_extension := @FilterRel.has_advanced_extension L R |}.

#[global] Instance ProjectRel_message (L : Library) (R : Type)
  : RelMessage (ProjectRel.t L R) :=
  {| common := @ProjectRel.common L R;
     has_advanced_extension := @ProjectRel.has_advanced_extension L R |}.

(** The options of the four kinds of declarations the file makes;
    [ScanNodeOptions] always carries a default [dataset::ScanOptions]. *)
Inductive Options (L : Library) : Type :=
| SourceIndexOptions (index : Z)
| ScanNodeOptions (ds : Dataset L)
| FilterNodeOptions (filter_expression : compute_Expression L)
| ProjectNodeOptions (expressions : list (compute_Expression L)).
Arguments SourceIndexOptions {L} index.
Arguments ScanNodeOptions {L} ds.
Arguments FilterNodeOptions {L} filter_expression.
Arguments ProjectNodeOptions {L} expressions.

(** [compute::Declaration] *)
Unset Elimination Schemes.
Inductive Declaration (L : Library) : Type :=
| mk_Declaration (factory_name : string) (inputs : list (Declaration L))
                 (options : Options L).
Set Elimination Schemes.

Definition factory_name (L : Library) (d : Declaration L) : string :=
  match d with mk_Declaration n _ _ => n end.

Definition inputs (L : Library) (d : Declaration L) : list (Declaration L) :=
  match d with mk_Declaration _ i _ => i end.

Definition options (L : Library) (d : Declaration L) : Options L :=
  match d with mk_Declaration _ _ o => o end.

(** [compute::Declaration::Sequence({input, node})]: [input] is appended
    to the inputs of [node], which is returned. *)
Definition Sequence (L : Library) (input node : Declaration L)
    : Declaration L :=
  mk_Declaration (factory_name node) (inputs node ++ [input]) (options node).

(** The function-local [static bool dataset_init], and the number of
    calls of [dataset::internal::Initialize()] made so far. *)
Record Statics : Type := mk_Statics {
  dataset_init : bool;
  Initialize_calls : nat
}.

(** [util::string_view{s}.starts_with(p)] and [s.substr(pos)] *)
Definition starts_with (s p : string) : bool := String.prefix p s.

Definition substr (s : string) (pos : nat) : string :=
  String.substring pos (String.length s - pos) s.

Section Conversion.

Variable L : Library.
Variable ext_set : ExtensionSet L.

(** The loop over [read.local_files().items()]: the format of the last
    item seen and the fragments made so far, or the first failure. *)
Fixpoint items_loop (items : list FileOrFiles.t)
    (format : option FileFormat) (fragments : list (FileFragment L))
    : Result (option FileFormat * list (FileFragment L)) :=
  match items with
  | [] => Value (format, fragments)
  | item :: rest =>
      if negb (FileOrFiles.is_uri_file item) then
        Failure NotImplemented
          ("substrait::ReadRel::LocalFiles::FileOrFiles with "
           ++ "path_type other than uri_file")
      else
        let chosen :=
          match FileOrFiles.file_format_case item with
          | FileOrFiles.kParquet => Some ParquetFileFormat
          | FileOrFiles.kArrow => Some IpcFileFormat
          | FileOrFiles.kOtherFormat => None
          end in
        match chosen with
        | None =>
            Failure NotImplemented
              "unknown substrait::ReadRel::LocalFiles::FileOrFiles::file_format"
        | Some format =>
            if negb (starts_with (FileOrFiles.uri_file item) "file:///") then
              Failure NotImplemented
                ("substrait::ReadRel::LocalFiles::FileOrFiles::uri_file "
                 ++ "with other than local filesystem (file:///)")
            else
              let path := substr (FileOrFiles.uri_file item) 7 in
              (* Read all row groups if both start and length are not
                 specified. *)
              let start_offset :=
                if (FileOrFiles.length item =? 0)
                   && (FileOrFiles.start item =? 0)
                then -1
                else cast_int64 (FileOrFiles.start item) in
              let length := cast_int64 (FileOrFiles.length item) in
              match MakeFragment L format
                      (mk_FileSource path start_offset length) with
              | Failure code msg => Failure code msg
              | Value fragment =>
                  items_loop rest (Some format) (fragments ++ [fragment])
              end
        end
  end.

(** Whether the first item names an input iterator. *)
Definition is_iterator (head : FileOrFiles.t) : bool :=
  FileOrFiles.is_uri_file head
  && starts_with (FileOrFiles.uri_file head) "iterator:".

(** The [kRead] case of [FromProto]. *)
Definition FromProto_read (read : ReadRel.t L)
    : Completion (Result (Declaration L)) :=
  match CheckRelCommon read with
  | Error code msg => Done (Failure code msg)
  | OK =>
  match FromProto_NamedStruct L (ReadRel.base_schema read) ext_set with
  | Failure code msg => Done (Failure code msg)
  | Value base_schema =>
  if ReadRel.has_projection read then
    Done (Failure NotImplemented "substrait::ReadRel::projection")
  else
  match ReadRel.local_files read with
  | None =>
      Done (Failure NotImplemented
              "substrait::ReadRel with read_type other than LocalFiles")
  | Some local_files =>
  if LocalFiles.has_advanced_extension local_files then
    Done (Failure NotImplemented
            "substrait::ReadRel::LocalFiles::advanced_extension")
  else
  (* Check whether the input is iterator. *)
  match LocalFiles.items local_files with
  | [] => Fatal "CHECK failed: (index) < (current_size_)"
  | head :: _ =>
      if is_iterator head then
        let index := substr (FileOrFiles.uri_file head) 9 in
        (* Construct decl with the index of input iterator. *)
        match stoi L index with
        | stoi_value n =>
            Done (Value (mk_Declaration "source_index" []
                           (SourceIndexOptions n)))
        | exception => Throws exception
        end
      else
        match items_loop (LocalFiles.items local_files) None [] with
        | Failure code msg => Done (Failure code msg)
        | Value (format, fragments) =>
            match FileSystemDataset_Make L base_schema format fragments with
            | Failure code msg => Done (Failure code msg)
            | Value ds =>
                Done (Value (mk_Declaration "scan" [] (ScanNodeOptions ds)))
            end
        end
  end end end end.

(** The loop over [project.expressions()]. *)
Fixpoint expressions_loop (exprs : list (Expression L))
    (expressions : list (compute_Expression L))
    : Result (list (compute_Expression L)) :=
  match exprs with
  | [] => Value expressions
  | expr :: rest =>
      match FromProto_Expression L expr ext_set with
      | Failure code msg => Failure code msg
      | Value e => expressions_loop rest (expressions ++ [e])
      end
  end.

(** [FromProto(const substrait::Rel&, const ExtensionSet&)], with the
    statics before and after the call. *)
Fixpoint FromProto (rel : Rel L) (statics : Statics)
    : Completion (Result (Declaration L)) * Statics :=
  let statics :=
    if negb (dataset_init statics)
    then mk_Statics true (S (Initialize_calls statics))
    else statics in
  match rel with
  | kRead read => (FromProto_read read, statics)
  | kFilter filter =>
      match CheckRelCommon filter with
      | Error code msg => (Done (Failure code msg), statics)
      | OK =>
      match FilterRel.input filter with
      | None =>
          (Done (Failure Invalid
                   "substrait::FilterRel with no input relation"), statics)
      | Some input_rel =>
      match FromProto input_rel statics with
      | (Done (Value input), statics) =>
          match FilterRel.condition filter with
          | None =>
              (Done (Failure Invalid
                       "substrait::FilterRel with no condition expression"),
               statics)
          | Some cond =>
              match FromProto_Expression L cond ext_set with
              | Failure code msg => (Done (Failure code msg), statics)
              | Value condition =>
                  (Done (Value (Sequence input
                                  (mk_Declaration "filter" []
                                     (FilterNodeOptions condition)))),
                   statics)
              end
          end
      | other => other
      end end end
  | kProject project =>
      match CheckRelCommon project with
      | Error code msg => (Done (Failure code msg), statics)
      | OK =>
      match ProjectRel.input project with
      | None =>
          (Done (Failure Invalid
                   "substrait::ProjectRel with no input relation"), statics)
      | Some input_rel =>
      match FromProto input_rel statics with
      | (Done (Value input), statics) =>
          match expressions_loop (ProjectRel.expressions project) [] with
          | Failure code msg => (Done (Failure code msg), statics)
          | Value expressions =>
              (Done (Value (Sequence input
                              (mk_Declaration "project" []
                                 (ProjectNodeOptions expressions)))),
               statics)
          end
      | other => other
      end end end
  | kOtherRel DebugString =>
      (Done (Failure NotImplemented
               ("conversion to arrow::compute::Declaration from Substrait "
                ++ "relation " ++ DebugString)), statics)
  end.

End Conversion.

(** ** Notions used to state what [FromProto] does *)

(** An emit, a hint or an advanced extension on a message. *)
Definition carries_extension (M : Type) (R : RelMessage M) (rel : M) : bool :=
  has_advanced_extension rel
  || match common rel with
     | Some c =>
         RelCommon.has_emit c || RelCommon.has_hint c
         || RelCommon.has_advanced_extension c
     | None => false
     end.
Arguments carries_extension {M R} rel.

Section Shapes.

Variable L : Library.

(** The relations a conversion can visit: the relation, its input, the
    input of that, and so on. *)
Fixpoint chain (rel : Rel L) : list (Rel L) :=
  rel ::
  match rel with
  | kFilter filter =>
      match FilterRel.input filter with
      | Some input => chain input
      | None => []
      end
  | kProject project =>
      match ProjectRel.input project with
      | Some input => chain input
      | None => []
      end
  | _ => []
  end.

(** The factory names down the first inputs of a declaration; it stops
    at a declaration that does not have exactly one input. *)
Fixpoint spine (d : Declaration L) : list string :=
  match d with
  | mk_Declaration name ins _ =>
      name ::
      match ins with
      | [input] => spine input
      | _ => []
      end
  end.

(** A relation [FromProto] has a case for, free of extensions, with the
    input and the condition the case asks for. *)
Definition supported (rel : Rel L) : Prop :=
  match rel with
  | kRead read => carries_extension read = false
  | kFilter filter =>
      carries_extension filter = false
      /\ FilterRel.input filter <> None
      /\ FilterRel.condition filter <> None
  | kProject project =>
      carries_extension project = false
      /\ ProjectRel.input project <> None
  | kOtherRel _ => False
  end.

(** The factory a relation is given a declaration of. *)
Definition factory_of (rel : Rel L) : string :=
  match rel with
  | kRead read =>
      match ReadRel.local_files read with
      | Some local_files =>
          match LocalFiles.items local_files with
          | head :: _ =>
              if is_iterator head then "source_index" else "scan"
          | [] => "scan"
          end
      | None => "scan"
      end
  | kFilter _ => "filter"
  | kProject _ => "project"
  | kOtherRel _ => ""
  end.

(** The statics a call works with once it has looked at
    [dataset_init]. *)
Definition initialized (statics : Statics) : Statics :=
  if negb (dataset_init statics)
  then mk_Statics true (S (Initialize_calls statics))
  else statics.

(** The same read with another filter and other partition indices. *)
Definition with_partition_index (i : Z) (item : FileOrFiles.t)
    : FileOrFiles.t :=
  FileOrFiles.mk (FileOrFiles.path_type item)
    (FileOrFiles.file_format_case item) i
    (FileOrFiles.start item) (FileOrFiles.length item).

Definition without_filter (read : ReadRel.t L) : ReadRel.t L :=
  @ReadRel.mk L (ReadRel.common read) (ReadRel.has_advanced_extension read)
    (ReadRel.base_schema read) None (ReadRel.has_projection read)
    (match ReadRel.local_files read with
     | Some local_files =>
         Some (LocalFiles.mk (LocalFiles.has_advanced_extension local_files)
                 (map (with_partition_index 0)
                    (LocalFiles.items local_files)))
     | None => None
     end).


(** The ways a read does not return. *)
Definition no_files (read : ReadRel.t L) : Prop :=
  exists local_files,
    ReadRel.local_files read = Some local_files
    /\ LocalFiles.items local_files = [].

Definition bad_iterator (read : ReadRel.t L) (e : stoi_result) : Prop :=
  exists local_files head rest uri,
    ReadRel.local_files read = Some local_files
    /\ LocalFiles.items local_files = head :: rest
    /\ FileOrFiles.path_type head = FileOrFiles.kUriFile uri
    /\ starts_with uri "iterator:" = true
    /\ stoi L (substr uri 9) = e.


End Shapes.

(** ** A library to run [FromProto] with *)

(** [std::stoi] on decimal digits: leading white space, a sign, then
    digits up to the first other character; the value must fit [int]. *)
Definition isspace (c : ascii) : bool :=
  let n := nat_of_ascii c in
  (n =? 32)%nat || ((9 <=? n)%nat && (n <=? 13)%nat).

Fixpoint skip_space (s : string) : string :=
  match s with
  | String c rest => if isspace c then skip_space rest else s
  | EmptyString => s
  end.

Definition digit_of (c : ascii) : option Z :=
  let n := nat_of_ascii c in
  if (48 <=? n)%nat && (n <=? 57)%nat then Some (Z.of_nat (n - 48)) else None.

Fixpoint digits (s : string) (seen : option Z) : option Z :=
  match s with
  | String c rest =>
      match digit_of c with
      | Some d =>
          digits rest (Some (10 * match seen with Some n => n | None => 0 end
                             + d))
      | None => seen
      end
  | EmptyString => seen
  end.

Definition decimal_stoi (s : string) : stoi_result :=
  let s := skip_space s in
  let signed :=
    match s with
    | String "-" rest => (true, rest)
    | String "+" rest => (false, rest)
    | _ => (false, s)
    end in
  match digits (snd signed) None with
  | None => invalid_argument
  | Some n =>
      let v := if fst signed then - n else n in
      if (- 2 ^ 31 <=? v) && (v <=? 2 ^ 31 - 1) then stoi_value v
      else out_of_range
  end.

(** Schemas and expressions are converted as they are, a fragment is its
    format and source, a dataset is what it was made of. *)
Definition plain : Library :=
  @mk_Library unit (list string) Z (list string) Z
    (FileFormat * FileSource)
    (list string * option FileFormat * list (FileFormat * FileSource))
    (fun s _ => Value s)
    (fun e _ => Value e)
    (fun format source => Value (format, source))
    (fun schema format fragments => Value (schema, format, fragments))
    decimal_stoi.

(** A filter over the scan of one Parquet file, and the same read with
    a filter of its own and a partition index. *)
Definition one_file : FileOrFiles.t :=
  FileOrFiles.mk (FileOrFiles.kUriFile "file:///data/part-0.parquet")
    FileOrFiles.kParquet 0 0 0.

Definition read_one_file : ReadRel.t plain :=
  @ReadRel.mk plain None false ["a"%string; "b"%string] None false
    (Some (LocalFiles.mk false [one_file])).

Definition read_one_file_filtered : ReadRel.t plain :=
  @ReadRel.mk plain None false ["a"%string; "b"%string] (Some 7) false
    (Some (LocalFiles.mk false [with_partition_index 3 one_file])).

Definition scan_one_file : Declaration plain :=
  mk_Declaration "scan" []
    (@ScanNodeOptions plain
       (["a"%string; "b"%string], Some ParquetFileFormat,
        [(ParquetFileFormat,
          mk_FileSource "/data/part-0.parquet" (-1) 0)])).

Definition filter_one_file : Rel plain :=
  kFilter (@FilterRel.mk plain (Rel plain) None false
             (Some (kRead read_one_file)) (Some 1)).

End Substrait.

(** * Properties *)

(** ** Direction bookkeeping *)

Section Directions.

Variable E : Engine.
Implicit Types c : GZipCodec.t E.

(** [InitCompressor] in one piece: its status follows the return code
    of [deflateInit2], the decompression session is gone, and the
    compression session is marked active on success and left marked as
    it was on failure. *)
Lemma InitCompressor_spec c :
  let r := GZipCodec.InitCompressor c in
  GZipCodec.decompressor_initialized_ (snd r) = false
  /\ GZipCodec.format_ (snd r) = GZipCodec.format_ c
  /\ GZipCodec.compression_level_ (snd r) = GZipCodec.compression_level_ c
  /\ GZipCodec.engine_calls (snd r)
     = GZipCodec.engine_calls c
       ++ (if GZipCodec.decompressor_initialized_ c
           then [call_isal_inflate_reset] else [])
       ++ [init_call c]
  /\ (if deflateInit2_ret c =? Zlib.Z_OK
      then fst r = OK /\ GZipCodec.compressor_initialized_ (snd r) = true
      else ok (fst r) = false
           /\ GZipCodec.compressor_initialized_ (snd r)
              = GZipCodec.compressor_initialized_ c).
Proof.
  intro r. subst r.
  unfold GZipCodec.InitCompressor, GZipCodec.EndDecompressor,
    deflateInit2_ret, init_call.
  destruct (GZipCodec.decompressor_initialized_ c); cbn;
    match goal with
    | |- context [fst ?x =? Zlib.Z_OK] => destruct (fst x =? Zlib.Z_OK)
    end; cbn; rewrite <- ?app_assoc; auto 10.
Qed.

Lemma InitDecompressor_spec c :
  let r := GZipCodec.InitDecompressor c in
  fst r = OK
  /\ GZipCodec.compressor_initialized_ (snd r) = false
  /\ GZipCodec.decompressor_initialized_ (snd r) = true
  /\ GZipCodec.format_ (snd r) = GZipCodec.format_ c
  /\ GZipCodec.compression_level_ (snd r) = GZipCodec.compression_level_ c
  /\ GZipCodec.engine_calls (snd r)
     = GZipCodec.engine_calls c
       ++ (if GZipCodec.compressor_initialized_ c
           then [call_deflateEnd] else [])
       ++ [call_isal_inflate_init].
Proof.
  intro r. subst r.
  unfold GZipCodec.InitDecompressor, GZipCodec.EndCompressor.
  destruct (GZipCodec.compressor_initialized_ c); cbn;
    rewrite <- ?app_assoc; auto 10.
Qed.

End Directions.

(** Replace the two initialisers by what [InitCompressor_spec] and
    [InitDecompressor_spec] say of them. *)
Ltac open_InitCompressor c :=
  let st := fresh "st" in
  let c1 := fresh "c1" in
  generalize (InitCompressor_spec c); cbv zeta;
  destruct (GZipCodec.InitCompressor c) as [st c1];
  cbn [fst snd]; intros (? & ? & ? & ? & ?).

Ltac open_InitDecompressor c :=
  let st := fresh "st" in
  let c1 := fresh "c1" in
  generalize (InitDecompressor_spec c); cbv zeta;
  destruct (GZipCodec.InitDecompressor c) as [st c1];
  cbn [fst snd]; intros (? & ? & ? & ? & ? & ?).

Ltac split_ifs :=
  repeat match goal with
         | |- context [if ?b then _ else _] => destruct b eqn:?
         end.

Section Switching.

Variable E : Engine.
Variable NDEBUG : bool.
Implicit Types c : GZipCodec.t E.

Lemma Compress_directions c n i m :
  let c' := snd (GZipCodec.Compress c n i m) in
  (GZipCodec.compressor_initialized_ c = true ->
     GZipCodec.compressor_initialized_ c' = true
     /\ GZipCodec.decompressor_initialized_ c'
        = GZipCodec.decompressor_initialized_ c)
  /\ (GZipCodec.compressor_initialized_ c = false ->
        GZipCodec.decompressor_initialized_ c' = false
        /\ exists rest,
             GZipCodec.engine_calls c'
             = GZipCodec.engine_calls c
               ++ (if GZipCodec.decompressor_initialized_ c
                   then [call_isal_inflate_reset] else [])
               ++ init_call c :: rest).
Proof.
  cbv zeta. unfold GZipCodec.Compress. split; intros Hc; rewrite Hc; cbn [negb].
  - cbn [fst snd ok negb]. split_ifs; cbn; auto.
  - open_InitCompressor c.
    destruct (ok st); cbn [negb fst snd].
    + split_ifs; cbn; split; auto;
        match goal with
        | H : GZipCodec.engine_calls _ = _ |- _ => rewrite H
        end; rewrite <- ?app_assoc; cbn; eexists; reflexivity.
    + split; auto. exists [].
      match goal with
      | H : GZipCodec.engine_calls _ = _ |- _ => rewrite H
      end. reflexivity.
Qed.

Lemma Decompress_directions c n i m :
  let c' := snd (GZipCodec.Decompress c n i m) in
  (GZipCodec.decompressor_initialized_ c = true ->
     GZipCodec.decompressor_initialized_ c' = true
     /\ GZipCodec.compressor_initialized_ c'
        = GZipCodec.compressor_initialized_ c)
  /\ (GZipCodec.decompressor_initialized_ c = false ->
        GZipCodec.compressor_initialized_ c' = false
        /\ GZipCodec.decompressor_initialized_ c' = true
        /\ exists rest,
             GZipCodec.engine_calls c'
             = GZipCodec.engine_calls c
               ++ (if GZipCodec.compressor_initialized_ c
                   then [call_deflateEnd] else [])
               ++ call_isal_inflate_init :: rest).
Proof.
  cbv zeta. unfold GZipCodec.Decompress. split; intros Hd; rewrite Hd; cbn [negb].
  - cbn [fst snd ok negb]. split_ifs; cbn; auto.
  - open_InitDecompressor c. subst st. cbn [ok negb].
    split_ifs; cbn; repeat split; auto;
      match goal with
      | H : GZipCodec.engine_calls _ = _ |- _ => rewrite H
      end; rewrite <- ?app_assoc; cbn; eexists; reflexivity.
Qed.

Lemma MaxCompressedLen_directions c n r :
  GZipCodec.MaxCompressedLen c n = Returns r ->
  GZipCodec.compressor_initialized_ (snd r) = true
  /\ (GZipCodec.compressor_initialized_ c = true ->
        GZipCodec.decompressor_initialized_ (snd r)
        = GZipCodec.decompressor_initialized_ c)
  /\ (GZipCodec.compressor_initialized_ c = false ->
        GZipCodec.decompressor_initialized_ (snd r) = false).
Proof.
  unfold GZipCodec.MaxCompressedLen.
  destruct (GZipCodec.compressor_initialized_ c) eqn:Hc; cbn [negb].
  - cbn. intros [= <-]. cbn. repeat split; auto; discriminate.
  - open_InitCompressor c. unfold deflateInit2_ret in *.
    match goal with
    | H : if ?b then _ else _ |- _ => destruct b; destruct H as [Hst Hci]
    end.
    + subst st. cbn. intros [= <-]. cbn. repeat split; auto; discriminate.
    + rewrite Hst. cbn. discriminate.
Qed.

Lemma Init_directions c :
  at_most_one_active (snd (GZipCodec.Init c)).
Proof.
  unfold GZipCodec.Init, at_most_one_active.
  open_InitCompressor c.
  destruct (ok st); cbn [negb snd].
  - open_InitDecompressor c1.
    repeat match goal with
           | H : _ = _ |- _ => rewrite H
           end. reflexivity.
  - match goal with
    | H : GZipCodec.decompressor_initialized_ _ = false |- _ => rewrite H
    end. apply andb_false_r.
Qed.

Lemma step_at_most_one c o c' :
  at_most_one_active c -> step NDEBUG c o = Some c' ->
  at_most_one_active c'.
Proof.
  unfold at_most_one_active. intros Hinv Hstep.
  destruct o; cbn in Hstep.
  - injection Hstep as <-.
    destruct (Compress_directions c input_length input output_buffer_len)
      as [H1 H2].
    destruct (GZipCodec.compressor_initialized_ c) eqn:Hc.
    + destruct (H1 eq_refl) as [-> ->]. exact Hinv.
    + destruct (H2 eq_refl) as [-> _]. apply andb_false_r.
  - injection Hstep as <-.
    destruct (Decompress_directions c input_length input
                output_buffer_length) as [H1 H2].
    destruct (GZipCodec.decompressor_initialized_ c) eqn:Hd.
    + destruct (H1 eq_refl) as [-> ->]. exact Hinv.
    + destruct (H2 eq_refl) as [-> _]. reflexivity.
  - destruct (GZipCodec.MaxCompressedLen c input_length) as [r|] eqn:Hm;
      [|discriminate].
    injection Hstep as <-.
    destruct (MaxCompressedLen_directions _ _ Hm) as (H0 & H1 & H2).
    destruct (GZipCodec.compressor_initialized_ c) eqn:Hc.
    + rewrite (H1 eq_refl), H0. exact Hinv.
    + rewrite (H2 eq_refl). apply andb_false_r.
  - injection Hstep as <-. apply Init_directions.
  - destruct (GZipCodec.MakeCompressor NDEBUG c); [|discriminate].
    injection Hstep as <-. exact Hinv.
  - destruct (GZipCodec.MakeDecompressor NDEBUG c); [|discriminate].
    injection Hstep as <-. exact Hinv.
Qed.

Lemma reachable_at_most_one c :
  reachable NDEBUG c -> at_most_one_active c.
Proof.
  induction 1 as [level format | c o c' _ IH Hstep].
  - reflexivity.
  - exact (step_at_most_one o IH Hstep).
Qed.

End Switching.

(** ** Claims on the direction bookkeeping *)

(** C7.  In every state a software codec reaches from its construction
    by any sequence of its operations, the compression session and the
    decompression session are not both active, and every operation leads
    to such a state again.  A one-shot compress that finds the
    decompression session active tears it down ([isal_inflate_reset])
    before it initializes its own ([deflateInit2]), and a one-shot
    decompress that finds the compression session active tears that down
    ([deflateEnd]) before it initializes its own ([isal_inflate_init]). *)
Theorem at_most_one_direction_active
    (E : Engine) (NDEBUG : bool) (c : GZipCodec.t E) :
  reachable NDEBUG c ->
  at_most_one_active c
  /\ (forall o c', step NDEBUG c o = Some c' -> at_most_one_active c')
  /\ (forall n i m,
        GZipCodec.decompressor_initialized_ c = true ->
        let c' := snd (GZipCodec.Compress c n i m) in
        GZipCodec.decompressor_initialized_ c' = false
        /\ exists rest,
             GZipCodec.engine_calls c'
             = GZipCodec.engine_calls c
               ++ call_isal_inflate_reset :: init_call c :: rest)
  /\ (forall n i m,
        GZipCodec.compressor_initialized_ c = true ->
        let c' := snd (GZipCodec.Decompress c n i m) in
        GZipCodec.compressor_initialized_ c' = false
        /\ GZipCodec.decompressor_initialized_ c' = true
        /\ exists rest,
             GZipCodec.engine_calls c'
             = GZipCodec.engine_calls c
               ++ call_deflateEnd :: call_isal_inflate_init :: rest).
Proof.
  intros Hreach.
  pose proof (reachable_at_most_one Hreach) as Hinv.
  split; [exact Hinv|].
  split; [intros o c' Hstep; exact (step_at_most_one NDEBUG o Hinv Hstep)|].
  unfold at_most_one_active in Hinv.
  split; intros n i m Hactive; cbv zeta.
  - rewrite Hactive, andb_true_r in Hinv.
    destruct (Compress_directions c n i m) as [_ H].
    destruct (H Hinv) as (Hd & rest & Hcalls).
    rewrite Hactive in Hcalls. split; [exact Hd|].
    exists rest. exact Hcalls.
  - rewrite Hactive in Hinv. cbn in Hinv.
    destruct (Decompress_directions c n i m) as [_ H].
    destruct (H Hinv) as (Hc & Hd & rest & Hcalls).
    rewrite Hactive in Hcalls. repeat split; auto.
    exists rest. exact Hcalls.
Qed.

(** A codec that has just decompressed is reachable, and the theorem
    applies to it. *)
Lemma at_most_one_direction_active_witness :
  let c := snd (GZipCodec.Decompress (GZipCodec.new Ref.engine 9 GZIP)
                  3 [x1f; x8b; x00] 8) in
  reachable true c /\ at_most_one_active c.
Proof.
  cbv zeta.
  assert (H : reachable true
                (snd (GZipCodec.Decompress (GZipCodec.new Ref.engine 9 GZIP)
                        3 [x1f; x8b; x00] 8))).
  { apply (@reachable_step Ref.engine true (GZipCodec.new Ref.engine 9 GZIP)
             (op_Decompress 3 [x1f; x8b; x00] 8)).
    - apply reachable_new.
    - reflexivity. }
  split; [exact H|].
  exact (proj1 (at_most_one_direction_active H)).
Defined.

(** C10.  [MaxCompressedLen] changes the codec.  In a reachable state
    with the decompression session active, and when [deflateInit2]
    accepts the codec's parameters, it tears that session down,
    initializes the compression session, returns the engine's bound plus
    12 and leaves a codec whose next one-shot decompress has to switch
    direction again.  When the compression session is not active and
    [deflateInit2] refuses the parameters, the call ends the process on
    [ARROW_CHECK_OK] and no status is returned. *)
Theorem MaxCompressedLen_is_not_pure
    (E : Engine) (NDEBUG : bool) (c : GZipCodec.t E) (n : Z) :
  reachable NDEBUG c ->
  (GZipCodec.decompressor_initialized_ c = true ->
   deflateInit2_ret c = Zlib.Z_OK ->
   exists c',
     GZipCodec.MaxCompressedLen c n
     = Returns (cast_int64 (deflateBound E (GZipCodec.stream_ c')
                              (cast_uLong n)) + 12, c')
     /\ c' <> c
     /\ GZipCodec.decompressor_initialized_ c' = false
     /\ GZipCodec.compressor_initialized_ c' = true
     /\ GZipCodec.engine_calls c'
        = GZipCodec.engine_calls c
          ++ [call_isal_inflate_reset; init_call c; call_deflateBound]
     /\ forall n' i' m',
          exists rest,
            GZipCodec.engine_calls (snd (GZipCodec.Decompress c' n' i' m'))
            = GZipCodec.engine_calls c'
              ++ call_deflateEnd :: call_isal_inflate_init :: rest)
  /\ (GZipCodec.compressor_initialized_ c = false ->
      deflateInit2_ret c <> Zlib.Z_OK ->
      GZipCodec.MaxCompressedLen c n = Aborts "Check failed: s.ok()").
Proof.
  intros Hreach. pose proof (reachable_at_most_one Hreach) as Hinv.
  unfold at_most_one_active in Hinv. split.
  - intros Hd Hret. rewrite Hd, andb_true_r in Hinv.
    unfold GZipCodec.MaxCompressedLen. rewrite Hinv. cbn [negb].
    open_InitCompressor c. rewrite Hret, Z.eqb_refl in *.
    match goal with
    | H : _ /\ _ |- _ => destruct H as [-> Hci]
    end.
    cbn [ok negb].
    exists (GZipCodec.called c1 call_deflateBound).
    split; [reflexivity|]. cbn.
    repeat split; auto.
    + intros Heq.
      apply (f_equal (@GZipCodec.compressor_initialized_ E)) in Heq.
      cbn in Heq. congruence.
    + match goal with
      | H : GZipCodec.engine_calls _ = _ |- _ => rewrite H
      end. rewrite Hd, <- app_assoc. reflexivity.
    + intros n' i' m'.
      destruct (Decompress_directions (GZipCodec.called c1 call_deflateBound)
                  n' i' m') as [_ H'].
      destruct H' as (_ & _ & rest & Hcalls); [cbn; assumption|].
      exists rest. rewrite Hcalls. cbn. rewrite Hci. reflexivity.
  - intros Hc Hret. unfold GZipCodec.MaxCompressedLen. rewrite Hc. cbn [negb].
    open_InitCompressor c.
    apply Z.eqb_neq in Hret. rewrite Hret in *.
    match goal with
    | H : _ /\ _ |- _ => destruct H as [-> _]
    end. reflexivity.
Qed.

(** The codec that has just decompressed, asked for a bound. *)
Lemma MaxCompressedLen_is_not_pure_witness :
  let c := snd (GZipCodec.Decompress (GZipCodec.new Ref.engine 9 GZIP)
                  3 [x1f; x8b; x00] 8) in
  reachable true c
  /\ GZipCodec.decompressor_initialized_ c = true
  /\ deflateInit2_ret c = Zlib.Z_OK
  /\ exists c',
       GZipCodec.MaxCompressedLen c 5
       = Returns (cast_int64 (deflateBound Ref.engine (GZipCodec.stream_ c')
                                (cast_uLong 5)) + 12, c')
       /\ GZipCodec.decompressor_initialized_ c' = false.
Proof.
  cbv zeta.
  assert (H : reachable true
                (snd (GZipCodec.Decompress (GZipCodec.new Ref.engine 9 GZIP)
                        3 [x1f; x8b; x00] 8))).
  { apply (@reachable_step Ref.engine true (GZipCodec.new Ref.engine 9 GZIP)
             (op_Decompress 3 [x1f; x8b; x00] 8)).
    - apply reachable_new.
    - reflexivity. }
  split; [exact H|].
  split; [reflexivity|].
  split; [reflexivity|].
  destruct (proj1 (MaxCompressedLen_is_not_pure 5 H) eq_refl eq_refl)
    as (c' & Heq & _ & Hd & _).
  exists c'. split; [exact Heq | exact Hd].
Defined.

(** C6, as the code has it.  After a successful [Init] the decompression
    session is active and the compression session is not: [Init]
    initializes the compression session first and the initialization of
    the decompression session then ends it.  The first decompress that
    follows initializes nothing; the first compress that follows tears
    the decompression session down and initializes the compression
    session again. *)
Theorem Init_leaves_decompression_active
    (E : Engine) (c : GZipCodec.t E) :
  fst (GZipCodec.Init c) = OK ->
  let c' := snd (GZipCodec.Init c) in
  GZipCodec.decompressor_initialized_ c' = true
  /\ GZipCodec.compressor_initialized_ c' = false
  /\ GZipCodec.engine_calls c'
     = GZipCodec.engine_calls c
       ++ (if GZipCodec.decompressor_initialized_ c
           then [call_isal_inflate_reset] else [])
       ++ [init_call c; call_deflateEnd; call_isal_inflate_init]
  /\ (forall n i m,
        GZipCodec.engine_calls (snd (GZipCodec.Decompress c' n i m))
        = GZipCodec.engine_calls c'
          ++ (if m =? 0 then []
              else [call_isal_inflate_reset; call_isal_inflate]))
  /\ (forall n i m,
        exists rest,
          GZipCodec.engine_calls (snd (GZipCodec.Compress c' n i m))
          = GZipCodec.engine_calls c'
            ++ call_isal_inflate_reset :: init_call c :: rest).
Proof.
  unfold GZipCodec.Init. open_InitCompressor c.
  destruct (ok st) eqn:Hok; cbn [negb fst snd].
  2:{ intros ->. discriminate. }
  intros _.
  assert (Hci : GZipCodec.compressor_initialized_ c1 = true).
  { match goal with
    | H : if ?b then _ else _ |- _ => destruct b; destruct H as [Hst Hci]
    end; [exact Hci | congruence]. }
  open_InitDecompressor c1.
  assert (Hcalls : GZipCodec.engine_calls c0
                   = GZipCodec.engine_calls c
                     ++ (if GZipCodec.decompressor_initialized_ c
                         then [call_isal_inflate_reset] else [])
                     ++ [init_call c; call_deflateEnd;
                         call_isal_inflate_init]).
  { repeat match goal with
           | H : GZipCodec.engine_calls _ = _ |- _ => rewrite H; clear H
           end.
    rewrite Hci, <- !app_assoc. reflexivity. }
  repeat split; auto.
  - intros n i m. unfold GZipCodec.Decompress.
    match goal with
    | H : GZipCodec.decompressor_initialized_ c0 = true |- _ => rewrite H
    end. cbn [negb ok fst snd].
    change (negb (0 =? Isal.ISAL_BLOCK_FINISH)) with true. cbv iota.
    split_ifs; cbn; rewrite <- ?app_assoc, ?app_nil_r; reflexivity.
  - intros n i m.
    destruct (Compress_directions c0 n i m) as [_ H'].
    destruct H' as (_ & rest & Hc'); [assumption|].
    exists rest. rewrite Hc'.
    repeat match goal with
           | H : GZipCodec.decompressor_initialized_ c0 = true |- _ =>
               rewrite H
           end.
    unfold init_call.
    repeat match goal with
           | H : GZipCodec.format_ _ = _ |- _ => rewrite H; clear H
           | H : GZipCodec.compression_level_ _ = _ |- _ => rewrite H; clear H
           end.
    reflexivity.
Qed.

Lemma Init_leaves_decompression_active_witness :
  let c := GZipCodec.new Ref.engine 9 GZIP in
  fst (GZipCodec.Init c) = OK
  /\ GZipCodec.decompressor_initialized_ (snd (GZipCodec.Init c)) = true
  /\ GZipCodec.compressor_initialized_ (snd (GZipCodec.Init c)) = false.
Proof.
  cbv zeta. split; [reflexivity|].
  destruct (@Init_leaves_decompression_active Ref.engine
              (GZipCodec.new Ref.engine 9 GZIP) eq_refl) as (Hd & Hc & _).
  split; [exact Hd | exact Hc].
Defined.

(** C6 as stated fails: on a new gzip codec [Init] succeeds and leaves
    the compression session inactive, and the compress that follows
    calls [deflateInit2] a second time. *)
Lemma Init_does_not_leave_both_active :
  let r := GZipCodec.Init (GZipCodec.new Ref.engine 9 GZIP) in
  fst r = OK
  /\ GZipCodec.compressor_initialized_ (snd r) = false
  /\ GZipCodec.engine_calls (snd (GZipCodec.Compress (snd r) 0 [] 16))
     = [call_deflateInit2 31 9; call_deflateEnd; call_isal_inflate_init;
        call_isal_inflate_reset; call_deflateInit2 31 9;
        call_deflate Zlib.Z_FINISH; call_deflateReset].
Proof. vm_compute. repeat split. Qed.

(** ** Zero-capacity decompression *)

(** C5, as the code has it.  A one-shot decompress with output capacity
    zero returns 0 bytes produced, stores nothing, never fails and never
    runs or resets the inflate engine on the input.  When the
    decompression session is already active the codec is left exactly as
    it was.  When it is not, the call first initializes it as any
    decompress does: an active compression session is ended
    ([deflateEnd]) and the inflate state is initialized
    ([isal_inflate_init]). *)
Theorem Decompress_zero_capacity
    (E : Engine) (c : GZipCodec.t E) (n : Z) (input : list byte) :
  let r := GZipCodec.Decompress c n input 0 in
  fst r = (Value 0, [])
  /\ (GZipCodec.decompressor_initialized_ c = true -> snd r = c)
  /\ (GZipCodec.decompressor_initialized_ c = false ->
        snd r = snd (GZipCodec.InitDecompressor c)
        /\ GZipCodec.decompressor_initialized_ (snd r) = true
        /\ GZipCodec.compressor_initialized_ (snd r) = false
        /\ GZipCodec.engine_calls (snd r)
           = GZipCodec.engine_calls c
             ++ (if GZipCodec.compressor_initialized_ c
                 then [call_deflateEnd] else [])
             ++ [call_isal_inflate_init]).
Proof.
  cbv zeta. unfold GZipCodec.Decompress.
  destruct (GZipCodec.decompressor_initialized_ c) eqn:Hd; cbn [negb].
  - cbn. split; [reflexivity|]. split; [reflexivity|]. discriminate.
  - open_InitDecompressor c. subst st. cbn.
    split; [reflexivity|]. split; [discriminate|]. auto.
Qed.

(** C5 as stated fails: a codec that has just compressed is asked to
    decompress that output into a buffer of capacity zero.  The call
    returns 0, and the codec is not as it was: its compression session
    has been ended and its inflate state initialized. *)
Lemma Decompress_zero_capacity_touches_engine :
  let c := snd (GZipCodec.Compress (GZipCodec.new Ref.engine 9 GZIP)
                  2 [x68; x69] 32) in
  let z := [x1f; x8b; x01; x68; x01; x69; x00] in
  let r := GZipCodec.Decompress c 7 z 0 in
  fst r = (Value 0, [])
  /\ snd r <> c
  /\ GZipCodec.compressor_initialized_ c = true
  /\ GZipCodec.compressor_initialized_ (snd r) = false
  /\ GZipCodec.engine_calls (snd r)
     = GZipCodec.engine_calls c ++ [call_deflateEnd; call_isal_inflate_init].
Proof.
  cbv zeta. repeat split; try reflexivity.
  intros H.
  apply (f_equal (@GZipCodec.compressor_initialized_ Ref.engine)) in H.
  vm_compute in H. discriminate.
Qed.

(** ** Backend selection *)



(** ** What the decompression paths do with the engine's return code *)

Section ReturnCodes.

Variable E : Engine.

(** The one-shot decompress succeeds exactly on the return codes 0
    ([ISAL_DECOMP_OK]) and 5 (the value of [ISAL_BLOCK_FINISH]), with
    the engine's [total_out], and whatever [block_state] says; on any
    other code it fails with the message that names both lengths. *)
Lemma Decompress_by_return_code (c : GZipCodec.t E) (n : Z)
    (input : list byte) (m : Z) :
  m <> 0 ->
  let r := one_shot_inflate c n input m in
  fst (GZipCodec.Decompress c n input m)
  = if (fst r =? Isal.ISAL_BLOCK_FINISH) || (fst r =? Isal.ISAL_DECOMP_OK)
    then (Value (Isal.total_out (snd r)), Isal.next_out (snd r))
    else (Failure (GZipCodec.too_small_a_buffer n m),
          Isal.next_out (snd r)).
Proof.
  intros Hm. apply Z.eqb_neq in Hm. cbv zeta.
  unfold GZipCodec.Decompress, one_shot_inflate, decompressing.
  change (negb (0 =? Isal.ISAL_BLOCK_FINISH)) with true. cbv iota.
  destruct (GZipCodec.decompressor_initialized_ c); cbn [negb].
  - cbn [ok negb fst snd]. rewrite Hm. cbn.
    split_ifs; reflexivity.
  - open_InitDecompressor c. subst st. cbn [ok negb]. rewrite Hm. cbn.
    split_ifs; reflexivity.
Qed.

(** The streaming decompress returns only on [ISAL_DECOMP_OK]; any
    other return code of the engine ends the process. *)
Lemma streaming_Decompress_by_return_code (d : GZipDecompressor.t E)
    (n : Z) (input : list byte) (m : Z) :
  let r := isal_inflate E
             (Isal.set_io (GZipDecompressor.stream_ d) input
                (cast_uInt (Z.min n input_limit))
                (cast_uInt (Z.min m input_limit))) in
  (fst r <> Isal.ISAL_DECOMP_OK ->
     GZipDecompressor.Decompress d n input m
     = Aborts "Check failed: ret == ISAL_DECOMP_OK")
  /\ (fst r = Isal.ISAL_DECOMP_OK ->
        exists d',
          GZipDecompressor.Decompress d n input m
          = Returns (Value (mk_DecompressResult
                              (n - Isal.avail_in (snd r))
                              (m - Isal.avail_out (snd r)) false),
                     Isal.next_out (snd r), d')).
Proof.
  cbv zeta. unfold GZipDecompressor.Decompress. split; intros H.
  - apply Z.eqb_neq in H. rewrite H. reflexivity.
  - rewrite H. cbn. eexists. reflexivity.
Qed.

End ReturnCodes.

(** ** Claims the code does not meet *)

(** C3 does not hold of the code.  Whenever the engine's call returns
    [ISAL_DECOMP_OK], the one-shot decompress returns the engine's
    [total_out] as a success, whether or not the stream has ended.  So it
    is when a 43-byte gzip stream holding 20 data bytes is decompressed
    into a buffer of 10 bytes: the engine fills the buffer and reports
    [ISAL_DECOMP_OK] with the stream unfinished, and the call returns 10
    instead of failing.  With a buffer of 20 bytes the same call returns
    the 20 bytes. *)
Theorem Decompress_short_buffer_is_reported_as_success :
  (forall (E : Engine) (c : GZipCodec.t E) n input m,
      m <> 0 ->
      fst (one_shot_inflate c n input m) = Isal.ISAL_DECOMP_OK ->
      fst (GZipCodec.Decompress c n input m)
      = (Value (Isal.total_out (snd (one_shot_inflate c n input m))),
         Isal.next_out (snd (one_shot_inflate c n input m))))
  /\ (let data := repeat x61 20 in
      let z := Ref.enc 31 data in
      let c := GZipCodec.new Ref.engine 9 GZIP in
      let r := GZipCodec.Decompress c 43 z 10 in
      fst r = (Value 10, firstn 10 data)
      /\ Isal.block_state (GZipCodec.state_ (snd r))
         <> Isal.ISAL_BLOCK_FINISH
      /\ fst (one_shot_inflate c 43 z 10) = Isal.ISAL_DECOMP_OK
      /\ fst (GZipCodec.Decompress c 43 z 20) = (Value 20, data)).
Proof.
  split.
  - intros E c n input m Hm Hret.
    rewrite (Decompress_by_return_code c n input Hm). cbv zeta.
    rewrite Hret. reflexivity.
  - vm_compute. repeat split; discriminate.
Qed.

(** C4 does not hold of the code.  Whenever the engine's call returns
    anything but [ISAL_DECOMP_OK], the streaming decompress ends the
    process on [ARROW_CHECK(ret == ISAL_DECOMP_OK)].  So it is when a
    streaming decompressor is fed four bytes that are no gzip stream and
    the engine answers [ISAL_INVALID_WRAPPER]; the one-shot decompress of
    the codec returns a failure status on the same bytes. *)
Theorem streaming_Decompress_aborts_on_malformed_input :
  (forall (E : Engine) (d : GZipDecompressor.t E) n input m,
      fst (isal_inflate E
             (Isal.set_io (GZipDecompressor.stream_ d) input
                (cast_uInt (Z.min n input_limit))
                (cast_uInt (Z.min m input_limit))))
      <> Isal.ISAL_DECOMP_OK ->
      GZipDecompressor.Decompress d n input m
      = Aborts "Check failed: ret == ISAL_DECOMP_OK")
  /\ (let junk := [x6a; x75; x6e; x6b] in
      exists d,
        GZipDecompressor.Init true (GZipDecompressor.new Ref.engine GZIP)
        = Returns (OK, d)
        /\ fst (isal_inflate Ref.engine
                  (Isal.set_io (GZipDecompressor.stream_ d) junk 4 16))
           = Isal.ISAL_INVALID_WRAPPER
        /\ GZipDecompressor.Decompress d 4 junk 16
           = Aborts "Check failed: ret == ISAL_DECOMP_OK"
        /\ fst (GZipCodec.Decompress (GZipCodec.new Ref.engine 9 GZIP)
                  4 junk 16)
           = (Failure (GZipCodec.too_small_a_buffer 4 16), [])).
Proof.
  split.
  - intros E d n input m.
    exact (proj1 (streaming_Decompress_by_return_code d n input m)).
  - cbv zeta. eexists. split; [reflexivity|].
    repeat split; vm_compute; reflexivity.
Qed.

(** C9 does not hold of the code.  No call of the streaming decompress
    that returns has [output_too_small] set.  In particular: a gzip
    stream of 6 data bytes is fed with room for 4, which are produced;
    the rest of the input is then fed with no room at all, and the call
    returns no byte consumed, no byte produced, the stream unfinished and
    [output_too_small] false. *)
Theorem streaming_Decompress_never_sets_output_too_small :
  (forall (E : Engine) (d d' : GZipDecompressor.t E) n input m r out,
      GZipDecompressor.Decompress d n input m = Returns (Value r, out, d') ->
      output_too_small r = false)
  /\ (let z := Ref.enc 31 [x61; x62; x63; x64; x65; x66] in
      exists d1 d2 d3,
        GZipDecompressor.Init true (GZipDecompressor.new Ref.engine GZIP)
        = Returns (OK, d1)
        /\ GZipDecompressor.Decompress d1 15 z 4
           = Returns (Value (mk_DecompressResult 10 4 false),
                      [x61; x62; x63; x64], d2)
        /\ GZipDecompressor.Decompress d2 5 (skipn 10 z) 0
           = Returns (Value (mk_DecompressResult 0 0 false), [], d3)
        /\ GZipDecompressor.IsFinished d3 = false).
Proof.
  split.
  - intros E d d' n input m r out. unfold GZipDecompressor.Decompress.
    destruct (_ =? _); [|discriminate].
    intros [= <- _ _]. reflexivity.
  - cbv zeta.
    let i := eval vm_compute in
               (GZipDecompressor.Init true
                  (GZipDecompressor.new Ref.engine GZIP)) in
    match i with
    | Returns (_, ?d1) =>
        let r1 := eval vm_compute in
                    (GZipDecompressor.Decompress d1 15
                       (Ref.enc 31 [x61; x62; x63; x64; x65; x66]) 4) in
        match r1 with
        | Returns (_, ?d2) =>
            let r2 := eval vm_compute in
                        (GZipDecompressor.Decompress d2 5
                           (skipn 10
                              (Ref.enc 31 [x61; x62; x63; x64; x65; x66]))
                           0) in
            match r2 with
            | Returns (_, ?d3) => exists d1, d2, d3
            end
        end
    end.
    repeat split; vm_compute; reflexivity.
Qed.

(** ** The reference engine follows the protocol *)

Lemma Ref_body_length (data : list byte) :
  List.length (Ref.body data) = (2 * List.length data)%nat.
Proof.
  induction data as [|b rest IH]; cbn [Ref.body List.length]; lia.
Qed.

Lemma Ref_header_length (w : Z) :
  Z.of_nat (List.length (Ref.header w)) = Ref.header_len w.
Proof.
  unfold Ref.header, Ref.header_len.
  destruct (w <? 0); [reflexivity|]. destruct (15 <? w); reflexivity.
Qed.

Lemma Ref_enc_length (w : Z) (data : list byte) :
  Z.of_nat (List.length (Ref.enc w data))
  = Ref.header_len w + 2 * Z.of_nat (List.length data) + 1.
Proof.
  unfold Ref.enc.
  rewrite !length_app, Ref_body_length, !Nat2Z.inj_add, Ref_header_length.
  cbn [List.length]. lia.
Qed.

Lemma Ref_header_len_range (w : Z) : 0 <= Ref.header_len w <= 2.
Proof. unfold Ref.header_len. destruct (w <? 0); lia. Qed.

(** The types of the reference engine's private states, by name. *)
Ltac ref_types :=
  change (internal_state Ref.engine) with Ref.deflate_private in *;
  change (inflate_private Ref.engine) with unit in *.

(** A ready stream of the reference engine has emitted nothing yet. *)
Lemma Ref_ready_state (w : Z) (s : Ref.zs) :
  deflate_ready Ref.engine w s ->
  Zlib.state s = Some (Ref.mk_deflate_private w false [] false).
Proof.
  induction 1 as [s0 level method memLevel strategy s Hinit
                 | s s1 s2 _ IH Hrun Hreset
                 | s input n m _ IH].
  - cbn in Hinit. unfold Ref.deflateInit2 in Hinit.
    destruct (_ && _) in Hinit; inversion Hinit; reflexivity.
  - cbn [deflate deflateReset Ref.engine] in Hrun, Hreset.
    unfold Ref.deflate in Hrun. rewrite IH in Hrun. cbn in Hrun.
    assert (Hs1 : exists q fin, Zlib.state s1
                                = Some (Ref.mk_deflate_private w true q fin)).
    { destruct (_ || _) in Hrun; [inversion Hrun|].
      destruct (_ <=? _) in Hrun; inversion Hrun; cbn; eauto. }
    destruct Hs1 as (q & fin & Hs1).
    unfold Ref.deflateReset in Hreset. cbn in Hreset, Hs1.
    rewrite Hs1 in Hreset.
    inversion Hreset. reflexivity.
  - exact IH.
Qed.

Lemma Ref_inflate_body_whole (data : list byte) (room : Z) :
  Z.of_nat (List.length data) <= room ->
  Ref.inflate_body (Ref.body data ++ [x00]) room
  = Ref.mk_body_result Isal.ISAL_DECOMP_OK
      (2 * Z.of_nat (List.length data) + 1) data true.
Proof.
  revert room. induction data as [|b rest IH]; intros room Hroom.
  - reflexivity.
  - cbn [Ref.body app Ref.inflate_body List.length] in *.
    change (Byte.eqb x01 x00) with false.
    change (Byte.eqb x01 x01) with true. cbv iota.
    assert (H0 : (0 <? room) = true) by (apply Z.ltb_lt; lia).
    rewrite H0, IH by lia. cbn [Ref.b_ret Ref.b_consumed Ref.b_produced
                                 Ref.b_finished].
    f_equal. lia.
Qed.

Lemma Ref_gzip_flag (s : Ref.ist) :
  gzip_inflater Ref.engine s -> Isal.crc_flag s = Isal.ISAL_GZIP.
Proof.
  induction 1 as [s0 | s _ IH | s input n m _ IH | s _ IH].
  - reflexivity.
  - exact IH.
  - exact IH.
  - cbn. unfold Ref.isal_inflate.
    destruct (_ =? Isal.ISAL_BLOCK_FINISH); [exact IH|].
    destruct (if _ =? _ then _ else _); cbn; exact IH.
Qed.

Lemma firstn_whole (A : Type) (l : list A) :
  firstn (Z.to_nat (Z.of_nat (List.length l))) l = l.
Proof. rewrite Nat2Z.id. apply firstn_all. Qed.

Lemma Ref_contract : EngineContract Ref.engine Ref.enc.
Proof.
  constructor.
  - intros w s data Hready Hout Hdata Hlen Hroom.
    pose proof (Ref_ready_state Hready) as Hstate.
    pose proof (Ref_header_len_range w) as Hh.
    rewrite Ref_enc_length in *.
    ref_types.
    assert (Hz : (Zlib.avail_out s =? 0) = false)
      by (apply Z.eqb_neq; lia).
    cbn [deflate Ref.engine]. unfold Ref.deflate. rewrite Hstate.
    cbn -[Z.eqb Z.leb Z.mul Z.add Z.sub Z.of_nat Z.to_nat].
    change (Zlib.Z_FINISH =? Zlib.Z_FINISH) with true.
    rewrite Hz. cbn [orb andb negb].
    match goal with
    | |- context [?a <=? ?b] => destruct (Z.leb_spec a b) as [Hfit|Hfit]
    end; [|lia].
    eexists. split; [reflexivity|].
    cbn -[Z.eqb Z.leb Z.mul Z.add Z.sub Z.of_nat Z.to_nat].
    rewrite Hout, <- Hdata. split; [reflexivity|]. lia.
  - intros w s s1 Hready Hrun.
    pose proof (Ref_ready_state Hready) as Hstate.
    cbn [deflate deflateReset Ref.engine] in *.
    unfold Ref.deflate in Hrun. rewrite Hstate in Hrun. cbn in Hrun.
    unfold Ref.deflateReset.
    destruct (_ || _) in Hrun; [inversion Hrun|].
    destruct (_ <=? _) in Hrun; inversion Hrun; cbn;
      eexists; split; reflexivity.
  - intros w s data _ Hlen.
    pose proof (Ref_header_len_range w) as Hh.
    rewrite Ref_enc_length. cbn [deflateBound Ref.engine].
    unfold Ref.deflateBound.
    rewrite Z.mod_small by lia. lia.
  - intros s data room Hs Hroom. cbv zeta.
    pose proof (Ref_gzip_flag Hs) as Hflag.
    cbn [isal_inflate isal_inflate_reset Ref.engine].
    unfold Ref.isal_inflate.
    cbn [Isal.set_io Ref.isal_inflate_reset Isal.block_state Isal.avail_in
         Isal.next_in Isal.crc_flag Isal.avail_out Isal.next_out
         Isal.total_out].
    change (Isal.ISAL_BLOCK_NEW_HDR =? Isal.ISAL_BLOCK_FINISH) with false.
    change (Isal.ISAL_BLOCK_NEW_HDR =? Isal.ISAL_BLOCK_NEW_HDR) with true.
    cbv iota. rewrite firstn_whole, Hflag.
    change (Ref.check_header Isal.ISAL_GZIP
              (Ref.enc (WINDOW_BITS + GZIP_CODEC) data))
      with (Ref.header_ok 2 (Ref.body data ++ [x00])).
    cbv iota. rewrite (Ref_inflate_body_whole data Hroom).
    cbn [Ref.b_ret Ref.b_consumed Ref.b_produced Ref.b_finished app].
    eexists. split; [reflexivity|]. cbn. split; [reflexivity|]. lia.
Qed.

(** ** One-shot calls on a codec whose engine follows the protocol *)

Lemma cast_uInt_small (x : Z) : 0 <= x < 2 ^ 32 -> cast_uInt x = x.
Proof. intros H. unfold cast_uInt. apply Z.mod_small. exact H. Qed.



Section WithContract.

Variable E : Engine.
Variable enc : Z -> list byte -> list byte.
Hypothesis K : EngineContract E enc.

Implicit Types c : GZipCodec.t E.

Lemma new_codec_ready (compression_level : Z) (format : GZipFormat) :
  codec_ready (GZipCodec.new E compression_level format).
Proof. split; cbn; discriminate. Qed.

Lemma InitCompressor_ready c :
  deflateInit2_ret c = Zlib.Z_OK ->
  let r := GZipCodec.InitCompressor c in
  fst r = OK
  /\ GZipCodec.compressor_initialized_ (snd r) = true
  /\ GZipCodec.decompressor_initialized_ (snd r) = false
  /\ GZipCodec.format_ (snd r) = GZipCodec.format_ c
  /\ deflate_ready E (CompressionWindowBitsForFormat (GZipCodec.format_ c))
       (GZipCodec.stream_ (snd r)).
Proof.
  unfold deflateInit2_ret. intros Hret. cbv zeta.
  unfold GZipCodec.InitCompressor, GZipCodec.EndDecompressor.
  destruct (GZipCodec.decompressor_initialized_ c); cbn;
    destruct (deflateInit2 E _ _ _ _ _ _) as [ret s] eqn:Hinit;
    cbn in Hret |- *; subst ret; cbn;
    repeat split; eapply ready_init; exact Hinit.
Qed.

Lemma InitDecompressor_ready c :
  let r := GZipCodec.InitDecompressor c in
  fst r = OK
  /\ GZipCodec.compressor_initialized_ (snd r) = false
  /\ GZipCodec.decompressor_initialized_ (snd r) = true
  /\ GZipCodec.format_ (snd r) = GZipCodec.format_ c
  /\ gzip_inflater E (GZipCodec.state_ (snd r)).
Proof.
  cbv zeta. unfold GZipCodec.InitDecompressor, GZipCodec.EndCompressor.
  destruct (GZipCodec.compressor_initialized_ c); cbn;
    repeat split; apply inflater_init.
Qed.

(** A one-shot compress on a ready codec, of [n] bytes that are there,
    into room for their whole stream, stores that stream and returns its
    length. *)
Lemma Compress_succeeds c (n : Z) (input : list byte) (cap : Z) :
  codec_ready c -> parameters_supported c ->
  0 <= n < 2 ^ 32 -> n <= Z.of_nat (List.length input) ->
  let z := enc (CompressionWindowBitsForFormat (GZipCodec.format_ c))
             (firstn (Z.to_nat n) input) in
  Z.of_nat (List.length z) <= cap < 2 ^ 32 ->
  exists c1,
    GZipCodec.Compress c n input cap = (Value (Z.of_nat (List.length z)), z, c1)
    /\ codec_ready c1
    /\ GZipCodec.format_ c1 = GZipCodec.format_ c.
Proof.
  intros [Hrc Hrd] Hsup Hn Hin z Hcap.
  set (w := CompressionWindowBitsForFormat (GZipCodec.format_ c)) in *.
  (* the codec the engine runs on, with its compression session ready *)
  assert (Hinit : exists c0,
             (if negb (GZipCodec.compressor_initialized_ c)
              then GZipCodec.InitCompressor c else (OK, c)) = (OK, c0)
             /\ deflate_ready E w (GZipCodec.stream_ c0)
             /\ GZipCodec.format_ c0 = GZipCodec.format_ c
             /\ (GZipCodec.decompressor_initialized_ c0 = true ->
                 gzip_inflater E (GZipCodec.state_ c0))).
  { destruct (GZipCodec.compressor_initialized_ c) eqn:Hc; cbn [negb].
    - exists c. auto.
    - destruct Hsup as [Hsup|Hsup]; [congruence|].
      destruct (InitCompressor_ready c Hsup) as (H1 & H2 & H3 & H4 & H5).
      exists (snd (GZipCodec.InitCompressor c)).
      split; [rewrite <- H1; apply surjective_pairing|].
      repeat split; auto. rewrite H3. discriminate. }
  destruct Hinit as (c0 & Hc0 & Hready & Hfmt & Hd0).
  unfold GZipCodec.Compress. rewrite Hc0. cbn [fst snd ok negb].
  rewrite (cast_uInt_small Hn), (cast_uInt_small (x:=cap)) by lia.
  set (s0 := Zlib.set_io (GZipCodec.stream_ c0) input n cap).
  assert (Hs0 : deflate_ready E w s0) by (apply ready_io; exact Hready).
  assert (Hlen : Z.of_nat (List.length (firstn (Z.to_nat n) input)) = n).
  { rewrite length_firstn. lia. }
  destruct (deflate_finish K (w:=w) (s:=s0)
              (data:=firstn (Z.to_nat n) input) Hs0)
    as (s1 & Hrun & Hout & Havail);
    [reflexivity | reflexivity | symmetry; exact Hlen
     | cbn; fold z; lia |].
  destruct (deflate_reset K Hs0 Hrun) as (s2 & Hreset & Hkeep).
  rewrite Hrun. cbn [fst snd GZipCodec.stream_ GZipCodec.called
                     GZipCodec.set_stream_].
  change (Zlib.Z_STREAM_END =? Zlib.Z_STREAM_END) with true. cbn [negb].
  rewrite Hreset. cbn [fst snd GZipCodec.stream_ GZipCodec.called
                       GZipCodec.set_stream_].
  change (Zlib.Z_OK =? Zlib.Z_OK) with true. cbn [negb].
  eexists. split; [|split].
  - rewrite Hout, Hkeep, Havail. fold z. cbn [Zlib.avail_out s0 Zlib.set_io].
    f_equal. f_equal. f_equal. unfold s0. cbn. lia.
  - split; cbn.
    + intros _. rewrite Hfmt. fold w. exact (ready_reset Hs0 Hrun Hreset).
    + exact Hd0.
  - cbn. exact Hfmt.
Qed.

(** A one-shot decompress on a ready codec, of a whole gzip stream into
    room for its data, stores the data and returns their length. *)
Lemma Decompress_succeeds c (data : list byte) (room : Z) :
  codec_ready c ->
  let z := enc (CompressionWindowBitsForFormat GZIP) data in
  Z.of_nat (List.length z) < 2 ^ 32 ->
  Z.of_nat (List.length data) <= room < 2 ^ 32 ->
  exists c2,
    GZipCodec.Decompress c (Z.of_nat (List.length z)) z room
    = (Value (Z.of_nat (List.length data)), data, c2)
    /\ codec_ready c2.
Proof.
  intros [Hrc Hrd] z Hz Hroom.
  assert (Hinit : exists c0,
             (if negb (GZipCodec.decompressor_initialized_ c)
              then GZipCodec.InitDecompressor c else (OK, c)) = (OK, c0)
             /\ gzip_inflater E (GZipCodec.state_ c0)
             /\ codec_ready c0).
  { destruct (GZipCodec.decompressor_initialized_ c) eqn:Hd; cbn [negb].
    - exists c. repeat split; auto.
    - destruct (InitDecompressor_ready c) as (H1 & H2 & H3 & H4 & H5).
      exists (snd (GZipCodec.InitDecompressor c)).
      split; [rewrite <- H1; apply surjective_pairing|].
      repeat split; auto. rewrite H2. discriminate. }
  destruct Hinit as (c0 & Hc0 & Hs & Hr0).
  unfold GZipCodec.Decompress. rewrite Hc0. cbn [fst snd ok negb].
  destruct (Z.eqb_spec room 0) as [Hzero|Hnz].
  - exists c0. split; [|exact Hr0].
    assert (Hnil : data = []).
    { destruct data; [reflexivity|]. cbn [List.length] in Hroom. lia. }
    subst data. reflexivity.
  - change (negb (0 =? Isal.ISAL_BLOCK_FINISH)) with true. cbv iota.
    cbn [GZipCodec.state_ GZipCodec.called GZipCodec.set_state_].
    rewrite (cast_uInt_small (x:=Z.of_nat (List.length z))),
      (cast_uInt_small (x:=room)) by lia.
    destruct (inflate_gzip K data Hs (proj1 Hroom))
      as (s1 & Hrun & Hout & Htotal).
    change (enc (WINDOW_BITS + GZIP_CODEC) data) with z in Hrun.
    rewrite Hrun. cbn [fst snd GZipCodec.state_ GZipCodec.called
                       GZipCodec.set_state_].
    change (Isal.ISAL_DECOMP_OK =? Isal.ISAL_DECOMP_OK) with true.
    rewrite orb_true_r, Hout, Htotal.
    eexists. split; [reflexivity|].
    destruct Hr0 as [Hrc0 Hrd0]. split; cbn.
    + exact Hrc0.
    + intros _.
      replace s1
        with (snd (isal_inflate E
                     (Isal.set_io (isal_inflate_reset E (GZipCodec.state_ c0))
                        z (Z.of_nat (List.length z)) room)))
        by (rewrite Hrun; reflexivity).
      apply inflater_run, inflater_io, inflater_reset. exact Hs.
Qed.

End WithContract.

(** ** Round trip and bound *)

(** C1, as the code has it.  On a codec of gzip format whose parameters
    the engine accepts, new or left ready by earlier calls, and for every
    byte sequence [b] shorter than 2^32 bytes: the one-shot compress of
    [b] into a buffer that has room for the stream and is shorter than
    2^32 bytes succeeds, and the one-shot decompress of its output into a
    buffer that has room for [b] and is shorter than 2^32 bytes returns
    the length of [b] and stores exactly [b]. *)
Theorem round_trip_gzip
    (E : Engine) (enc : Z -> list byte -> list byte)
    (c : GZipCodec.t E) (b : list byte) (cap room : Z) :
  EngineContract E enc ->
  GZipCodec.format_ c = GZIP ->
  codec_ready c ->
  parameters_supported c ->
  Z.of_nat (List.length b) < 2 ^ 32 ->
  Z.of_nat (List.length (enc (CompressionWindowBitsForFormat GZIP) b))
    <= cap < 2 ^ 32 ->
  Z.of_nat (List.length b) <= room < 2 ^ 32 ->
  exists z c1 c2,
    GZipCodec.Compress c (Z.of_nat (List.length b)) b cap
    = (Value (Z.of_nat (List.length z)), z, c1)
    /\ GZipCodec.Decompress c1 (Z.of_nat (List.length z)) z room
       = (Value (Z.of_nat (List.length b)), b, c2).
Proof.
  intros K Hfmt Hready Hsup Hb Hcap Hroom.
  destruct (Compress_succeeds K (c:=c) (n:=Z.of_nat (List.length b))
              b (cap:=cap) Hready Hsup)
    as (c1 & Hcompress & Hready1 & _); try lia.
  { rewrite firstn_whole, Hfmt. exact Hcap. }
  rewrite firstn_whole, Hfmt in Hcompress.
  destruct (Decompress_succeeds K (c:=c1) b (room:=room) Hready1)
    as (c2 & Hdecompress & _); try lia.
  eauto.
Qed.

Lemma round_trip_gzip_witness :
  let c := GZipCodec.new Ref.engine 9 GZIP in
  let b := [x68; x69] in
  exists z c1 c2,
    GZipCodec.Compress c (Z.of_nat (List.length b)) b 32
    = (Value (Z.of_nat (List.length z)), z, c1)
    /\ GZipCodec.Decompress c1 (Z.of_nat (List.length z)) z 8
       = (Value (Z.of_nat (List.length b)), b, c2).
Proof.
  cbv zeta.
  apply (@round_trip_gzip Ref.engine Ref.enc
           (GZipCodec.new Ref.engine 9 GZIP) [x68; x69] 32 8).
  - exact Ref_contract.
  - reflexivity.
  - apply new_codec_ready.
  - right. reflexivity.
  - vm_compute. reflexivity.
  - vm_compute. split; [discriminate | reflexivity].
  - vm_compute. split; [discriminate | reflexivity].
Defined.

(** What a new gzip codec does with a buffer it is told holds 2^32
    bytes. *)
Lemma Compress_truncates_length (b : list byte) :
  exists c1,
    GZipCodec.Compress (GZipCodec.new Ref.engine 9 GZIP) (2 ^ 32) b 64
    = (Value 3, [x1f; x8b; x00], c1)
    /\ fst (GZipCodec.Decompress c1 3 [x1f; x8b; x00] 64) = (Value 0, []).
Proof.
  let r := eval vm_compute in
             (GZipCodec.Compress (GZipCodec.new Ref.engine 9 GZIP)
                (2 ^ 32) b 64) in
  match r with
  | (_, _, ?c1) => exists c1
  end.
  split; [reflexivity | vm_compute; reflexivity].
Qed.

(** C1 as stated fails, in two ways.  A codec constructed for the zlib
    format compresses two bytes into a zlib stream which its own
    decompress, set up for the gzip wrapper, refuses.  And a gzip codec
    given 2^32 bytes hands the engine a length of 0: it returns the
    stream of the empty sequence, which decompresses to nothing. *)
Lemma round_trip_fails :
  (let c := GZipCodec.new Ref.engine 9 ZLIB in
   let z := [x78; x9c; x01; x68; x01; x69; x00] in
   exists c1,
     GZipCodec.Compress c 2 [x68; x69] 32 = (Value 7, z, c1)
     /\ fst (GZipCodec.Decompress c1 7 z 32)
        = (Failure (GZipCodec.too_small_a_buffer 7 32), []))
  /\ (let c := GZipCodec.new Ref.engine 9 GZIP in
      let b := repeat x00 (Z.to_nat (2 ^ 32)) in
      Z.of_nat (List.length b) = 2 ^ 32
      /\ exists c1,
           GZipCodec.Compress c (2 ^ 32) b 64 = (Value 3, [x1f; x8b; x00], c1)
           /\ fst (GZipCodec.Decompress c1 3 [x1f; x8b; x00] 64)
              = (Value 0, [])).
Proof.
  split; cbv zeta.
  - let r := eval vm_compute in
               (GZipCodec.Compress (GZipCodec.new Ref.engine 9 ZLIB)
                  2 [x68; x69] 32) in
    match r with
    | (_, _, ?c1) => exists c1
    end.
    split; [reflexivity | vm_compute; reflexivity].
  - split.
    + rewrite repeat_length. apply Z2Nat.id. discriminate.
    + apply Compress_truncates_length.
Qed.





(** * Further properties of the code *)

(** ** Configuration and lifetime of a codec *)

Section Configuration.

Variable E : Engine.
Variable NDEBUG : bool.
Implicit Types c : GZipCodec.t E.

Lemma InitCompressor_config c :
  config (snd (GZipCodec.InitCompressor c)) = config c.
Proof.
  unfold config. open_InitCompressor c. congruence.
Qed.

Lemma InitDecompressor_config c :
  config (snd (GZipCodec.InitDecompressor c)) = config c.
Proof.
  unfold config. open_InitDecompressor c. congruence.
Qed.

Lemma Compress_config c n i m :
  config (snd (GZipCodec.Compress c n i m)) = config c.
Proof.
  unfold GZipCodec.Compress.
  destruct (GZipCodec.compressor_initialized_ c); cbn [negb].
  - cbn [fst snd ok negb]. split_ifs; reflexivity.
  - rewrite <- (InitCompressor_config c).
    destruct (GZipCodec.InitCompressor c) as [st c1]. cbn [fst snd].
    split_ifs; reflexivity.
Qed.

Lemma Decompress_config c n i m :
  config (snd (GZipCodec.Decompress c n i m)) = config c.
Proof.
  unfold GZipCodec.Decompress.
  destruct (GZipCodec.decompressor_initialized_ c); cbn [negb].
  - cbn [fst snd ok negb]. split_ifs; reflexivity.
  - rewrite <- (InitDecompressor_config c).
    destruct (GZipCodec.InitDecompressor c) as [st c1]. cbn [fst snd].
    split_ifs; reflexivity.
Qed.

Lemma MaxCompressedLen_config c n r :
  GZipCodec.MaxCompressedLen c n = Returns r -> config (snd r) = config c.
Proof.
  unfold GZipCodec.MaxCompressedLen.
  destruct (GZipCodec.compressor_initialized_ c); cbn [negb].
  - cbn. intros [= <-]. reflexivity.
  - rewrite <- (InitCompressor_config c).
    destruct (GZipCodec.InitCompressor c) as [st c1]. cbn [fst snd].
    destruct (ok st); cbn [negb]; [|discriminate].
    intros [= <-]. reflexivity.
Qed.

Lemma Init_config c : config (snd (GZipCodec.Init c)) = config c.
Proof.
  unfold GZipCodec.Init.
  rewrite <- (InitCompressor_config c).
  destruct (GZipCodec.InitCompressor c) as [st c1]. cbn [fst snd].
  destruct (ok st); cbn [negb snd]; [|reflexivity].
  apply InitDecompressor_config.
Qed.

Lemma step_config c o c' :
  step NDEBUG c o = Some c' -> config c' = config c.
Proof.
  destruct o; cbn [step].
  - intros [= <-]. apply Compress_config.
  - intros [= <-]. apply Decompress_config.
  - destruct (GZipCodec.MaxCompressedLen c input_length) as [r|] eqn:Hm;
      [|discriminate].
    intros [= <-]. exact (MaxCompressedLen_config _ _ Hm).
  - intros [= <-]. apply Init_config.
  - destruct (GZipCodec.MakeCompressor NDEBUG c); [|discriminate].
    intros [= <-]. reflexivity.
  - destruct (GZipCodec.MakeDecompressor NDEBUG c); [|discriminate].
    intros [= <-]. reflexivity.
Qed.

Lemma reaches_config c c' : reaches NDEBUG c c' -> config c' = config c.
Proof.
  induction 1 as [|c1 o c2 _ IH Hstep]; [reflexivity|].
  rewrite (step_config _ _ Hstep). exact IH.
Qed.

Lemma reaches_at_most_one c c' :
  at_most_one_active c -> reaches NDEBUG c c' -> at_most_one_active c'.
Proof.
  intros Hc. induction 1 as [|c1 o c2 _ IH Hstep]; [exact Hc|].
  exact (step_at_most_one NDEBUG o IH Hstep).
Qed.

End Configuration.

(** X1.  The format and the level of a codec are fixed at construction:
    whatever operations are applied to a codec made by the constructor,
    its format is the one given and [compression_level()] returns the
    level given, or 9 when the level given was
    [kUseDefaultCompressionLevel]. *)
Theorem configuration_is_fixed_at_construction
    (E : Engine) (NDEBUG : bool)
    (compression_level : Z) (format : GZipFormat) (c : GZipCodec.t E) :
  reaches NDEBUG (GZipCodec.new E compression_level format) c ->
  GZipCodec.format_ c = format
  /\ GZipCodec.compression_level c
     = (if compression_level =? kUseDefaultCompressionLevel
        then kGZipDefaultCompressionLevel else compression_level).
Proof.
  intros Hreach. pose proof (reaches_config Hreach) as Hcfg.
  injection Hcfg as Hf Hl. split; [exact Hf | exact Hl].
Qed.

Lemma configuration_is_fixed_at_construction_witness :
  let c0 := GZipCodec.new Ref.engine kUseDefaultCompressionLevel GZIP in
  let c := snd (GZipCodec.Decompress (snd (GZipCodec.Compress c0 2 [x68; x69] 32))
                  7 [x1f; x8b; x01; x68; x01; x69; x00] 8) in
  reaches true c0 c
  /\ GZipCodec.format_ c = GZIP
  /\ GZipCodec.compression_level c = 9.
Proof.
  cbv zeta.
  assert (H : reaches true
                (GZipCodec.new Ref.engine kUseDefaultCompressionLevel GZIP)
                (snd (GZipCodec.Decompress
                        (snd (GZipCodec.Compress
                                (GZipCodec.new Ref.engine
                                   kUseDefaultCompressionLevel GZIP)
                                2 [x68; x69] 32))
                        7 [x1f; x8b; x01; x68; x01; x69; x00] 8))).
  { eapply reaches_step with
      (o := op_Decompress 7 [x1f; x8b; x01; x68; x01; x69; x00] 8).
    - eapply reaches_step with (o := op_Compress 2 [x68; x69] 32).
      + apply reaches_refl.
      + reflexivity.
    - reflexivity. }
  split; [exact H|].
  exact (configuration_is_fixed_at_construction H).
Defined.

(** X2.  The destructor leaves no session active.  On a codec in a
    reachable state it makes exactly one engine call when a session is
    active, the one that ends it ([deflateEnd] for the compression
    session, [isal_inflate_reset] for the decompression session), and
    none when the codec is idle; destroying again calls nothing. *)
Theorem destructor_releases_the_active_session
    (E : Engine) (NDEBUG : bool) (c : GZipCodec.t E) :
  reachable NDEBUG c ->
  let c' := GZipCodec.destroy c in
  GZipCodec.compressor_initialized_ c' = false
  /\ GZipCodec.decompressor_initialized_ c' = false
  /\ GZipCodec.engine_calls c'
     = GZipCodec.engine_calls c
       ++ (if GZipCodec.compressor_initialized_ c then [call_deflateEnd]
           else if GZipCodec.decompressor_initialized_ c
                then [call_isal_inflate_reset] else [])
  /\ GZipCodec.engine_calls (GZipCodec.destroy c')
     = GZipCodec.engine_calls c'.
Proof.
  intros Hreach. pose proof (reachable_at_most_one Hreach) as Hinv.
  unfold at_most_one_active in Hinv. cbv zeta.
  unfold GZipCodec.destroy, GZipCodec.EndDecompressor, GZipCodec.EndCompressor.
  destruct (GZipCodec.compressor_initialized_ c) eqn:Hc;
    destruct (GZipCodec.decompressor_initialized_ c) eqn:Hd;
    try discriminate;
    repeat (cbn; rewrite ?Hc, ?Hd); rewrite ?app_nil_r;
    repeat split; reflexivity.
Qed.

Lemma destructor_releases_the_active_session_witness :
  let c := snd (GZipCodec.Compress (GZipCodec.new Ref.engine 9 GZIP)
                  2 [x68; x69] 32) in
  reachable true c
  /\ GZipCodec.compressor_initialized_ c = true
  /\ GZipCodec.engine_calls (GZipCodec.destroy c)
     = GZipCodec.engine_calls c ++ [call_deflateEnd].
Proof.
  cbv zeta.
  assert (H : reachable true
                (snd (GZipCodec.Compress (GZipCodec.new Ref.engine 9 GZIP)
                        2 [x68; x69] 32))).
  { apply (@reachable_step Ref.engine true (GZipCodec.new Ref.engine 9 GZIP)
             (op_Compress 2 [x68; x69] 32)).
    - apply reachable_new.
    - reflexivity. }
  split; [exact H|]. split; [reflexivity|].
  exact (proj1 (proj2 (proj2 (destructor_releases_the_active_session H)))).
Defined.

(** ** Failures of the one-shot calls *)

Lemma deflateInit_failed_is_not_too_small (m : option string) :
  ZlibErrorPrefix "zlib deflateInit failed: " m
  <> GZipCodec.output_buffer_too_small.
Proof. unfold ZlibErrorPrefix, GZipCodec.output_buffer_too_small.
       cbn. discriminate. Qed.

Lemma deflate_failed_is_not_too_small (m : option string) :
  ZlibErrorPrefix "zlib deflate failed: " m
  <> GZipCodec.output_buffer_too_small.
Proof. unfold ZlibErrorPrefix, GZipCodec.output_buffer_too_small.
       cbn. discriminate. Qed.

Lemma deflateReset_failed_is_not_too_small (m : option string) :
  ZlibErrorPrefix "zlib deflateReset failed: " m
  <> GZipCodec.output_buffer_too_small.
Proof. unfold ZlibErrorPrefix, GZipCodec.output_buffer_too_small.
       cbn. discriminate. Qed.

(** The status of the lazy initialisation is [OK] or the
    [deflateInit2] failure. *)
Lemma compressing_status (E : Engine) (c : GZipCodec.t E) :
  fst (compressing c) = OK
  \/ exists m,
       fst (compressing c) = ZlibErrorPrefix "zlib deflateInit failed: " m.
Proof.
  unfold compressing.
  destruct (GZipCodec.compressor_initialized_ c); cbn [negb fst]; [auto|].
  unfold GZipCodec.InitCompressor.
  split_ifs; cbn [fst]; eauto.
Qed.

(** Closes a goal whose premise equates the too-small failure with a
    value or with another failure. *)
Ltac not_too_small :=
  let H := fresh "H" in
  intros H; exfalso;
  first
    [ discriminate H
    | injection H as H;
      first [ apply deflateReset_failed_is_not_too_small in H
            | apply deflate_failed_is_not_too_small in H
            | apply deflateInit_failed_is_not_too_small in H ];
      exact H ].

(** X3.  A one-shot compress fails with the message "zlib deflate
    failed, output buffer too small" exactly when its initialisation
    succeeded and [deflate] returned [Z_OK]; no failure of
    [deflateInit2], of [deflate] or of [deflateReset] is reported with
    that message.  After such a failure the compression session is still
    marked active and has not been reset: the last engine call is the
    [deflate], and the next compress runs [deflate] on the stream as that
    call left it. *)
Theorem Compress_too_small_exactly_on_Z_OK
    (E : Engine) (c : GZipCodec.t E) (n : Z) (input : list byte) (m : Z) :
  let r := GZipCodec.Compress c n input m in
  (fst (fst r) = Failure GZipCodec.output_buffer_too_small
   <-> fst (compressing c) = OK
       /\ fst (one_shot_deflate c n input m) = Zlib.Z_OK)
  /\ (fst (fst r) = Failure GZipCodec.output_buffer_too_small ->
      GZipCodec.compressor_initialized_ (snd r) = true
      /\ GZipCodec.stream_ (snd r) = snd (one_shot_deflate c n input m)
      /\ GZipCodec.engine_calls (snd r)
         = GZipCodec.engine_calls (snd (compressing c))
           ++ [call_deflate Zlib.Z_FINISH]
      /\ forall n' input' m',
           one_shot_deflate (snd r) n' input' m'
           = deflate E
               (Zlib.set_io (snd (one_shot_deflate c n input m)) input'
                  (cast_uInt n') (cast_uInt m'))
               Zlib.Z_FINISH).
Proof.
  cbv zeta.
  assert (Hci : fst (compressing c) = OK ->
                GZipCodec.compressor_initialized_ (snd (compressing c))
                = true).
  { unfold compressing.
    destruct (GZipCodec.compressor_initialized_ c) eqn:Hc; cbn [negb fst snd];
      [auto|].
    open_InitCompressor c. intros ->.
    match goal with
    | H : if ?b then _ else _ |- _ => destruct b; destruct H as [Hst Hci]
    end; [exact Hci | discriminate]. }
  unfold GZipCodec.Compress, one_shot_deflate.
  fold (compressing c).
  destruct (compressing_status c) as [Hok | [msg Hbad]].
  - specialize (Hci Hok).
    destruct (compressing c) as [st c1]. cbn [fst snd] in *. subst st.
    cbn [ok negb].
    set (d := deflate E _ Zlib.Z_FINISH).
    destruct (Z.eqb_spec (fst d) Zlib.Z_STREAM_END) as [Hend|Hnend];
      cbn [negb].
    + assert (Hne : fst d <> Zlib.Z_OK) by (rewrite Hend; discriminate).
      split; [split; [|tauto]|]; split_ifs; cbn [fst]; not_too_small.
    + destruct (Z.eqb_spec (fst d) Zlib.Z_OK) as [Hzok|Hnok]; cbn [fst snd].
      * split; [tauto|]. intros _.
        cbn [GZipCodec.compressor_initialized_ GZipCodec.called
             GZipCodec.set_stream_ GZipCodec.stream_ GZipCodec.engine_calls].
        repeat split; auto.
        intros n' input' m'. unfold compressing.
        cbn [GZipCodec.compressor_initialized_ GZipCodec.called
             GZipCodec.set_stream_]. rewrite Hci. reflexivity.
      * split; [split; [|tauto]|]; not_too_small.
  - destruct (compressing c) as [st c1]. cbn [fst snd] in *. subst st.
    cbn [ok negb fst snd].
    split; [split; [|intros [H _]; discriminate]|]; not_too_small.
Qed.

(** X4.  A one-shot decompress fails exactly when the capacity is not
    zero and the engine returns a code other than [ISAL_DECOMP_OK] and
    the value of [ISAL_BLOCK_FINISH]; the failure is then always the
    [IOError] "Too small a buffer passed to GZipCodec." with the input
    length and the output length in decimal, whatever went wrong in the
    engine (a corrupt stream included). *)
Theorem Decompress_fails_exactly_on_other_codes
    (E : Engine) (c : GZipCodec.t E) (n : Z) (input : list byte) (m : Z)
    (s : Status) :
  fst (fst (GZipCodec.Decompress c n input m)) = Failure s
  <-> m <> 0
      /\ fst (one_shot_inflate c n input m) <> Isal.ISAL_DECOMP_OK
      /\ fst (one_shot_inflate c n input m) <> Isal.ISAL_BLOCK_FINISH
      /\ s = IOError ("Too small a buffer passed to GZipCodec. InputLength="
                      ++ print_int n ++ " OutputLength=" ++ print_int m).
Proof.
  destruct (Z.eq_dec m 0) as [Hz|Hnz].
  - subst m. split; [|tauto].
    unfold GZipCodec.Decompress.
    destruct (GZipCodec.decompressor_initialized_ c); cbn [negb].
    + cbn. discriminate.
    + open_InitDecompressor c. subst st. cbn. discriminate.
  - rewrite (Decompress_by_return_code c n input Hnz). cbv zeta.
    destruct (Z.eqb_spec (fst (one_shot_inflate c n input m))
                Isal.ISAL_BLOCK_FINISH) as [H5|H5];
      destruct (Z.eqb_spec (fst (one_shot_inflate c n input m))
                  Isal.ISAL_DECOMP_OK) as [H0|H0];
      cbn [orb fst]; try (split; [discriminate | tauto]).
    unfold GZipCodec.too_small_a_buffer.
    split.
    + intros [= <-]. auto.
    + intros (_ & _ & _ & ->). reflexivity.
Qed.

(** ** The streaming factories *)

(** X5.  [MakeCompressor] never ends the process.  It returns a
    compressor exactly when the [deflateInit2] call of the codec's own
    lazy initialisation succeeds, and that compressor is initialized on
    the very stream that call yields; otherwise it returns the status
    that initialisation returns. *)
Theorem MakeCompressor_agrees_with_InitCompressor
    (E : Engine) (NDEBUG : bool) (c : GZipCodec.t E) :
  match GZipCodec.MakeCompressor NDEBUG c with
  | Returns (Value p) =>
      deflateInit2_ret c = Zlib.Z_OK
      /\ fst (GZipCodec.InitCompressor c) = OK
      /\ GZipCompressor.initialized_ p = true
      /\ GZipCompressor.stream_ p
         = GZipCodec.stream_ (snd (GZipCodec.InitCompressor c))
  | Returns (Failure s) =>
      deflateInit2_ret c <> Zlib.Z_OK
      /\ fst (GZipCodec.InitCompressor c) = s
      /\ ok s = false
  | Aborts _ => False
  end.
Proof.
  unfold GZipCodec.MakeCompressor, GZipCompressor.Init, GZipCompressor.new,
    GZipCodec.InitCompressor, GZipCodec.EndDecompressor, deflateInit2_ret,
    DCHECK.
  cbn [GZipCompressor.initialized_ negb]. rewrite orb_true_r.
  cbn [GZipCompressor.compression_level_].
  destruct (GZipCodec.decompressor_initialized_ c); cbn;
    match goal with
    | |- context [fst ?x =? Zlib.Z_OK] =>
        destruct (Z.eqb_spec (fst x) Zlib.Z_OK)
    end; cbn; auto.
Qed.

(** X6.  [MakeDecompressor] never fails and never ends the process, and
    neither the format nor the level nor the state of the codec plays a
    part in the session it returns: the decompressors made by any two
    codecs are initialized, not finished, hold the inflate state that
    [isal_inflate_init] yields with [crc_flag] set to [ISAL_GZIP], and
    answer every [Decompress] call alike. *)
Theorem MakeDecompressor_is_always_a_gzip_session
    (E : Engine) (NDEBUG : bool) (c c' : GZipCodec.t E) :
  exists d d',
    GZipCodec.MakeDecompressor NDEBUG c = Returns (Value d)
    /\ GZipCodec.MakeDecompressor NDEBUG c' = Returns (Value d')
    /\ GZipDecompressor.initialized_ d = true
    /\ GZipDecompressor.IsFinished d = false
    /\ GZipDecompressor.stream_ d
       = Isal.set_crc_flag (isal_inflate_init E (inflate_zero E))
           Isal.ISAL_GZIP
    /\ GZipDecompressor.stream_ d' = GZipDecompressor.stream_ d
    /\ forall n input m,
         observed (GZipDecompressor.Decompress d' n input m)
         = observed (GZipDecompressor.Decompress d n input m).
Proof.
  unfold GZipCodec.MakeDecompressor, GZipDecompressor.Init,
    GZipDecompressor.new, DCHECK.
  cbn [GZipDecompressor.initialized_ negb]. rewrite orb_true_r.
  do 2 eexists. split; [reflexivity|]. split; [reflexivity|]. cbn.
  repeat split.
  intros n input m. unfold GZipDecompressor.Decompress. cbn.
  split_ifs; reflexivity.
Qed.

(** ** Interleaved round trips *)

Lemma deflateInit2_ret_config (E : Engine) (c c' : GZipCodec.t E) :
  config c' = config c -> deflateInit2_ret c' = deflateInit2_ret c.
Proof.
  unfold config, deflateInit2_ret. intros [= -> ->]. reflexivity.
Qed.

(** X7.  Compress and decompress calls may be interleaved at will on one
    gzip codec.  For an engine that follows the protocol and a codec
    that is ready and whose parameters [deflateInit2] accepts: whatever
    the sequence of requests, each on data whose stream and whose bytes
    fit the buffer size used (below 2^32), every compress returns and
    stores the gzip stream of its data and every decompress of such a
    stream returns and stores the data, the earlier calls and the
    switches of direction notwithstanding. *)
Theorem interleaved_one_shot_calls_are_independent
    (E : Engine) (enc : Z -> list byte -> list byte)
    (c : GZipCodec.t E) (requests : list (bool * list byte)) (cap : Z) :
  EngineContract E enc ->
  GZipCodec.format_ c = GZIP ->
  codec_ready c ->
  deflateInit2_ret c = Zlib.Z_OK ->
  cap < 2 ^ 32 ->
  Forall (fun d =>
            Z.of_nat (List.length
                        (enc (CompressionWindowBitsForFormat GZIP) (snd d)))
            <= cap
            /\ Z.of_nat (List.length (snd d)) <= cap) requests ->
  run_jobs c (map (job_of enc) requests) cap = map (answer_of enc) requests.
Proof.
  intros K Hfmt Hready Hret Hcap Hall.
  revert c Hfmt Hready Hret.
  induction Hall as [|[dir data] rest [Hz Hd] _ IH];
    intros c Hfmt Hready Hret; [reflexivity|].
  cbn [snd] in Hz, Hd.
  cbn [map]. unfold job_of at 1, answer_of at 1. cbn [fst snd].
  destruct dir; cbn [run_jobs].
  - destruct (Compress_succeeds K (c:=c)
                (n:=Z.of_nat (List.length data)) data (cap:=cap) Hready)
      as (c1 & Hcompress & Hready1 & Hfmt1); try lia.
    { right. exact Hret. }
    { rewrite firstn_whole, Hfmt. lia. }
    rewrite firstn_whole, Hfmt in Hcompress.
    rewrite Hcompress. cbn [fst snd]. f_equal.
    apply IH; [congruence | exact Hready1 |].
    rewrite <- Hret. apply deflateInit2_ret_config.
    replace c1 with (snd (GZipCodec.Compress c (Z.of_nat (List.length data))
                            data cap)) by (rewrite Hcompress; reflexivity).
    apply Compress_config.
  - destruct (Decompress_succeeds K (c:=c) data (room:=cap) Hready)
      as (c2 & Hdecompress & Hready2); try lia.
    rewrite Hdecompress. cbn [fst snd]. f_equal.
    assert (Hcfg : config c2 = config c).
    { replace c2 with (snd (GZipCodec.Decompress c
                              (Z.of_nat (List.length
                                 (enc (CompressionWindowBitsForFormat GZIP)
                                    data)))
                              (enc (CompressionWindowBitsForFormat GZIP) data)
                              cap))
        by (rewrite Hdecompress; reflexivity).
      apply Decompress_config. }
    apply IH; [| exact Hready2 |].
    + unfold config in Hcfg. congruence.
    + rewrite <- Hret. apply deflateInit2_ret_config. exact Hcfg.
Qed.

Lemma interleaved_one_shot_calls_are_independent_witness :
  let c := GZipCodec.new Ref.engine 9 GZIP in
  let requests := [(true, [x68; x69]); (false, [x68; x69]);
                   (false, []); (true, [x61])] in
  run_jobs c (map (job_of Ref.enc) requests) 32
  = map (answer_of Ref.enc) requests.
Proof.
  cbv zeta.
  apply (@interleaved_one_shot_calls_are_independent Ref.engine Ref.enc).
  - exact Ref_contract.
  - reflexivity.
  - apply new_codec_ready.
  - reflexivity.
  - reflexivity.
  - repeat constructor; cbn; lia.
Defined.

(** ** Byte counts of the streaming calls *)

Lemma Ref_inflate_body_counts_upto (k : nat) :
  forall (input : list byte) (room : Z),
    (List.length input <= k)%nat -> 0 <= room ->
    0 <= Ref.b_consumed (Ref.inflate_body input room)
      <= Z.of_nat (List.length input)
    /\ Z.of_nat (List.length (Ref.b_produced (Ref.inflate_body input room)))
       <= room.
Proof.
  induction k as [|k IH]; intros input room Hk Hroom.
  - destruct input; [cbn; lia | cbn in Hk; lia].
  - destruct input as [|a [|b rest]].
    + cbn. lia.
    + cbn [Ref.inflate_body].
      destruct (Byte.eqb a x00); [cbn; lia|].
      destruct (Byte.eqb a x01); cbn; lia.
    + cbn [Ref.inflate_body].
      destruct (Byte.eqb a x00);
        [cbn [Ref.b_consumed Ref.b_produced List.length]; lia|].
      destruct (Byte.eqb a x01);
        [|cbn [Ref.b_consumed Ref.b_produced List.length]; lia].
      destruct (Z.ltb_spec 0 room) as [Hpos|Hnpos];
        [|cbn [Ref.b_consumed Ref.b_produced List.length]; lia].
      cbn [Ref.b_consumed Ref.b_produced List.length] in *.
      destruct (IH rest (room - 1)) as [Hc Hp]; lia.
Qed.

Lemma Ref_inflate_body_counts (input : list byte) (room : Z) :
  0 <= room ->
  0 <= Ref.b_consumed (Ref.inflate_body input room)
    <= Z.of_nat (List.length input)
  /\ Z.of_nat (List.length (Ref.b_produced (Ref.inflate_body input room)))
     <= room.
Proof.
  intros Hroom.
  exact (Ref_inflate_body_counts_upto (k:=List.length input) input
           (Nat.le_refl _) Hroom).
Qed.

Lemma Ref_check_header_counts (flag : Z) (input : list byte) k rest :
  Ref.check_header flag input = Ref.header_ok k rest ->
  0 <= k /\ Z.of_nat (List.length input) = k + Z.of_nat (List.length rest).
Proof.
  unfold Ref.check_header.
  destruct (_ || _).
  - destruct input as [|a [|b tl]]; try discriminate.
    destruct (flag =? Isal.ISAL_GZIP);
      destruct (_ && _); try discriminate;
      intros [= <- <-]; cbn [List.length]; lia.
  - intros [= <- <-]. lia.
Qed.

Lemma Ref_progress : EngineProgress Ref.engine.
Proof.
  constructor.
  - intros s flush Hin Hout. cbv zeta.
    cbn [deflate Ref.engine]. unfold Ref.deflate.
    ref_types.
    destruct (Zlib.state s) as [p|]; [|cbn; lia].
    destruct (Ref.finished p && negb (flush =? Zlib.Z_FINISH)); [cbn; lia|].
    destruct (_ || _); [cbn; lia|].
    cbv zeta.
    set (data := firstn (Z.to_nat (Zlib.avail_in s)) (Zlib.next_in s)).
    set (ending := (flush =? Zlib.Z_FINISH) && negb (Ref.finished p)).
    set (fresh := (if Ref.started p then [] else Ref.header (Ref.wrap p))
                  ++ Ref.body data ++ (if ending then [x00] else [])).
    set (fresh_len := (if Ref.started p then 0 else Ref.header_len (Ref.wrap p))
                      + 2 * Zlib.avail_in s + (if ending then 1 else 0)).
    assert (Hdata : Z.of_nat (List.length data) = Zlib.avail_in s).
    { unfold data. rewrite length_firstn. lia. }
    assert (Hfresh : Z.of_nat (List.length fresh) = fresh_len).
    { unfold fresh, fresh_len.
      rewrite !length_app, Ref_body_length, !Nat2Z.inj_add, Nat2Z.inj_mul.
      rewrite Hdata.
      destruct (Ref.started p); destruct ending;
        rewrite ?Ref_header_length; cbn [List.length]; lia. }
    pose proof (Ref_header_len_range (Ref.wrap p)) as Hh.
    assert (Hpos : 0 <= fresh_len).
    { unfold fresh_len. destruct (Ref.started p); destruct ending; lia. }
    destruct (Z.leb_spec (Z.of_nat (List.length (Ref.pending p)) + fresh_len)
                (Zlib.avail_out s)) as [Hfit|Hnofit];
      cbn [snd Zlib.avail_in Zlib.avail_out Zlib.next_out].
    + rewrite !length_app, !Nat2Z.inj_add, Hfresh. lia.
    + rewrite !length_app, length_firstn, !length_app.
      rewrite !Nat2Z.inj_add. lia.
  - intros s Hin Hout. cbv zeta.
    cbn [isal_inflate Ref.engine]. unfold Ref.isal_inflate.
    ref_types.
    destruct (_ =? Isal.ISAL_BLOCK_FINISH); [cbn; lia|].
    set (input := firstn (Z.to_nat (Isal.avail_in s)) (Isal.next_in s)).
    assert (Hinput : Z.of_nat (List.length input) = Isal.avail_in s).
    { unfold input. rewrite length_firstn. lia. }
    assert (Hh : forall h,
               (h = Ref.need_more_input \/ h = Ref.invalid_wrapper
                \/ exists k rest,
                     h = Ref.header_ok k rest /\ 0 <= k
                     /\ Isal.avail_in s = k + Z.of_nat (List.length rest)) ->
               let r := match h with
                        | Ref.need_more_input => (Isal.ISAL_DECOMP_OK, s)
                        | Ref.invalid_wrapper => (Isal.ISAL_INVALID_WRAPPER, s)
                        | Ref.header_ok k rest =>
                            let r := Ref.inflate_body rest (Isal.avail_out s) in
                            let used := k + Ref.b_consumed r in
                            let made := Z.of_nat (List.length (Ref.b_produced r)) in
                            (Ref.b_ret r,
                             Isal.mk_inflate_state
                               (skipn (Z.to_nat used) (Isal.next_in s))
                               (Isal.avail_in s - used)
                               (Isal.next_out s ++ Ref.b_produced r)
                               (Isal.avail_out s - made)
                               (Isal.total_out s + made)
                               (Isal.crc_flag s)
                               (if Ref.b_finished r then Isal.ISAL_BLOCK_FINISH
                                else Isal.ISAL_BLOCK_CODED)
                               tt)
                        end in
               0 <= Isal.avail_in (snd r) <= Isal.avail_in s
               /\ 0 <= Isal.avail_out (snd r) <= Isal.avail_out s
               /\ Z.of_nat (List.length (Isal.next_out (snd r)))
                  = Z.of_nat (List.length (Isal.next_out s))
                    + (Isal.avail_out s - Isal.avail_out (snd r))).
    { intros h [->|[->|(k & rest & -> & Hk & Hlen)]]; cbv zeta;
        [cbn; lia | cbn; lia |].
      pose proof (Ref_inflate_body_counts rest Hout) as [Hc Hp].
      cbn [snd Isal.avail_in Isal.avail_out Isal.next_out].
      rewrite length_app, Nat2Z.inj_add. lia. }
    apply Hh.
    destruct (_ =? Isal.ISAL_BLOCK_NEW_HDR).
    + destruct (Ref.check_header (Isal.crc_flag s) input) as [| |k rest] eqn:Hc;
        auto.
      right. right. exists k, rest.
      destruct (Ref_check_header_counts _ _ Hc) as [Hk Hl].
      repeat split; auto. lia.
    + right. right. exists 0, input. repeat split; lia.
Qed.

Lemma cast_uInt_min (x : Z) :
  0 <= x -> cast_uInt (Z.min x input_limit) = Z.min x input_limit.
Proof.
  intros Hx. apply cast_uInt_small.
  unfold input_limit, uInt_max. lia.
Qed.

(** X8.  Counts returned by the streaming decompress, for an engine
    whose calls only take input and add output.  The call offers the
    engine the first [min(input_len, 2^32-1)] bytes and room for
    [min(output_len, 2^32-1)].  Below that limit the counts are exact:
    [bytes_consumed] lies between 0 and [input_len], and
    [bytes_produced] is the number of bytes stored, at most
    [output_len].  Above it each count is too large by the part of the
    length that was never offered. *)
Theorem streaming_Decompress_counts
    (E : Engine) (d d' : GZipDecompressor.t E)
    (n : Z) (input : list byte) (m : Z)
    (r : DecompressResult) (out : list byte) :
  EngineProgress E ->
  0 <= n -> 0 <= m ->
  Z.min n input_limit <= Z.of_nat (List.length input) ->
  GZipDecompressor.Decompress d n input m = Returns (Value r, out, d') ->
  n - Z.min n input_limit <= bytes_consumed r <= n
  /\ bytes_produced r = m - Z.min m input_limit + Z.of_nat (List.length out)
  /\ Z.of_nat (List.length out) <= Z.min m input_limit
  /\ (n <= input_limit -> m <= input_limit ->
      0 <= bytes_consumed r <= n
      /\ bytes_produced r = Z.of_nat (List.length out)
      /\ bytes_produced r <= m).
Proof.
  intros P Hn Hm Hin. unfold GZipDecompressor.Decompress.
  rewrite (cast_uInt_min Hn), (cast_uInt_min Hm).
  unfold input_limit, uInt_max in *.
  set (s0 := Isal.set_io _ _ _ _).
  destruct (inflate_progress P s0) as (Hi & Ho & Hl).
  { unfold s0. cbn -[Z.min]. lia. }
  { unfold s0. cbn -[Z.min]. lia. }
  cbn [Isal.avail_in Isal.avail_out Isal.next_out s0 Isal.set_io
       List.length Z.of_nat] in Hi, Ho, Hl.
  destruct (_ =? Isal.ISAL_DECOMP_OK); [|discriminate].
  intros [= <- <- _]. cbn [bytes_consumed bytes_produced].
  fold s0. lia.
Qed.

Lemma streaming_Decompress_counts_witness :
  exists (d d' : GZipDecompressor.t Ref.engine) r out,
    GZipDecompressor.Decompress d 7 [x1f; x8b; x01; x68; x01; x69; x00] 1
    = Returns (Value r, out, d')
    /\ bytes_consumed r = 4
    /\ bytes_produced r = Z.of_nat (List.length out)
    /\ out = [x68].
Proof.
  pose (d := @GZipDecompressor.mk Ref.engine
               (Isal.set_crc_flag
                  (isal_inflate_init Ref.engine (inflate_zero Ref.engine))
                  Isal.ISAL_GZIP)
               GZIP true false).
  let r := eval vm_compute in
             (GZipDecompressor.Decompress d 7
                [x1f; x8b; x01; x68; x01; x69; x00] 1) in
  match r with
  | Returns (Value ?res, ?out, ?d') =>
      assert (H : GZipDecompressor.Decompress d 7
                    [x1f; x8b; x01; x68; x01; x69; x00] 1
                  = Returns (Value res, out, d')) by reflexivity;
      exists d, d', res, out
  end.
  split; [exact H|]. split; [reflexivity|]. split; [|reflexivity].
  assert (Hin : Z.min 7 input_limit
                <= Z.of_nat (List.length [x1f; x8b; x01; x68; x01; x69; x00]))
    by (vm_compute; discriminate).
  assert (H7 : 7 <= input_limit) by (vm_compute; discriminate).
  assert (H1 : 1 <= input_limit) by (vm_compute; discriminate).
  assert (P7 : 0 <= 7) by lia.
  assert (P1 : 0 <= 1) by lia.
  exact (proj1 (proj2
           (proj2 (proj2 (proj2
              (@streaming_Decompress_counts Ref.engine _ _ _ _ _ _ _
                 Ref_progress P7 P1 Hin H))) H7 H1))).
Defined.

(** X9.  Counts returned by the streaming compressor, for lengths up to
    2^32-1 and an engine whose calls only take input and add output.
    [Compress] reports between 0 and [input_len] bytes consumed and no
    more bytes produced than it stored; [Flush] likewise, and when it
    asks for a retry the output buffer has been filled to the last byte;
    [End] reports exactly the number of bytes it stored.  No call stores
    more than [output_len] bytes. *)
Theorem streaming_compressor_counts
    (E : Engine) (NDEBUG : bool) (c : GZipCompressor.t E)
    (n : Z) (input : list byte) (m : Z) :
  EngineProgress E ->
  0 <= n <= input_limit ->
  n <= Z.of_nat (List.length input) ->
  0 <= m <= input_limit ->
  (forall r out c',
      GZipCompressor.Compress NDEBUG c n input m = Returns (Value r, out, c') ->
      0 <= compress_bytes_consumed r <= n
      /\ 0 <= compress_bytes_produced r <= Z.of_nat (List.length out)
      /\ Z.of_nat (List.length out) <= m)
  /\ (forall r out c',
        GZipCompressor.Flush NDEBUG c m = Returns (Value r, out, c') ->
        0 <= flush_bytes_produced r <= Z.of_nat (List.length out)
        /\ Z.of_nat (List.length out) <= m
        /\ (flush_needs_retry r = true -> Z.of_nat (List.length out) = m))
  /\ (forall r out c',
        GZipCompressor.End NDEBUG c m = Returns (Value r, out, c') ->
        end_bytes_produced r = Z.of_nat (List.length out)
        /\ Z.of_nat (List.length out) <= m).
Proof.
  intros P Hn Hin Hm.
  assert (Hcn : cast_uInt (Z.min n input_limit) = n).
  { rewrite cast_uInt_min by lia. lia. }
  assert (Hcm : cast_uInt (Z.min m input_limit) = m).
  { rewrite cast_uInt_min by lia. lia. }
  split; [|split]; intros r out c'.
  - unfold GZipCompressor.Compress, DCHECK.
    destruct (NDEBUG || GZipCompressor.initialized_ c); [|discriminate].
    rewrite Hcn, Hcm.
    set (s0 := Zlib.set_io _ _ _ _).
    destruct (deflate_progress P s0 Zlib.Z_NO_FLUSH) as (Hi & Ho & Hl);
      [unfold s0; cbn; lia | unfold s0; cbn; lia |].
    cbn [Zlib.avail_in Zlib.avail_out Zlib.next_out s0 Zlib.set_io
         List.length Z.of_nat] in Hi, Ho, Hl. fold s0 in Hi, Ho, Hl.
    destruct (_ =? Zlib.Z_STREAM_ERROR); [discriminate|].
    destruct (_ =? Zlib.Z_OK).
    + intros [= <- <- _]. cbn. lia.
    + destruct (_ =? Zlib.Z_BUF_ERROR); [|discriminate].
      intros [= <- <- _]. cbn. lia.
  - unfold GZipCompressor.Flush, DCHECK, GZipCompressor.set_out.
    destruct (NDEBUG || GZipCompressor.initialized_ c); [|discriminate].
    rewrite Hcm.
    set (s0 := Zlib.set_io _ _ _ _).
    destruct (deflate_progress P s0 Zlib.Z_SYNC_FLUSH) as (Hi & Ho & Hl);
      [unfold s0; cbn; lia | unfold s0; cbn; lia |].
    cbn [Zlib.avail_in Zlib.avail_out Zlib.next_out s0 Zlib.set_io
         List.length Z.of_nat] in Hi, Ho, Hl. fold s0 in Hi, Ho, Hl.
    destruct (_ =? Zlib.Z_STREAM_ERROR); [discriminate|].
    destruct (_ =? Zlib.Z_OK).
    + intros [= <- <- _]. cbn.
      repeat split; lia.
    + destruct (_ =? Zlib.Z_BUF_ERROR); [|discriminate].
      intros [= <- <- _]. cbn.
      repeat split; lia.
  - unfold GZipCompressor.End, DCHECK, GZipCompressor.set_out.
    destruct (NDEBUG || GZipCompressor.initialized_ c); [|discriminate].
    rewrite Hcm.
    set (s0 := Zlib.set_io _ _ _ _).
    destruct (deflate_progress P s0 Zlib.Z_FINISH) as (Hi & Ho & Hl);
      [unfold s0; cbn; lia | unfold s0; cbn; lia |].
    cbn [Zlib.avail_in Zlib.avail_out Zlib.next_out s0 Zlib.set_io
         List.length Z.of_nat] in Hi, Ho, Hl. fold s0 in Hi, Ho, Hl.
    destruct (_ =? Zlib.Z_STREAM_ERROR); [discriminate|].
    destruct (_ =? Zlib.Z_STREAM_END).
    + destruct (_ =? Zlib.Z_OK); [|discriminate].
      intros [= <- <- _]. cbn. lia.
    + intros [= <- <- _]. cbn. lia.
Qed.

Lemma streaming_compressor_counts_witness :
  exists (c c' : GZipCompressor.t Ref.engine) r out,
    GZipCompressor.Compress true c 2 [x68; x69] 16
    = Returns (Value r, out, c')
    /\ 0 <= compress_bytes_consumed r <= 2
    /\ 0 <= compress_bytes_produced r <= Z.of_nat (List.length out)
    /\ Z.of_nat (List.length out) <= 16.
Proof.
  pose (c := @GZipCompressor.mk Ref.engine
               (snd (Ref.deflateInit2 (Zlib.zero Ref.deflate_private)
                       (-1) 8 31 9 0))
               true 9).
  let r := eval vm_compute in
             (GZipCompressor.Compress true c 2 [x68; x69] 16) in
  match r with
  | Returns (Value ?res, ?out, ?c') =>
      assert (H : GZipCompressor.Compress true c 2 [x68; x69] 16
                  = Returns (Value res, out, c')) by reflexivity;
      exists c, c', res, out
  end.
  split; [exact H|].
  assert (Hn : 0 <= 2 <= input_limit) by (vm_compute; split; discriminate).
  assert (Hin : 2 <= Z.of_nat (List.length [x68; x69]))
    by (vm_compute; discriminate).
  assert (Hm : 0 <= 16 <= input_limit) by (vm_compute; split; discriminate).
  exact (proj1 (@streaming_compressor_counts Ref.engine true c 2 [x68; x69] 16
                  Ref_progress Hn Hin Hm) _ _ _ H).
Defined.


(** ** Lifetime of a streaming compressor *)

(** X10.  [End] on an initialized compressor never ends the process.
    When it returns a result, the compressor is closed exactly when the
    result asks for no retry, and it is closed only if [deflate]
    returned [Z_STREAM_END].  In a build with [DCHECK]s, every later
    [Compress], [Flush] or [End] on the closed compressor ends the
    process. *)
Theorem End_closes_the_compressor
    (E : Engine) (NDEBUG : bool) (c : GZipCompressor.t E) (m : Z) :
  GZipCompressor.initialized_ c = true ->
  exists res out c',
    GZipCompressor.End NDEBUG c m = Returns (res, out, c')
    /\ (forall r, res = Value r ->
                  GZipCompressor.initialized_ c' = end_needs_retry r)
    /\ (GZipCompressor.initialized_ c' = false ->
        fst (deflate E (@GZipCompressor.set_out E (GZipCompressor.stream_ c) m)
               Zlib.Z_FINISH) = Zlib.Z_STREAM_END)
    /\ (GZipCompressor.initialized_ c' = false -> NDEBUG = false ->
        forall n input m',
          GZipCompressor.Compress NDEBUG c' n input m'
          = Aborts "Called on non-initialized stream"
          /\ GZipCompressor.Flush NDEBUG c' m'
             = Aborts "Called on non-initialized stream"
          /\ GZipCompressor.End NDEBUG c' m'
             = Aborts "Called on non-initialized stream").
Proof.
  intros Hinit.
  assert (Hdebug : forall c' : GZipCompressor.t E,
             GZipCompressor.initialized_ c' = false -> NDEBUG = false ->
             forall n input m',
               GZipCompressor.Compress NDEBUG c' n input m'
               = Aborts "Called on non-initialized stream"
               /\ GZipCompressor.Flush NDEBUG c' m'
                  = Aborts "Called on non-initialized stream"
               /\ GZipCompressor.End NDEBUG c' m'
                  = Aborts "Called on non-initialized stream").
  { intros c' Hc' -> n input m'.
    unfold GZipCompressor.Compress, GZipCompressor.Flush,
      GZipCompressor.End, DCHECK.
    rewrite Hc'. auto. }
  unfold GZipCompressor.End at 1, DCHECK. rewrite Hinit, orb_true_r.
  set (d := deflate E _ Zlib.Z_FINISH).
  destruct (Z.eqb_spec (fst d) Zlib.Z_STREAM_ERROR) as [Herr|Hnerr].
  - do 3 eexists. split; [reflexivity|]. cbn [GZipCompressor.initialized_].
    repeat split; try discriminate.
  - destruct (Z.eqb_spec (fst d) Zlib.Z_STREAM_END) as [Hend|Hnend].
    + destruct (fst (deflateEnd E (snd d)) =? Zlib.Z_OK).
      * do 3 eexists. split; [reflexivity|].
        cbn [GZipCompressor.initialized_].
        split; [intros r [= <-]; reflexivity|].
        split; [intros _; exact Hend|].
        intros _ Hn. apply Hdebug; [reflexivity | exact Hn].
      * do 3 eexists. split; [reflexivity|].
        cbn [GZipCompressor.initialized_].
        split; [intros r Hr; discriminate Hr|].
        split; [intros _; exact Hend|].
        intros _ Hn. apply Hdebug; [reflexivity | exact Hn].
    + do 3 eexists. split; [reflexivity|]. cbn [GZipCompressor.initialized_].
      split; [intros r [= <-]; reflexivity|].
      split; discriminate.
Qed.

Lemma End_closes_the_compressor_witness :
  let c := @GZipCompressor.mk Ref.engine
             (snd (Ref.deflateInit2 (Zlib.zero Ref.deflate_private)
                     (-1) 8 31 9 0))
             true 9 in
  exists res out c',
    GZipCompressor.End false c 16 = Returns (res, out, c')
    /\ (forall r, res = Value r ->
                  GZipCompressor.initialized_ c' = end_needs_retry r).
Proof.
  cbv zeta.
  destruct (@End_closes_the_compressor Ref.engine false
              (@GZipCompressor.mk Ref.engine
                 (snd (Ref.deflateInit2 (Zlib.zero Ref.deflate_private)
                         (-1) 8 31 9 0))
                 true 9) 16 eq_refl)
    as (res & out & c' & Hend & Hclosed & _).
  exists res, out, c'. split; [exact Hend | exact Hclosed].
Defined.

(** ** Reuse of a streaming decompressor *)

(** X11.  [Reset] makes a streaming decompressor fit for a new,
    independent stream.  For an engine that follows the protocol, and
    whatever an initialized gzip decompressor has decoded before: after
    [Reset] it is not finished, and a [Decompress] call given a whole
    gzip stream and room for its data stores exactly the data and
    reports their number as produced. *)
Theorem Reset_makes_the_decompressor_reusable
    (E : Engine) (enc : Z -> list byte -> list byte) (NDEBUG : bool)
    (d : GZipDecompressor.t E) (data : list byte) (m : Z) :
  EngineContract E enc ->
  EngineProgress E ->
  GZipDecompressor.initialized_ d = true ->
  gzip_inflater E (GZipDecompressor.stream_ d) ->
  Z.of_nat (List.length (enc (CompressionWindowBitsForFormat GZIP) data))
    <= input_limit ->
  Z.of_nat (List.length data) <= m <= input_limit ->
  exists d1 d2 r,
    GZipDecompressor.Reset NDEBUG d = Returns (OK, d1)
    /\ GZipDecompressor.IsFinished d1 = false
    /\ GZipDecompressor.Decompress d1
         (Z.of_nat (List.length
                      (enc (CompressionWindowBitsForFormat GZIP) data)))
         (enc (CompressionWindowBitsForFormat GZIP) data) m
       = Returns (Value r, data, d2)
    /\ bytes_produced r = Z.of_nat (List.length data)
    /\ 0 <= bytes_consumed r
         <= Z.of_nat (List.length
                        (enc (CompressionWindowBitsForFormat GZIP) data))
    /\ GZipDecompressor.initialized_ d2 = true
    /\ gzip_inflater E (GZipDecompressor.stream_ d2).
Proof.
  intros K P Hinit Hs Hz Hm.
  set (z := enc (CompressionWindowBitsForFormat GZIP) data) in *.
  unfold GZipDecompressor.Reset, DCHECK. rewrite Hinit, orb_true_r.
  eexists. 
  destruct (inflate_gzip K data Hs (proj1 Hm)) as (s1 & Hrun & Hout & Htotal).
  change (enc (WINDOW_BITS + GZIP_CODEC) data) with z in Hrun.
  assert (Hdec :
            GZipDecompressor.Decompress
              (@GZipDecompressor.mk E
                 (isal_inflate_reset E (GZipDecompressor.stream_ d))
                 (GZipDecompressor.format_ d) true false)
              (Z.of_nat (List.length z)) z m
            = Returns (Value (mk_DecompressResult
                                (Z.of_nat (List.length z) - Isal.avail_in s1)
                                (m - Isal.avail_out s1) false),
                       data,
                       @GZipDecompressor.mk E s1 (GZipDecompressor.format_ d) true
                         (Isal.block_state s1 =? Isal.ISAL_BLOCK_FINISH))).
  { unfold GZipDecompressor.Decompress.
    rewrite !cast_uInt_min by lia.
    rewrite !Z.min_l by lia.
    cbn [GZipDecompressor.stream_ GZipDecompressor.format_
         GZipDecompressor.initialized_].
    rewrite Hrun. cbn [fst snd].
    change (Isal.ISAL_DECOMP_OK =? Isal.ISAL_DECOMP_OK) with true.
    cbv iota. rewrite Hout. reflexivity. }
  do 2 eexists. split; [reflexivity|]. split; [reflexivity|].
  split; [exact Hdec|].
  destruct (inflate_progress P
              (Isal.set_io (isal_inflate_reset E (GZipDecompressor.stream_ d))
                 z (Z.of_nat (List.length z)) m)) as (Hi & Ho & Hl).
  { cbn. lia. }
  { cbn. lia. }
  rewrite Hrun in Hi, Ho, Hl.
  cbn [fst snd Isal.avail_in Isal.avail_out Isal.next_out Isal.set_io
       List.length Z.of_nat] in Hi, Ho, Hl.
  rewrite Hout in Hl.
  assert (Hp : m - Isal.avail_out s1 = Z.of_nat (List.length data)) by lia.
  assert (Hc : 0 <= Z.of_nat (List.length z) - Isal.avail_in s1
               <= Z.of_nat (List.length z)) by lia.
  cbn [bytes_produced bytes_consumed].
  split; [exact Hp|]. split; [exact Hc|].
  cbn [GZipDecompressor.initialized_ GZipDecompressor.stream_].
  split; [reflexivity|].
  replace s1 with (snd (isal_inflate E
                          (Isal.set_io
                             (isal_inflate_reset E (GZipDecompressor.stream_ d))
                             z (Z.of_nat (List.length z)) m)))
    by (rewrite Hrun; reflexivity).
  apply inflater_run, inflater_io, inflater_reset. exact Hs.
Qed.

Lemma Reset_makes_the_decompressor_reusable_witness :
  let z0 := Ref.enc (CompressionWindowBitsForFormat GZIP) [x68] in
  let z := Ref.enc (CompressionWindowBitsForFormat GZIP) [x69] in
  let d := @GZipDecompressor.mk Ref.engine
             (snd (isal_inflate Ref.engine
                     (Isal.set_io
                        (Isal.set_crc_flag
                           (isal_inflate_init Ref.engine
                              (inflate_zero Ref.engine))
                           Isal.ISAL_GZIP)
                        z0 (Z.of_nat (List.length z0)) 4)))
             GZIP true true in
  exists d1 d2 r,
    GZipDecompressor.Reset false d = Returns (OK, d1)
    /\ GZipDecompressor.IsFinished d1 = false
    /\ GZipDecompressor.Decompress d1 (Z.of_nat (List.length z)) z 4
       = Returns (Value r, [x69], d2)
    /\ bytes_produced r = Z.of_nat (List.length [x69])
    /\ 0 <= bytes_consumed r <= Z.of_nat (List.length z)
    /\ GZipDecompressor.initialized_ d2 = true
    /\ gzip_inflater Ref.engine (GZipDecompressor.stream_ d2).
Proof.
  intros z0 z d.
  apply (@Reset_makes_the_decompressor_reusable
           Ref.engine Ref.enc false d [x69] 4 Ref_contract Ref_progress).
  - reflexivity.
  - apply inflater_run, inflater_io, inflater_init.
  - vm_compute. discriminate.
  - split; vm_compute; discriminate.
Defined.

(** ** Which values select the QAT backend *)

Lemma toupper_idempotent (c : ascii) : toupper (toupper c) = toupper c.
Proof. destruct c as [[] [] [] [] [] [] [] []]; reflexivity. Qed.

Lemma transform_toupper_idempotent (v : string) :
  transform_toupper (transform_toupper v) = transform_toupper v.
Proof.
  induction v as [|c v IH]; [reflexivity|].
  cbn [transform_toupper]. rewrite toupper_idempotent, IH. reflexivity.
Qed.

Lemma toupper_Q (c : ascii) :
  toupper c = "Q"%char <-> c = "q"%char \/ c = "Q"%char.
Proof.
  split.
  - destruct c as [[] [] [] [] [] [] [] []]; intros H;
      first [discriminate H | left; reflexivity | right; reflexivity].
  - intros [->| ->]; reflexivity.
Qed.

Lemma toupper_A (c : ascii) :
  toupper c = "A"%char <-> c = "a"%char \/ c = "A"%char.
Proof.
  split.
  - destruct c as [[] [] [] [] [] [] [] []]; intros H;
      first [discriminate H | left; reflexivity | right; reflexivity].
  - intros [->| ->]; reflexivity.
Qed.

Lemma toupper_T (c : ascii) :
  toupper c = "T"%char <-> c = "t"%char \/ c = "T"%char.
Proof.
  split.
  - destruct c as [[] [] [] [] [] [] [] []]; intros H;
      first [discriminate H | left; reflexivity | right; reflexivity].
  - intros [->| ->]; reflexivity.
Qed.

Lemma transform_toupper_QAT (v : string) :
  transform_toupper v = "QAT"%string
  <-> exists a b c,
        v = String a (String b (String c EmptyString))
        /\ (a = "q"%char \/ a = "Q"%char)
        /\ (b = "a"%char \/ b = "A"%char)
        /\ (c = "t"%char \/ c = "T"%char).
Proof.
  split.
  - destruct v as [|a [|b [|c [|x v]]]]; cbn [transform_toupper];
      intros H; try discriminate H.
    injection H as Ha Hb Hc.
    exists a, b, c. split; [reflexivity|].
    rewrite <- toupper_Q, <- toupper_A, <- toupper_T. auto.
  - intros (a & b & c & -> & Ha & Hb & Hc).
    apply toupper_Q in Ha. apply toupper_A in Hb. apply toupper_T in Hc.
    cbn [transform_toupper]. rewrite Ha, Hb, Hc. reflexivity.
Qed.

(** X12.  The values of [ARROW_GZIP_BACKEND] that select the QAT
    backend.  [MakeGZipCodec] returns the QAT codec exactly when QAT is
    compiled in and the value is one of the eight spellings of the three
    letters q, a, t in either case, with nothing before or after them;
    and two values that differ only in the case of their letters give the
    same codec and the same warnings. *)
Theorem QAT_is_selected_by_its_three_letters_in_any_case
    (E : Engine) (ARROW_WITH_QAT : bool)
    (compression_level : Z) (format : GZipFormat) :
  (forall maybe_env_var,
      fst (MakeGZipCodec E ARROW_WITH_QAT maybe_env_var compression_level
             format) = IsQatCodec
      <-> ARROW_WITH_QAT = true
          /\ exists a b c,
               maybe_env_var
               = Some (String a (String b (String c EmptyString)))
               /\ (a = "q"%char \/ a = "Q"%char)
               /\ (b = "a"%char \/ b = "A"%char)
               /\ (c = "t"%char \/ c = "T"%char))
  /\ (forall v v',
         transform_toupper v = transform_toupper v' ->
         MakeGZipCodec E ARROW_WITH_QAT (Some v) compression_level format
         = MakeGZipCodec E ARROW_WITH_QAT (Some v') compression_level format)
  /\ (forall v,
         MakeGZipCodec E ARROW_WITH_QAT (Some (transform_toupper v))
           compression_level format
         = MakeGZipCodec E ARROW_WITH_QAT (Some v) compression_level format).
Proof.
  split; [|split].
  - intros [v|]; unfold MakeGZipCodec.
    + destruct (String.eqb_spec (transform_toupper v) "QAT") as [HQ|HQ].
      * destruct ARROW_WITH_QAT; cbn [fst].
        -- split; [intros _|reflexivity]. split; [reflexivity|].
           apply transform_toupper_QAT in HQ.
           destruct HQ as (a & b & c & -> & H). exists a, b, c. auto.
        -- split; [discriminate|]. intros [H _]. discriminate H.
      * split.
        -- destruct (negb _); cbn [fst]; discriminate.
        -- intros (_ & a & b & c & [= ->] & H). exfalso. apply HQ.
           apply transform_toupper_QAT. exists a, b, c. auto.
    + cbn [fst]. split; [discriminate|].
      intros (_ & a & b & c & H & _). discriminate H.
  - intros v v' H. unfold MakeGZipCodec. rewrite H. reflexivity.
  - intros v. unfold MakeGZipCodec.
    rewrite transform_toupper_idempotent. reflexivity.
Qed.

(** ** A streaming session on the reference engine *)

Lemma Ref_body_app (a b : list byte) :
  Ref.body (a ++ b) = Ref.body a ++ Ref.body b.
Proof.
  induction a as [|x a IH]; [reflexivity|].
  cbn [app Ref.body]. rewrite IH. reflexivity.
Qed.

(** The compressor between two chunks: initialized, nothing pending. *)
Lemma Ref_compress_chunks (NDEBUG : bool) (w : Z)
    (chunks : list (list byte)) (room : Z) :
  Forall (fun chunk => 2 * Z.of_nat (List.length chunk) + 3 <= room) chunks ->
  3 <= room <= input_limit ->
  forall (c : GZipCompressor.t Ref.engine) (started : bool),
    GZipCompressor.initialized_ c = true ->
    Zlib.state (GZipCompressor.stream_ c)
    = Some (Ref.mk_deflate_private w started [] false) ->
    exists c',
      compress_chunks NDEBUG c chunks room
      = Some ((if started then []
               else match chunks with [] => [] | _ => Ref.header w end)
              ++ Ref.body (List.concat chunks), c')
      /\ GZipCompressor.initialized_ c' = true
      /\ Zlib.state (GZipCompressor.stream_ c')
         = Some (Ref.mk_deflate_private w
                   (started || match chunks with [] => false | _ => true end)
                   [] false).
Proof.
  intros Hall Hroom.
  induction Hall as [|chunk rest Hchunk _ IH]; intros c started Hinit Hstate.
  - exists c. cbn [compress_chunks List.concat Ref.body].
    rewrite orb_false_r. destruct started; auto.
  - cbn [compress_chunks].
    unfold GZipCompressor.Compress, DCHECK. rewrite Hinit, orb_true_r.
    unfold input_limit, uInt_max in *.
    rewrite !Z.min_l by lia.
    rewrite !cast_uInt_small by lia.
    cbn [deflate Ref.engine]. unfold Ref.deflate.
    cbn [Zlib.set_io Zlib.state Zlib.avail_in Zlib.avail_out Zlib.next_in
         Zlib.next_out Zlib.msg].
    ref_types. rewrite Hstate.
    cbn [Ref.finished Ref.started Ref.pending Ref.wrap andb orb negb].
    change (Zlib.Z_NO_FLUSH =? Zlib.Z_FINISH) with false.
    cbn [andb orb negb].
    assert (Hz : (room =? 0) = false) by (apply Z.eqb_neq; lia).
    rewrite Hz. cbv iota zeta. cbn [orb].
    rewrite firstn_whole, app_nil_r.
    pose proof (Ref_header_len_range w) as Hh.
    assert (Hfit : (Z.of_nat (List.length (@nil byte))
                    + ((if started then 0 else Ref.header_len w)
                       + 2 * Z.of_nat (List.length chunk) + 0)
                    <=? room) = true).
    { apply Z.leb_le. cbn [List.length Z.of_nat]. destruct started; lia. }
    rewrite Hfit. cbn [fst snd].
    change (Zlib.Z_OK =? Zlib.Z_STREAM_ERROR) with false.
    change (Zlib.Z_OK =? Zlib.Z_OK) with true. cbv iota.
    cbn [compress_bytes_consumed Zlib.avail_in Zlib.next_out].
    rewrite Z.sub_0_r, Z.eqb_refl.
    match goal with
    | |- context [compress_chunks NDEBUG ?c1 rest room] =>
        destruct (IH c1 true) as (c' & Hrun & Hinit' & Hstate');
          [reflexivity | reflexivity |]
    end.
    rewrite Hrun. exists c'. split; [|split; [exact Hinit'|]].
    + cbn [List.concat app]. rewrite Ref_body_app, <- ?app_assoc.
      destruct started; reflexivity.
    + rewrite Hstate'. rewrite orb_true_r. reflexivity.
Qed.

(** X13.  A streaming session on the reference engine.  A compressor
    initialized for gzip with a level from 1 to 9, fed any chunks through
    [Compress] and closed by one [End], each call with room for what it
    yields, stores the very stream the one-shot [Compress] of a codec of
    the same level stores for the chunks put together, and is closed;
    and a new gzip decompressor given that stream and room for the data
    stores the data, reports the whole stream consumed and the data
    produced, and is finished. *)
Theorem streaming_session_on_the_reference_engine
    (NDEBUG : bool) (level : Z) (chunks : list (list byte)) (room m : Z) :
  1 <= level <= 9 ->
  Forall (fun chunk => 2 * Z.of_nat (List.length chunk) + 3 <= room) chunks ->
  3 <= room <= input_limit ->
  let data := List.concat chunks in
  let z := Ref.enc (CompressionWindowBitsForFormat GZIP) data in
  Z.of_nat (List.length z) <= input_limit ->
  Z.of_nat (List.length data) <= m <= input_limit ->
  exists c c' d d',
    GZipCompressor.Init NDEBUG (GZipCompressor.new Ref.engine level) GZIP
    = Returns (OK, c)
    /\ compress_stream NDEBUG c chunks room = Some (z, c')
    /\ GZipCompressor.initialized_ c' = false
    /\ fst (GZipCodec.Compress (GZipCodec.new Ref.engine level GZIP)
              (Z.of_nat (List.length data)) data
              (Z.of_nat (List.length z)))
       = (Value (Z.of_nat (List.length z)), z)
    /\ GZipDecompressor.Init NDEBUG (GZipDecompressor.new Ref.engine GZIP)
       = Returns (OK, d)
    /\ GZipDecompressor.Decompress d (Z.of_nat (List.length z)) z m
       = Returns (Value (mk_DecompressResult (Z.of_nat (List.length z))
                           (Z.of_nat (List.length data)) false),
                  data, d')
    /\ GZipDecompressor.IsFinished d' = true.
Proof.
  intros Hlevel Hall Hroom data z Hz Hm.
  assert (Hparams :
            deflateInit2 Ref.engine (Zlib.zero (internal_state Ref.engine))
              Zlib.Z_DEFAULT_COMPRESSION Zlib.Z_DEFLATED
              (CompressionWindowBitsForFormat GZIP) level
              Zlib.Z_DEFAULT_STRATEGY
            = (Zlib.Z_OK,
               Zlib.mk_z_stream [] 0 [] 0 None
                 (Some (Ref.mk_deflate_private
                          (CompressionWindowBitsForFormat GZIP)
                          false [] false)))).
  { cbn [deflateInit2 Ref.engine]. unfold Ref.deflateInit2, Ref.in_range.
    replace (1 <=? level) with true by (symmetry; apply Z.leb_le; lia).
    replace (level <=? 9) with true by (symmetry; apply Z.leb_le; lia).
    reflexivity. }
  (* the compressor *)
  assert (Hinit : exists c,
             GZipCompressor.Init NDEBUG (GZipCompressor.new Ref.engine level)
               GZIP = Returns (OK, c)
             /\ GZipCompressor.initialized_ c = true
             /\ Zlib.state (GZipCompressor.stream_ c)
                = Some (Ref.mk_deflate_private
                          (CompressionWindowBitsForFormat GZIP)
                          false [] false)).
  { unfold GZipCompressor.Init, DCHECK.
    cbn [GZipCompressor.new GZipCompressor.initialized_
         GZipCompressor.compression_level_ negb].
    rewrite orb_true_r, Hparams. cbn [fst snd].
    change (Zlib.Z_OK =? Zlib.Z_OK) with true. cbn [negb].
    eexists. repeat split. }
  destruct Hinit as (c & Hc & Hci & Hcs).
  destruct (@Ref_compress_chunks NDEBUG _ chunks room Hall Hroom c false
              Hci Hcs) as (c1 & Hrun & Hc1i & Hc1s).
  assert (Hend : exists c',
             compress_stream NDEBUG c chunks room = Some (z, c')
             /\ GZipCompressor.initialized_ c' = false).
  { unfold compress_stream. rewrite Hrun.
    unfold GZipCompressor.End, DCHECK. rewrite Hc1i, orb_true_r.
    unfold GZipCompressor.set_out.
    unfold input_limit, uInt_max in *.
    rewrite !Z.min_l by lia. rewrite !cast_uInt_small by lia.
    cbn [deflate deflateEnd Ref.engine]. unfold Ref.deflate.
    cbn [Zlib.set_io Zlib.state Zlib.avail_in Zlib.avail_out Zlib.next_in
         Zlib.next_out Zlib.msg].
    ref_types. rewrite Hc1s.
    cbn [Ref.finished Ref.started Ref.pending Ref.wrap andb orb negb].
    change (Zlib.Z_FINISH =? Zlib.Z_FINISH) with true.
    cbn [andb orb negb].
    assert (Hz0 : (room =? 0) = false) by (apply Z.eqb_neq; lia).
    rewrite Hz0. cbv iota zeta. cbn [orb].
    change (Z.to_nat 0) with 0%nat. cbn [firstn Ref.body app].
    set (st := match chunks with [] => false | _ => true end) in *.
    pose proof (Ref_header_len_range (CompressionWindowBitsForFormat GZIP))
      as Hh.
    assert (Hfit : (Z.of_nat (List.length (@nil byte))
                    + ((if st then 0
                        else Ref.header_len
                               (CompressionWindowBitsForFormat GZIP))
                       + 2 * 0 + 1) <=? room) = true).
    { apply Z.leb_le. cbn [List.length Z.of_nat]. destruct st; lia. }
    rewrite Hfit. cbn [fst snd].
    change (Zlib.Z_STREAM_END =? Zlib.Z_STREAM_ERROR) with false.
    change (Zlib.Z_STREAM_END =? Zlib.Z_STREAM_END) with true. cbv iota.
    unfold Ref.deflateEnd. cbn [Zlib.state fst snd].
    change (Zlib.Z_OK =? Zlib.Z_OK) with true. cbv iota.
    cbn [end_needs_retry Zlib.next_out].
    eexists. split.
    - f_equal. f_equal. unfold z, Ref.enc, data, st.
      destruct chunks; cbn [app]; rewrite <- ?app_assoc; reflexivity.
    - reflexivity. }
  destruct Hend as (c' & Hstream & Hclosed).
  (* the one-shot codec *)
  assert (Hone : fst (GZipCodec.Compress (GZipCodec.new Ref.engine level GZIP)
                        (Z.of_nat (List.length data)) data
                        (Z.of_nat (List.length z)))
                 = (Value (Z.of_nat (List.length z)), z)).
  { assert (Hlen : Z.of_nat (List.length data) < 2 ^ 32).
    { unfold z in Hz. rewrite Ref_enc_length in Hz.
      pose proof (Ref_header_len_range (CompressionWindowBitsForFormat GZIP)).
      unfold input_limit, uInt_max in Hz. lia. }
    destruct (@Compress_succeeds Ref.engine Ref.enc Ref_contract
                (GZipCodec.new Ref.engine level GZIP)
                (Z.of_nat (List.length data)) data
                (Z.of_nat (List.length z)))
      as (c2 & Hrun2 & _).
    - apply new_codec_ready.
    - right. unfold deflateInit2_ret.
      cbn [GZipCodec.new GZipCodec.format_ GZipCodec.compression_level_].
      replace (if level =? kUseDefaultCompressionLevel
               then kGZipDefaultCompressionLevel else level) with level.
      + rewrite Hparams. reflexivity.
      + destruct (Z.eqb_spec level kUseDefaultCompressionLevel) as [E|];
          [|reflexivity].
        unfold kUseDefaultCompressionLevel in E. lia.
    - lia.
    - lia.
    - cbn [GZipCodec.new GZipCodec.format_]. rewrite firstn_whole.
      fold z. unfold input_limit, uInt_max in Hz. lia.
    - cbn [GZipCodec.new GZipCodec.format_] in Hrun2.
      rewrite firstn_whole in Hrun2. fold z in Hrun2.
      rewrite Hrun2. reflexivity. }
  (* the decompressor *)
  exists c, c'.
  exists (@GZipDecompressor.mk Ref.engine
            (Isal.set_crc_flag
               (isal_inflate_init Ref.engine (inflate_zero Ref.engine))
               Isal.ISAL_GZIP)
            GZIP true false).
  eexists.
  split; [exact Hc|]. split; [exact Hstream|]. split; [exact Hclosed|].
  split; [exact Hone|].
  split.
  { unfold GZipDecompressor.Init, DCHECK.
    cbn [GZipDecompressor.new GZipDecompressor.initialized_
         GZipDecompressor.format_ negb].
    rewrite orb_true_r. reflexivity. }
  unfold GZipDecompressor.Decompress, GZipDecompressor.IsFinished.
  unfold input_limit, uInt_max in *.
  rewrite !Z.min_l by lia. rewrite !cast_uInt_small by lia.
  cbn [GZipDecompressor.stream_ GZipDecompressor.format_
       GZipDecompressor.initialized_ isal_inflate isal_inflate_init
       Ref.engine].
  unfold Ref.isal_inflate, Ref.isal_inflate_init.
  cbn [Isal.set_io Isal.set_crc_flag Isal.block_state Isal.crc_flag
       Isal.avail_in Isal.avail_out Isal.next_in Isal.next_out
       Isal.total_out].
  change (Isal.ISAL_BLOCK_NEW_HDR =? Isal.ISAL_BLOCK_FINISH) with false.
  change (Isal.ISAL_BLOCK_NEW_HDR =? Isal.ISAL_BLOCK_NEW_HDR) with true.
  cbv iota. rewrite firstn_whole.
  change (Ref.check_header Isal.ISAL_GZIP z)
    with (Ref.header_ok 2 (Ref.body data ++ [x00])).
  cbv iota zeta. rewrite (Ref_inflate_body_whole _ (proj1 Hm)).
  cbn [Ref.b_ret Ref.b_consumed Ref.b_produced Ref.b_finished fst snd
       Isal.avail_in Isal.avail_out Isal.next_out Isal.block_state
       GZipDecompressor.finished_].
  change (Isal.ISAL_DECOMP_OK =? Isal.ISAL_DECOMP_OK) with true.
  change (Isal.ISAL_BLOCK_FINISH =? Isal.ISAL_BLOCK_FINISH) with true.
  cbv iota. split.
  - apply f_equal. apply f_equal2; [|reflexivity].
    apply f_equal2; [|reflexivity]. apply f_equal.
    f_equal.
    + unfold z. rewrite Ref_enc_length.
      change (Ref.header_len (CompressionWindowBitsForFormat GZIP)) with 2.
      lia.
    + lia.
  - reflexivity.
Qed.

Lemma streaming_session_on_the_reference_engine_witness :
  let data := List.concat [[x68]; [x69; x21]] in
  let z := Ref.enc (CompressionWindowBitsForFormat GZIP) data in
  exists c c' d d',
    GZipCompressor.Init true (GZipCompressor.new Ref.engine 9) GZIP
    = Returns (OK, c)
    /\ compress_stream true c [[x68]; [x69; x21]] 16 = Some (z, c')
    /\ GZipCompressor.initialized_ c' = false
    /\ fst (GZipCodec.Compress (GZipCodec.new Ref.engine 9 GZIP)
              (Z.of_nat (List.length data)) data
              (Z.of_nat (List.length z)))
       = (Value (Z.of_nat (List.length z)), z)
    /\ GZipDecompressor.Init true (GZipDecompressor.new Ref.engine GZIP)
       = Returns (OK, d)
    /\ GZipDecompressor.Decompress d (Z.of_nat (List.length z)) z 4
       = Returns (Value (mk_DecompressResult (Z.of_nat (List.length z))
                           (Z.of_nat (List.length data)) false),
                  data, d')
    /\ GZipDecompressor.IsFinished d' = true.
Proof.
  assert (H1 : 1 <= 9 <= 9) by lia.
  assert (H2 : Forall (fun chunk : list byte =>
                         2 * Z.of_nat (List.length chunk) + 3 <= 16)
                 [[x68]; [x69; x21]])
    by (repeat constructor; vm_compute; discriminate).
  assert (H3 : 3 <= 16 <= input_limit) by (vm_compute; split; discriminate).
  assert (H4 : Z.of_nat (List.length
                           (Ref.enc (CompressionWindowBitsForFormat GZIP)
                              (List.concat [[x68]; [x69; x21]])))
               <= input_limit) by (vm_compute; discriminate).
  assert (H5 : Z.of_nat (List.length (List.concat [[x68]; [x69; x21]]))
               <= 4 <= input_limit) by (vm_compute; split; discriminate).
  exact (@streaming_session_on_the_reference_engine true 9
           [[x68]; [x69; x21]] 16 4 H1 H2 H3 H4 H5).
Defined.

(** ** The QAT codec *)

Lemma cast_uint32_wraps (x k : Z) : cast_uint32 (x + k * 2 ^ 32) = cast_uint32 x.
Proof. unfold cast_uint32. apply Z_mod_plus_full. Qed.

Lemma cast_uint32_range (x : Z) : 0 <= cast_uint32 x < 2 ^ 32.
Proof. unfold cast_uint32. apply Z.mod_pos_bound. lia. Qed.

(** X14.  The one-shot calls of the QAT codec take both lengths modulo
    2^32: a call with lengths that differ from others by multiples of
    2^32 gives the library the same lengths and so has the same result,
    stores the same bytes and leaves the same session.  A call succeeds
    exactly when the library returns [QZ_OK]; the count it then returns
    is the destination length the library left, below 2^32, and the
    source length the library left plays no part in it. *)
Theorem QatCodec_takes_lengths_modulo_2_32
    (Q : Qz.Library) (g_qzSession : Qz.QzSession_T Q)
    (input_len : Z) (input : list byte) (output_buffer_len : Z) :
  (forall k j,
      QatCodec_Compress Q g_qzSession (input_len + k * 2 ^ 32) input
        (output_buffer_len + j * 2 ^ 32)
      = QatCodec_Compress Q g_qzSession input_len input output_buffer_len)
  /\ (forall k j,
         QatCodec_Decompress Q g_qzSession (input_len + k * 2 ^ 32) input
           (output_buffer_len + j * 2 ^ 32)
         = QatCodec_Decompress Q g_qzSession input_len input
             output_buffer_len)
  /\ (let r := Qz.qzCompress Q g_qzSession input (cast_uint32 input_len)
                 (cast_uint32 output_buffer_len) 1 in
      forall v,
        fst (fst (QatCodec_Compress Q g_qzSession input_len input
                    output_buffer_len)) = Value v
        <-> Qz.ret r = Qz.QZ_OK /\ v = Qz.dest_len r mod 2 ^ 32)
  /\ (let r := Qz.qzDecompress Q g_qzSession input (cast_uint32 input_len)
                 (cast_uint32 output_buffer_len) in
      forall v,
        fst (fst (QatCodec_Decompress Q g_qzSession input_len input
                    output_buffer_len)) = Value v
        <-> Qz.ret r = Qz.QZ_OK /\ v = Qz.dest_len r mod 2 ^ 32).
Proof.
  split; [|split; [|split]].
  - intros k j. unfold QatCodec_Compress.
    rewrite !cast_uint32_wraps. reflexivity.
  - intros k j. unfold QatCodec_Decompress.
    rewrite !cast_uint32_wraps. reflexivity.
  - cbv zeta. intros v. unfold QatCodec_Compress. cbn [fst].
    destruct (Z.eqb_spec (Qz.ret (Qz.qzCompress Q g_qzSession input
                                    (cast_uint32 input_len)
                                    (cast_uint32 output_buffer_len) 1))
                Qz.QZ_OK) as [Hok|Hno].
    + unfold cast_uint32. split.
      * intros [= <-]. split; [exact Hok|reflexivity].
      * intros [_ ->]. reflexivity.
    + split.
      * destruct (_ =? Qz.QZ_PARAMS); [discriminate|].
        destruct (_ =? Qz.QZ_FAIL); discriminate.
      * intros [Hok _]. contradiction.
  - cbv zeta. intros v. unfold QatCodec_Decompress. cbn [fst].
    destruct (Z.eqb_spec (Qz.ret (Qz.qzDecompress Q g_qzSession input
                                    (cast_uint32 input_len)
                                    (cast_uint32 output_buffer_len)))
                Qz.QZ_OK) as [Hok|Hno].
    + unfold cast_uint32. split.
      * intros [= <-]. split; [exact Hok|reflexivity].
      * intros [_ ->]. reflexivity.
    + split.
      * destruct (_ =? Qz.QZ_PARAMS); [discriminate|].
        destruct (_ =? Qz.QZ_FAIL); discriminate.
      * intros [Hok _]. contradiction.
Qed.

(** * Properties of the conversion of Substrait relations *)

Section SubstraitConversion.

Import Substrait.

Variable L : Library.
Variable ext_set : ExtensionSet L.

(** Induction over a relation and the input it may have. *)
Lemma Rel_induction (P : Rel L -> Prop) :
  (forall read, P (kRead read)) ->
  (forall filter,
      (forall input, FilterRel.input filter = Some input -> P input) ->
      P (kFilter filter)) ->
  (forall project,
      (forall input, ProjectRel.input project = Some input -> P input) ->
      P (kProject project)) ->
  (forall s, P (kOtherRel s)) ->
  forall rel, P rel.
Proof.
  intros Hread Hfilter Hproject Hother.
  fix IH 1.
  intros [read|[c a [input|] cond]|[c a [input|] exprs]|s].
  - apply Hread.
  - apply Hfilter. cbn. intros r [= <-]. apply IH.
  - apply Hfilter. cbn. intros r [=].
  - apply Hproject. cbn. intros r [= <-]. apply IH.
  - apply Hproject. cbn. intros r [=].
  - apply Hother.
Qed.

Lemma initialized_twice (statics : Statics) :
  initialized (initialized statics) = initialized statics.
Proof. destruct statics as [[] n]; reflexivity. Qed.

Lemma FromProto_statics (rel : Rel L) (statics : Statics) :
  snd (FromProto ext_set rel statics) = initialized statics.
Proof.
  revert statics. induction rel as [read|filter IH|project IH|s]
    using Rel_induction; intros statics; cbn [FromProto];
    fold (initialized statics).
  - reflexivity.
  - destruct (CheckRelCommon filter); [|reflexivity].
    destruct (FilterRel.input filter) as [input|] eqn:Hin; [|reflexivity].
    specialize (IH input eq_refl (initialized statics)).
    rewrite initialized_twice in IH.
    destruct (FromProto ext_set input (initialized statics)) as [r st].
    cbn [snd] in IH. subst st.
    destruct r as [[d|code msg]|c|e]; try reflexivity.
    destruct (FilterRel.condition filter); [|reflexivity].
    destruct (FromProto_Expression L _ ext_set); reflexivity.
  - destruct (CheckRelCommon project); [|reflexivity].
    destruct (ProjectRel.input project) as [input|] eqn:Hin; [|reflexivity].
    specialize (IH input eq_refl (initialized statics)).
    rewrite initialized_twice in IH.
    destruct (FromProto ext_set input (initialized statics)) as [r st].
    cbn [snd] in IH. subst st.
    destruct r as [[d|code msg]|c|e]; try reflexivity.
    destruct (expressions_loop _ _ _ _); reflexivity.
  - reflexivity.
Qed.

(** X15.  [dataset::internal::Initialize()] runs once.  Whatever the
    relation and however the conversion ends, a call of [FromProto]
    leaves [dataset_init] set and has called [Initialize] once if the
    flag was not set before and not at all if it was, the conversions of
    the inputs included; no later call changes the statics again. *)
Theorem Initialize_runs_once (rel : Rel L) (statics : Statics) :
  let after := snd (FromProto ext_set rel statics) in
  dataset_init after = true
  /\ Initialize_calls after
     = (Initialize_calls statics
        + if dataset_init statics then 0 else 1)%nat
  /\ forall rel', snd (FromProto ext_set rel' after) = after.
Proof.
  cbv zeta. split; [|split].
  - rewrite FromProto_statics. destruct statics as [[] n]; reflexivity.
  - rewrite FromProto_statics. destruct statics as [[] n]; cbn; lia.
  - intros rel'. rewrite !FromProto_statics. apply initialized_twice.
Qed.

(** ** Strings *)





(** ** The checks on a message *)

Lemma CheckRelCommon_OK (M : Type) (R : RelMessage M) (rel : M) :
  CheckRelCommon rel = OK <-> carries_extension rel = false.
Proof.
  unfold CheckRelCommon, carries_extension.
  destruct (common rel) as [[[] [] []]|], (has_advanced_extension rel);
    cbn; split; intros H; try reflexivity; discriminate H.
Qed.

Lemma CheckRelCommon_code (M : Type) (R : RelMessage M) (rel : M)
    (code : StatusCode) (msg : string) :
  CheckRelCommon rel = Error code msg -> code = NotImplemented.
Proof.
  unfold CheckRelCommon.
  destruct (common rel) as [[[] [] []]|], (has_advanced_extension rel);
    cbn; intros [= <- _]; reflexivity.
Qed.

(** ** The read case *)


Lemma last_cons (A : Type) (l : list A) (x d : A) :
  last (x :: l) d = last l x.
Proof.
  revert x d. induction l as [|y l IH]; intros x d; [reflexivity|].
  change (last (y :: l) d = last (y :: l) x). rewrite !IH. reflexivity.
Qed.




Lemma FromProto_read_value (read : ReadRel.t L) (d : Declaration L) :
  FromProto_read ext_set read = Done (Value d) ->
  carries_extension read = false
  /\ exists base_schema local_files head rest,
       FromProto_NamedStruct L (ReadRel.base_schema read) ext_set
       = Value base_schema
       /\ ReadRel.has_projection read = false
       /\ ReadRel.local_files read = Some local_files
       /\ LocalFiles.has_advanced_extension local_files = false
       /\ LocalFiles.items local_files = head :: rest
       /\ if is_iterator head then
            exists n,
              stoi L (substr (FileOrFiles.uri_file head) 9) = stoi_value n
              /\ d = mk_Declaration "source_index" [] (SourceIndexOptions n)
          else
            exists format fragments ds,
              items_loop L (head :: rest) None [] = Value (format, fragments)
              /\ FileSystemDataset_Make L base_schema format fragments
                 = Value ds
              /\ d = mk_Declaration "scan" [] (ScanNodeOptions ds).
Proof.
  unfold FromProto_read. intros H.
  destruct (CheckRelCommon read) eqn:Hcheck; [|discriminate H].
  apply CheckRelCommon_OK in Hcheck. split; [exact Hcheck|].
  destruct (FromProto_NamedStruct L _ ext_set) as [base_schema|] eqn:Hschema;
    [|discriminate H].
  destruct (ReadRel.has_projection read) eqn:Hproj; [discriminate H|].
  destruct (ReadRel.local_files read) as [local_files|] eqn:Hfiles;
    [|discriminate H].
  destruct (LocalFiles.has_advanced_extension local_files) eqn:Hadv;
    [discriminate H|].
  destruct (LocalFiles.items local_files) as [|head rest] eqn:Hitems;
    [discriminate H|].
  exists base_schema, local_files, head, rest.
  repeat (split; [first [reflexivity | assumption]|]).
  destruct (is_iterator head).
  - destruct (stoi L _) as [n| |] eqn:Hstoi; try discriminate H.
    injection H as <-. exists n. split; reflexivity.
  - destruct (items_loop L (head :: rest) None [])
      as [[format fragments]|] eqn:Hloop; [|discriminate H].
    destruct (FileSystemDataset_Make L _ _ _) as [ds|] eqn:Hmake;
      [|discriminate H].
    injection H as <-. exists format, fragments, ds.
    repeat split; first [reflexivity | assumption].
Qed.


(** ** The whole relation *)

Lemma chain_head (rel : Rel L) : exists tl, chain rel = rel :: tl.
Proof. destruct rel; cbn [chain]; eexists; reflexivity. Qed.

Lemma last_chain (rel d : Rel L) : last (chain rel) d = last (chain rel) rel.
Proof.
  destruct (chain_head rel) as [tl ->]. rewrite !last_cons. reflexivity.
Qed.

Lemma FromProto_filter_value (filter : FilterRel.t L (Rel L))
    (statics statics' : Statics) (d : Declaration L) :
  FromProto ext_set (kFilter filter) statics = (Done (Value d), statics') ->
  carries_extension filter = false
  /\ exists input_rel input condition c,
       FilterRel.input filter = Some input_rel
       /\ FromProto ext_set input_rel (initialized statics)
          = (Done (Value input), statics')
       /\ FilterRel.condition filter = Some c
       /\ FromProto_Expression L c ext_set = Value condition
       /\ d = mk_Declaration "filter" [input] (FilterNodeOptions condition).
Proof.
  cbn [FromProto]. fold (initialized statics). intros H.
  destruct (CheckRelCommon filter) eqn:Hcheck; [|discriminate H].
  apply CheckRelCommon_OK in Hcheck. split; [exact Hcheck|].
  destruct (FilterRel.input filter) as [input_rel|] eqn:Hin;
    [|discriminate H].
  destruct (FromProto ext_set input_rel (initialized statics))
    as [[[input|]| |] st] eqn:Hrec; try discriminate H.
  destruct (FilterRel.condition filter) as [c|] eqn:Hcond;
    [|discriminate H].
  destruct (FromProto_Expression L c ext_set) as [condition|] eqn:Hconv;
    [|discriminate H].
  injection H as <- <-.
  exists input_rel, input, condition, c.
  repeat split; first [reflexivity | assumption].
Qed.

Lemma FromProto_project_value (project : ProjectRel.t L (Rel L))
    (statics statics' : Statics) (d : Declaration L) :
  FromProto ext_set (kProject project) statics
  = (Done (Value d), statics') ->
  carries_extension project = false
  /\ exists input_rel input expressions,
       ProjectRel.input project = Some input_rel
       /\ FromProto ext_set input_rel (initialized statics)
          = (Done (Value input), statics')
       /\ expressions_loop L ext_set (ProjectRel.expressions project) []
          = Value expressions
       /\ d = mk_Declaration "project" [input]
                (ProjectNodeOptions expressions).
Proof.
  cbn [FromProto]. fold (initialized statics). intros H.
  destruct (CheckRelCommon project) eqn:Hcheck; [|discriminate H].
  apply CheckRelCommon_OK in Hcheck. split; [exact Hcheck|].
  destruct (ProjectRel.input project) as [input_rel|] eqn:Hin;
    [|discriminate H].
  destruct (FromProto ext_set input_rel (initialized statics))
    as [[[input|]| |] st] eqn:Hrec; try discriminate H.
  destruct (expressions_loop L ext_set _ _) as [expressions|] eqn:Hloop;
    [|discriminate H].
  injection H as <- <-.
  exists input_rel, input, expressions.
  repeat split; first [reflexivity | assumption].
Qed.

(** X17.  What [FromProto] converts.  When it returns a declaration, the
    relation is a chain of filters and projections over a read: every
    relation of the chain is of one of these three kinds and carries no
    emit, hint or advanced extension; every filter and projection has an
    input, every filter a condition; and the declaration is a chain of
    the same length, with the factory of each relation in the order of
    the chain and each relation's input as the only input of its
    declaration. *)
Theorem converted_relation_is_a_supported_chain
    (rel : Rel L) (statics statics' : Statics) (d : Declaration L) :
  FromProto ext_set rel statics = (Done (Value d), statics') ->
  Forall (@supported L) (chain rel)
  /\ spine d = map (@factory_of L) (chain rel)
  /\ exists read, last (chain rel) rel = kRead read.
Proof.
  revert statics statics' d.
  induction rel as [read|filter IH|project IH|s] using Rel_induction;
    intros statics statics' d H.
  - cbn [FromProto] in H. injection H as H _.
    destruct (@FromProto_read_value read d H)
      as (Hfree & base_schema & local_files & head & rest
          & _ & _ & Hfiles & _ & Hitems & Hd).
    cbn [chain map last factory_of]. rewrite Hfiles, Hitems.
    split; [constructor; [exact Hfree|constructor]|].
    split; [|exists read; reflexivity].
    destruct (is_iterator head).
    + destruct Hd as (n & _ & ->). reflexivity.
    + destruct Hd as (format & fragments & ds & _ & _ & ->). reflexivity.
  - apply FromProto_filter_value in H. destruct H
      as (Hfree & input_rel & input & condition & c
          & Hin & Hrec & Hcond & _ & ->).
    destruct (IH input_rel Hin _ _ _ Hrec) as (Hall & Hspine & read & Hlast).
    cbn [chain spine]. rewrite Hin. split; [|split].
    + constructor; [|exact Hall]. cbn [supported].
      rewrite Hin, Hcond. repeat split; [exact Hfree|discriminate..].
    + cbn [map factory_of]. rewrite Hspine. reflexivity.
    + exists read. destruct (chain_head input_rel) as [tl Htl].
      rewrite Htl, last_cons, <- Htl, last_chain. exact Hlast.
  - apply FromProto_project_value in H. destruct H
      as (Hfree & input_rel & input & expressions & Hin & Hrec & _ & ->).
    destruct (IH input_rel Hin _ _ _ Hrec) as (Hall & Hspine & read & Hlast).
    cbn [chain spine]. rewrite Hin. split; [|split].
    + constructor; [|exact Hall]. cbn [supported].
      rewrite Hin. repeat split; [exact Hfree|discriminate].
    + cbn [map factory_of]. rewrite Hspine. reflexivity.
    + exists read. destruct (chain_head input_rel) as [tl Htl].
      rewrite Htl, last_cons, <- Htl, last_chain. exact Hlast.
  - discriminate H.
Qed.

Lemma FromProto_read_no_return (read : ReadRel.t L) :
  match FromProto_read ext_set read with
  | Done _ => True
  | Fatal _ => no_files read
  | Throws e => (forall n, e <> stoi_value n) /\ bad_iterator read e
  end.
Proof.
  unfold FromProto_read, no_files, bad_iterator.
  destruct (CheckRelCommon read); [|exact I].
  destruct (FromProto_NamedStruct L _ ext_set); [|exact I].
  destruct (ReadRel.has_projection read); [exact I|].
  destruct (ReadRel.local_files read) as [local_files|]; [|exact I].
  destruct (LocalFiles.has_advanced_extension local_files); [exact I|].
  destruct (LocalFiles.items local_files) as [|head rest] eqn:Hitems.
  - exists local_files. split; [reflexivity|exact Hitems].
  - destruct (is_iterator head) eqn:Hit.
    + unfold is_iterator, FileOrFiles.is_uri_file, FileOrFiles.uri_file
        in *.
      destruct (FileOrFiles.path_type head) as [| | |uri|] eqn:Hpath;
        try discriminate Hit.
      cbn [andb] in Hit.
      destruct (stoi L (substr uri 9)) eqn:Hstoi; [exact I| |].
      * split; [discriminate|].
        exists local_files, head, rest, uri. repeat split; assumption.
      * split; [discriminate|].
        exists local_files, head, rest, uri. repeat split; assumption.
    + destruct (items_loop L _ _ _) as [[format fragments]|]; [|exact I].
      destruct (FileSystemDataset_Make L _ _ _); exact I.
Qed.

(** X18.  When [FromProto] does not return.  A conversion ends in the
    failed bounds check of [items().at(0)] only if a read of the chain
    has a [LocalFiles] with no item, and in an exception only if the
    first item of a read of the chain is an [iterator:] file whose index
    [std::stoi] rejects, the exception being the one [std::stoi] throws;
    a filter or a projection passes on what the conversion of its input
    did.  For a read itself the first condition is exact: the check
    fails when and only when the read carries no extension, its schema
    converts, it has no projection and its [LocalFiles] has no advanced
    extension and no item. *)
Theorem conversion_fails_to_return_only_at_a_read :
  (forall rel statics,
      match fst (FromProto ext_set rel statics) with
      | Done _ => True
      | Fatal _ =>
          exists read, In (kRead read) (chain rel) /\ no_files read
      | Throws e =>
          (forall n, e <> stoi_value n)
          /\ exists read, In (kRead read) (chain rel) /\ bad_iterator read e
      end)
  /\ (forall read statics,
         (exists check,
             fst (FromProto ext_set (kRead read) statics) = Fatal check)
         <-> carries_extension read = false
             /\ (exists base_schema,
                    FromProto_NamedStruct L (ReadRel.base_schema read) ext_set
                    = Value base_schema)
             /\ ReadRel.has_projection read = false
             /\ exists local_files,
                  ReadRel.local_files read = Some local_files
                  /\ LocalFiles.has_advanced_extension local_files = false
                  /\ LocalFiles.items local_files = []).
Proof.
  split.
  - induction rel as [read|filter IH|project IH|s] using Rel_induction;
      intros statics; cbn [FromProto]; fold (initialized statics).
    + cbn [fst]. pose proof (FromProto_read_no_return read) as H.
      destruct (FromProto_read ext_set read) as [r|c|e]; [exact I| |].
      * exists read. split; [left; reflexivity|exact H].
      * destruct H as [Hne H]. split; [exact Hne|].
        exists read. split; [left; reflexivity|exact H].
    + destruct (CheckRelCommon filter); [|exact I].
      destruct (FilterRel.input filter) as [input_rel|] eqn:Hin;
        [|exact I].
      specialize (IH input_rel eq_refl (initialized statics)).
      cbn [chain]. rewrite Hin.
      destruct (FromProto ext_set input_rel (initialized statics))
        as [[[input|]|c|e] st]; cbn [fst] in *.
      * destruct (FilterRel.condition filter); [|exact I].
        destruct (FromProto_Expression L _ ext_set); exact I.
      * exact I.
      * destruct IH as (read & Hread & H).
        exists read. split; [right; exact Hread|exact H].
      * destruct IH as (Hne & read & Hread & H). split; [exact Hne|].
        exists read. split; [right; exact Hread|exact H].
    + destruct (CheckRelCommon project); [|exact I].
      destruct (ProjectRel.input project) as [input_rel|] eqn:Hin;
        [|exact I].
      specialize (IH input_rel eq_refl (initialized statics)).
      cbn [chain]. rewrite Hin.
      destruct (FromProto ext_set input_rel (initialized statics))
        as [[[input|]|c|e] st]; cbn [fst] in *.
      * destruct (expressions_loop L ext_set _ _); exact I.
      * exact I.
      * destruct IH as (read & Hread & H).
        exists read. split; [right; exact Hread|exact H].
      * destruct IH as (Hne & read & Hread & H). split; [exact Hne|].
        exists read. split; [right; exact Hread|exact H].
    + exact I.
  - intros read statics. cbn [FromProto fst]. unfold FromProto_read.
    rewrite <- CheckRelCommon_OK.
    destruct (CheckRelCommon read).
    2:{ split; [intros [? [=]]|intros [[=] _]]. }
    destruct (FromProto_NamedStruct L _ ext_set) as [base_schema|].
    2:{ split; [intros [? [=]]|intros (_ & [? [=]] & _)]. }
    destruct (ReadRel.has_projection read).
    { split; [intros [? [=]]|intros (_ & _ & [=] & _)]. }
    destruct (ReadRel.local_files read) as [local_files|].
    2:{ split; [intros [? [=]]|intros (_ & _ & _ & ? & [=] & _)]. }
    destruct (LocalFiles.has_advanced_extension local_files) eqn:Hadv.
    { split; [intros [? [=]]|intros (_ & _ & _ & ? & [= <-] & Ha & _)].
      rewrite Hadv in Ha. discriminate Ha. }
    destruct (LocalFiles.items local_files) as [|head rest] eqn:Hitems.
    + split; [intros _|intros _; eexists; reflexivity].
      split; [reflexivity|]. split; [exists base_schema; reflexivity|].
      split; [reflexivity|]. exists local_files.
      repeat split; assumption.
    + split.
      * intros [check H]. exfalso.
        destruct (is_iterator head).
        -- destruct (stoi L _); discriminate H.
        -- destruct (items_loop L _ _ _) as [[format fragments]|];
             [|discriminate H].
           destruct (FileSystemDataset_Make L _ _ _); discriminate H.
      * intros (_ & _ & _ & ? & [= <-] & _ & Hi).
        rewrite Hitems in Hi. discriminate Hi.
Qed.

(** ** What a read does not look at *)

Lemma items_loop_partition_index (items : list FileOrFiles.t)
    (format : option FileFormat) (fragments : list (FileFragment L)) :
  items_loop L (map (with_partition_index 0) items) format fragments
  = items_loop L items format fragments.
Proof.
  revert format fragments.
  induction items as [|item rest IH]; intros format fragments;
    [reflexivity|].
  cbn [map items_loop].
  change (FileOrFiles.is_uri_file (with_partition_index 0 item))
    with (FileOrFiles.is_uri_file item).
  change (FileOrFiles.uri_file (with_partition_index 0 item))
    with (FileOrFiles.uri_file item).
  cbn [with_partition_index FileOrFiles.file_format_case
       FileOrFiles.start FileOrFiles.length].
  destruct (negb (FileOrFiles.is_uri_file item)); [reflexivity|].
  destruct (FileOrFiles.file_format_case item); try reflexivity.
  - destruct (negb _); [reflexivity|].
    destruct (MakeFragment L _ _); [apply IH|reflexivity].
  - destruct (negb _); [reflexivity|].
    destruct (MakeFragment L _ _); [apply IH|reflexivity].
Qed.

Lemma FromProto_read_without_filter (read : ReadRel.t L) :
  FromProto_read ext_set (without_filter read)
  = FromProto_read ext_set read.
Proof.
  unfold FromProto_read.
  change (CheckRelCommon (without_filter read)) with (CheckRelCommon read).
  destruct (CheckRelCommon read); [|reflexivity].
  cbn [without_filter ReadRel.base_schema ReadRel.has_projection
       ReadRel.local_files].
  destruct (FromProto_NamedStruct L _ ext_set); [|reflexivity].
  destruct (ReadRel.has_projection read); [reflexivity|].
  destruct (ReadRel.local_files read) as [local_files|]; [|reflexivity].
  cbn [LocalFiles.has_advanced_extension LocalFiles.items].
  destruct (LocalFiles.has_advanced_extension local_files); [reflexivity|].
  rewrite items_loop_partition_index.
  destruct (LocalFiles.items local_files) as [|head rest]; reflexivity.
Qed.

(** X19.  What a read ignores.  The filter of a [ReadRel] and the
    partition indices of its files have no part in the conversion: two
    reads that differ in nothing else are converted alike, to the same
    declaration or the same failure. *)
Theorem read_filter_and_partition_index_are_ignored
    (read read' : ReadRel.t L) (statics : Statics) :
  without_filter read = without_filter read' ->
  FromProto ext_set (kRead read) statics
  = FromProto ext_set (kRead read') statics.
Proof.
  intros H. cbn [FromProto].
  rewrite <- (FromProto_read_without_filter read),
          <- (FromProto_read_without_filter read'), H.
  reflexivity.
Qed.

End SubstraitConversion.

Section SubstraitExamples.

Import Substrait.


Lemma converted_relation_is_a_supported_chain_witness :
  Forall (@supported plain) (chain filter_one_file)
  /\ spine (Sequence scan_one_file
              (mk_Declaration "filter" [] (@FilterNodeOptions plain 1)))
     = map (@factory_of plain) (chain filter_one_file)
  /\ exists read, last (chain filter_one_file) filter_one_file = kRead read.
Proof.
  apply (@converted_relation_is_a_supported_chain plain tt filter_one_file
           (mk_Statics false 0) (mk_Statics true 1)).
  reflexivity.
Defined.

Lemma read_filter_and_partition_index_are_ignored_witness :
  FromProto (L:=plain) tt (kRead read_one_file_filtered) (mk_Statics true 1)
  = FromProto (L:=plain) tt (kRead read_one_file) (mk_Statics true 1).
Proof.
  apply (@read_filter_and_partition_index_are_ignored plain tt).
  reflexivity.
Defined.

End SubstraitExamples.
